(** * Slotting and aggregation engine of [streamlit_app.py]

    A shallow embedding of the plan/forecast slot engine
    ([calculate_overlap], [calculate_plan], [calculate_forecast],
    [finalize_slot_df], [prepare_slot_data], [render_chart_and_table],
    [calculate_monthly_kpi]) together with the part of pandas the engine
    relies on.

    Conventions of the embedding:
    - a [pd.Timestamp] is its [int64] value, the number of nanoseconds
      since 1970-01-01 (timezone naive), as a [Z]; a [pd.Timedelta] is a
      number of nanoseconds;
    - a [float] column holds exact rationals ([Q]); rounding of IEEE
      doubles and NaN are outside the model, [fillna] is modelled on
      missing cells only;
    - a [DataFrame] is a list of column labels and a list of typed rows,
      so that a missing column raises [KeyError] as in pandas;
    - a Python exception is the [Raise] branch of [result];
    - timestamps are unbounded integers: the model covers the runs in
      which no timestamp leaves the [int64] range of pandas (years 1678
      to 2261);
    - the forecast rows carry the timestamp that [pd.to_datetime] gives
      for their ['Дата'] and ['Время'] texts: no loader validates these
      two columns, and a text that does not parse makes lines 306 and
      599 raise; the model covers the frames whose dates and times
      parse. *)

From Stdlib Require Import ZArith QArith Qfield String List Bool Lia Sorted.
Import ListNotations.

Local Open Scope string_scope.
Local Open Scope list_scope.
Local Open Scope Z_scope.

(** ** Exceptions *)

Inductive exn : Type :=
| KeyError (key : string)
| TypeError
| ValueError
| InvalidIndexError.

Inductive result (A : Type) : Type :=
| Ok (a : A)
| Raise (e : exn).

Arguments Ok {A} a.
Arguments Raise {A} e.

Definition bind {A B : Type} (c : result A) (k : A -> result B) : result B :=
  match c with
  | Ok a => k a
  | Raise e => Raise e
  end.

Notation "x <- c ;; k" := (bind c (fun x => k))
  (at level 61, c at next level, right associativity).
Notation "c ;;; k" := (bind c (fun _ => k))
  (at level 61, right associativity).

(** A [for] loop whose body may raise and that appends to an accumulator. *)
Fixpoint for_each {A B : Type} (xs : list A) (body : A -> result (list B))
  : result (list B) :=
  match xs with
  | [] => Ok []
  | x :: xs' =>
      ys <- body x ;;
      zs <- for_each xs' body ;;
      Ok (ys ++ zs)
  end.

(** ** Time *)

Definition Timestamp := Z.
Definition Timedelta := Z.

Definition NS_PER_SECOND : Z := 1000000000.
Definition NS_PER_DAY : Z := 86400 * NS_PER_SECOND.

Definition Timedelta_minutes (n : Z) : Timedelta := n * 60 * NS_PER_SECOND.
Definition Timedelta_days (n : Z) : Timedelta := n * NS_PER_DAY.

(** [Timedelta.total_seconds()] *)
Definition total_seconds (td : Timedelta) : Q :=
  inject_Z td / inject_Z NS_PER_SECOND.

Arguments total_seconds td%_Z_scope.

(** [Series.sum()] of a float column; the sum of no cell is 0. *)
Definition Qsum (xs : list Q) : Q := fold_right Qplus 0%Q xs.

(** *** The proleptic Gregorian calendar

    [datetime.date] is modelled by its day number (days since
    1970-01-01); the civil fields are recovered with the usual era
    arithmetic. *)

Definition days_from_civil (y m d : Z) : Z :=
  let y' := if m <=? 2 then y - 1 else y in
  let era := y' / 400 in
  let yoe := y' - era * 400 in
  let mp := if 2 <? m then m - 3 else m + 9 in
  let doy := (153 * mp + 2) / 5 + d - 1 in
  let doe := yoe * 365 + yoe / 4 - yoe / 100 + doy in
  era * 146097 + doe - 719468.

Definition civil_from_days (z : Z) : Z * Z * Z :=
  let z' := z + 719468 in
  let era := z' / 146097 in
  let doe := z' - era * 146097 in
  let yoe := (doe - doe / 1460 + doe / 36524 - doe / 146096) / 365 in
  let doy := doe - (365 * yoe + yoe / 4 - yoe / 100) in
  let mp := (5 * doy + 2) / 153 in
  let d := doy - (153 * mp + 2) / 5 + 1 in
  let m := if mp <? 10 then mp + 3 else mp - 9 in
  ((if m <=? 2 then yoe + era * 400 + 1 else yoe + era * 400), m, d).

Definition is_leap_year (y : Z) : bool :=
  ((y mod 4 =? 0) && negb (y mod 100 =? 0)) || (y mod 400 =? 0).

Definition days_in_month (y m : Z) : Z :=
  if m =? 2 then (if is_leap_year y then 29 else 28)
  else if (m =? 4) || (m =? 6) || (m =? 9) || (m =? 11) then 30
  else 31.

(** [ts.date()], [ts.time()], [ts.year], [ts.month], [ts.day] *)
Definition date_of (ts : Timestamp) : Z := ts / NS_PER_DAY.
Definition time_of (ts : Timestamp) : Z := ts mod NS_PER_DAY.
Definition year_of (ts : Timestamp) : Z :=
  let '(y, _, _) := civil_from_days (date_of ts) in y.
Definition month_of (ts : Timestamp) : Z :=
  let '(_, m, _) := civil_from_days (date_of ts) in m.
Definition day_of (ts : Timestamp) : Z :=
  let '(_, _, d) := civil_from_days (date_of ts) in d.

(** [pd.Timestamp(year=y, month=m, day=d)] *)
Definition Timestamp_ymd (y m d : Z) : result Timestamp :=
  if negb ((1 <=? m) && (m <=? 12)) then Raise ValueError
  else if negb ((1 <=? d) && (d <=? days_in_month y m)) then Raise ValueError
  else Ok (days_from_civil y m d * NS_PER_DAY).

(** [ts + pd.offsets.MonthEnd(1)]: the next month end strictly after the
    day of [ts], the time of day kept. *)
Definition add_MonthEnd1 (ts : Timestamp) : Timestamp :=
  let y := year_of ts in
  let m := month_of ts in
  let '(y', m') :=
    if day_of ts =? days_in_month y m
    then (if m =? 12 then (y + 1, 1) else (y, m + 1))
    else (y, m) in
  days_from_civil y' m' (days_in_month y' m') * NS_PER_DAY + time_of ts.

(** ** [pd.date_range(start, end, freq, inclusive='left')]

    pandas first generates [start, start + freq, ...] up to and including
    [end_]; with [inclusive='left'] the last point is then dropped when it
    equals [end_], so that the points are those of [[start, end_)] and
    [start == end_] gives no point.  (Older releases of pandas, 2.2
    among them, kept the single point for [start == end_]; the
    repository pins no version and the model follows the current
    behaviour.) *)

Definition regular_range (start end_ : Timestamp) (freq : Timedelta)
  : list Timestamp :=
  if end_ <? start then []
  else map (fun i => start + Z.of_nat i * freq)
           (seq 0 (S (Z.to_nat ((end_ - start) / freq)))).

Definition date_range (start end_ : Timestamp) (freq : Timedelta)
  : list Timestamp :=
  let both := regular_range start end_ freq in
  if last both start =? end_ then removelast both
  else both.

Definition freq_30min : Timedelta := Timedelta_minutes 30.
Definition freq_D : Timedelta := Timedelta_days 1.

(** ** Data frames *)

Record DataFrame (R : Type) : Type := mkDataFrame
  { columns : list string;
    rows : list R }.

Arguments mkDataFrame {R} columns rows.
Arguments columns {R} d.
Arguments rows {R} d.

(** [pd.DataFrame()] *)
Definition DataFrame_empty {R : Type} : DataFrame R := mkDataFrame [] [].

(** [pd.DataFrame(records)] for a list of dicts with the keys [cols]: with
    no record there is no column either. *)
Definition DataFrame_records {R : Type} (cols : list string) (records : list R)
  : DataFrame R :=
  match records with
  | [] => mkDataFrame [] []
  | _ => mkDataFrame cols records
  end.

(** [df.empty] *)
Definition empty {R : Type} (df : DataFrame R) : bool :=
  match columns df, rows df with
  | [], _ => true
  | _, [] => true
  | _, _ => false
  end.

Definition has_column {R : Type} (df : DataFrame R) (c : string) : bool :=
  existsb (String.eqb c) (columns df).

(** [df[c]]: the column must exist. *)
Definition getitem {R : Type} (df : DataFrame R) (c : string) : result unit :=
  if has_column df c then Ok tt else Raise (KeyError c).

(** [df[mask]] *)
Definition select {R : Type} (mask : R -> bool) (df : DataFrame R) : DataFrame R :=
  mkDataFrame (columns df) (filter mask (rows df)).

(** [df[c] = ...]: adds the column when it is new. *)
Definition add_column {R : Type} (c : string) (df : DataFrame R) : DataFrame R :=
  if has_column df c then df else mkDataFrame (columns df ++ [c]) (rows df).

(** ** Activity intervals *)

Record Activity : Type := mkActivity
  { start : Timestamp;
    end_ : Timestamp;
    main_act : string;
    skill_variant : string }.

(** The activity table always comes from a successfully loaded file, so
    its columns are present; only its rows vary. *)
Definition ActivityFrame := list Activity.

(** [calculate_overlap(df_activity, slot_start, slot_end)] *)
Definition overlap_mask (slot_start slot_end : Timestamp) (r : Activity) : bool :=
  (start r <? slot_end) && (end_ r >? slot_start).

Definition calculate_overlap (df_activity : ActivityFrame)
  (slot_start slot_end : Timestamp) : Q :=
  let filtered := filter (overlap_mask slot_start slot_end) df_activity in
  match filtered with
  | [] => 0%Q
  | _ =>
      let overlap_start := map (fun x => Z.max (start x) slot_start) filtered in
      let overlap_end := map (fun x => Z.min (end_ x) slot_end) filtered in
      let total_seconds :=
        Qsum (map (fun p => total_seconds (snd p - fst p))
                  (combine overlap_start overlap_end)) in
      (total_seconds / 3600)%Q
  end.

Arguments calculate_overlap df_activity slot_start%_Z_scope slot_end%_Z_scope.

(** ** Plan and forecast series

    A frame indexed by [slot_start] with one float column is the list of
    its (index, value) rows. *)

Definition SlotSeries := list (Timestamp * Q).

(** [df.set_index(c)]: the column must exist. *)
Definition set_index {R : Type} (c : string) (df : DataFrame R)
  : result (list R) :=
  if has_column df c then Ok (rows df) else Raise (KeyError c).

Definition slot_width (is_hourly : bool) : Timedelta :=
  if is_hourly then Timedelta_minutes 30 else Timedelta_days 1.

(** [calculate_plan(df_period, times, is_hourly)] *)
Definition calculate_plan (df_period : ActivityFrame) (times : list Timestamp)
  (is_hourly : bool) : result SlotSeries :=
  let plan_list :=
    map (fun t =>
           let start := t in
           let end_ := t + slot_width is_hourly in
           let plan := calculate_overlap df_period start end_ in
           (t, plan)) times in
  set_index "slot_start" (DataFrame_records ["slot_start"; "План"] plan_list).

(** A forecast row; [ts] is [pd.to_datetime(Дата + ' ' + Время)] for a
    row whose date and time parse. *)
Record ForecastRow : Type := mkForecastRow
  { ts : Timestamp;
    channel : string;
    system_group : string;
    forecast : Q }.

Definition ForecastFrame := DataFrame ForecastRow.

(** The columns of the frame that [process_forecast] returns for an
    uploaded file. *)
Definition forecast_columns : list string :=
  ["Дата"; "Время"; "system_group"; "Канал коммуникации"; "Прогноз"].

(** [calculate_forecast(df_forecast, times, start_dt, end_dt, is_hourly)] *)
Definition calculate_forecast (df_forecast : ForecastFrame)
  (times : list Timestamp) (start_dt end_dt : option Timestamp)
  (is_hourly : bool) : result SlotSeries :=
  if empty df_forecast then
    set_index "slot_start"
      (mkDataFrame ["slot_start"; "Прогноз"]
         (combine times (repeat 0%Q (length times))))
  else
    getitem df_forecast "Дата" ;;;
    getitem df_forecast "Время" ;;;
    let df_fc := add_column "ts" df_forecast in
    df_fc <- (if negb is_hourly then
                match start_dt, end_dt with
                | Some s, Some e =>
                    Ok (select (fun r => (s <=? ts r) && (ts r <? e)) df_fc)
                | _, _ => Raise TypeError
                end
              else Ok df_fc) ;;
    forecast_list <-
      for_each times (fun t =>
        let mask r :=
          if is_hourly then ts r =? t
          else (t <=? ts r) && (ts r <? t + Timedelta_days 1) in
        getitem df_fc "Прогноз" ;;;
        Ok [(t, Qsum (map forecast (filter mask (rows df_fc))))]) ;;
    set_index "slot_start"
      (DataFrame_records ["slot_start"; "Прогноз"] forecast_list).

(** ** Merging and uniformity *)

Record SlotRecord : Type := mkSlotRecord
  { slot_start : Timestamp;
    plan_hours : Q;
    forecast_value : Q;
    uniformity : Q }.

Definition index (s : SlotSeries) : list Timestamp := map fst s.

Fixpoint is_unique (l : list Timestamp) : bool :=
  match l with
  | [] => true
  | x :: l' => negb (existsb (Z.eqb x) l') && is_unique l'
  end.

Definition lookup (t : Timestamp) (s : SlotSeries) : option Q :=
  option_map snd (find (fun p => fst p =? t) s).

Definition list_eqb (l1 l2 : list Timestamp) : bool :=
  (length l1 =? length l2)%nat && forallb (fun p => fst p =? snd p) (combine l1 l2).

(** [pd.concat([plan_df, forecast_df], axis=1)]: equal indexes are kept
    as they are; otherwise the frames are aligned on the union of the
    indexes, which pandas refuses when an index has duplicates.  A
    missing cell is [None].  The pipeline only merges frames over the
    same list of slots, where the model is exact; the order of the rows
    of a union is not used by any statement below. *)
Definition concat_axis1 (plan_df forecast_df : SlotSeries)
  : result (list (Timestamp * option Q * option Q)) :=
  if list_eqb (index plan_df) (index forecast_df) then
    Ok (map (fun p => (fst (fst p), Some (snd (fst p)), Some (snd (snd p))))
            (combine plan_df forecast_df))
  else if negb (is_unique (index plan_df) && is_unique (index forecast_df)) then
    Raise InvalidIndexError
  else
    let extra :=
      filter (fun t => negb (existsb (Z.eqb t) (index plan_df)))
             (index forecast_df) in
    Ok (map (fun t => (t, lookup t plan_df, lookup t forecast_df))
            (index plan_df ++ extra)).

(** [.fillna(0)] *)
Definition fillna0 (c : option Q) : Q :=
  match c with
  | Some v => v
  | None => 0%Q
  end.

Definition Qgtb0 (q : Q) : bool :=
  match Qlt_le_dec 0 q with
  | left _ => true
  | right _ => false
  end.

(** [k = total_plan / total_forecast if total_forecast > 0 else 0.0] *)
Definition scale_factor (total_plan total_forecast : Q) : Q :=
  if Qgtb0 total_forecast then (total_plan / total_forecast)%Q else 0%Q.

Definition in_year_month (year month : Z) (t : Timestamp) : bool :=
  (year_of t =? year) && (month_of t =? month).

(** The merged table before the uniformity column is added: slot start,
    ['План'], ['Прогноз']. *)
Definition MergedRow : Type := Timestamp * Q * Q.

Definition m_slot (r : MergedRow) : Timestamp := fst (fst r).
Definition m_plan (r : MergedRow) : Q := snd (fst r).
Definition m_forecast (r : MergedRow) : Q := snd r.

(** The optional restriction to a year and month. *)
Definition restrict_month (year month : option Z) (slot_df : list MergedRow)
  : list MergedRow :=
  match year, month with
  | Some y, Some m => filter (fun r => in_year_month y m (m_slot r)) slot_df
  | _, _ => slot_df
  end.

(** The totals, the factor [k] and the ['Равномерность'] column; an
    empty table gives the empty [pd.DataFrame()], written [[]]. *)
Definition add_uniformity (slot_df : list MergedRow) : list SlotRecord :=
  match slot_df with
  | [] => []
  | _ =>
      let total_plan := Qsum (map m_plan slot_df) in
      let total_forecast := Qsum (map m_forecast slot_df) in
      let k := scale_factor total_plan total_forecast in
      map (fun r => mkSlotRecord (m_slot r) (m_plan r) (m_forecast r)
                                 (m_forecast r * k)%Q) slot_df
  end.

(** [finalize_slot_df(plan_df, forecast_df, year, month)] *)
Definition finalize_slot_df (plan_df forecast_df : SlotSeries)
  (year month : option Z) : result (list SlotRecord) :=
  merged <- concat_axis1 plan_df forecast_df ;;
  let slot_df :=
    map (fun r => (fst (fst r), fillna0 (snd (fst r)), fillna0 (snd r))) merged in
  let slot_df := restrict_month year month slot_df in
  Ok (add_uniformity slot_df).

(** ** The view pipeline *)

Inductive Mode : Type :=
| By_hours   (* "По часам" *)
| By_days.   (* "По дням" *)

(** The part of [st.session_state] that [prepare_slot_data] reads. *)
Record SessionState : Type := mkSessionState
  { selected_date : Z;
    has_year : bool;      (* 'year' in st.session_state *)
    has_month : bool;     (* 'month' in st.session_state *)
    selected_year : Z;
    selected_month : Z }.

(** [pd.to_datetime(d)] for a [datetime.date] *)
Definition to_datetime (d : Z) : Timestamp := d * NS_PER_DAY.

(** [filter_by_period(df_filtered, start_dt, end_dt)] *)
Definition filter_by_period (df_filtered : ActivityFrame)
  (start_dt end_dt : option Timestamp) : ActivityFrame :=
  match start_dt, end_dt with
  | Some s, Some e =>
      filter (fun r => (start r <? e) && (end_ r >? s)) df_filtered
  | _, _ => df_filtered
  end.

(** [prepare_slot_data(mode, df_filtered, df_forecast, min_date, max_date)],
    the ['slot_df'] entry of its result. *)
Definition prepare_slot_data (st : SessionState) (mode : Mode)
  (df_filtered : ActivityFrame) (df_forecast : ForecastFrame)
  (min_date max_date : Z) : result (list SlotRecord) :=
  match mode with
  | By_hours =>
      let start_dt := to_datetime (selected_date st) in
      let end_dt := start_dt + Timedelta_days 1 in
      let df_period := filter_by_period df_filtered (Some start_dt) (Some end_dt) in
      let times := date_range start_dt end_dt freq_30min in
      plan_df <- calculate_plan df_period times true ;;
      forecast_df <- calculate_forecast df_forecast times None None true ;;
      finalize_slot_df plan_df forecast_df None None
  | By_days =>
      let start_dt := to_datetime min_date in
      let end_dt := to_datetime max_date + Timedelta_days 1 in
      let times := date_range (to_datetime min_date) (to_datetime max_date) freq_D in
      let df_period := df_filtered in
      let df_period :=
        if has_year st && has_month st then
          filter (fun r => month_of (start r) =? selected_month st)
                 (filter (fun r => year_of (start r) =? selected_year st) df_period)
        else df_period in
      plan_df <- calculate_plan df_period times false ;;
      forecast_df <-
        calculate_forecast df_forecast times (Some start_dt) (Some end_dt) false ;;
      finalize_slot_df plan_df forecast_df None None
  end.

(** Python truthiness of [year] and [month] *)
Definition truthy (x : option Z) : bool :=
  match x with
  | Some v => negb (v =? 0)
  | None => false
  end.

(** [render_chart_and_table(slot_df, mode, selected_date, year, month)]:
    the rows that are charted and tabulated. *)
Definition render_chart_and_table (slot_df : list SlotRecord) (mode : Mode)
  (year month : option Z) : list SlotRecord :=
  match slot_df with
  | [] => []
  | _ =>
      match mode, year, month with
      | By_days, Some y, Some m =>
          if truthy year && truthy month
          then filter (fun r => in_year_month y m (slot_start r)) slot_df
          else slot_df
      | _, _, _ => slot_df
      end
  end.

(** ** Monthly KPI *)

Definition CHANNEL_MAPPING : list (string * list string) :=
  [ ("Входящие звонки", ["Входящие звонки"]);
    ("Оффлайн функционал", ["Работа"; "Дежурство"; "Письма"]);
    ("Отработки-Доп рабочие интервалы", ["Доп рабочие интервалы"; "Отработка"]);
    ("Чаты", ["Чат"]);
    ("Перерывы", ["Свободное время"; "Обед"; "Перерыв"]);
    ("Отпуск", ["Отпуск"; "Учебный отпуск"]);
    ("Больничный", ["Больничный"]) ].

(** [d.get(k)] on a dict given as its list of items *)
Fixpoint dict_get {V : Type} (d : list (string * V)) (k : string) : option V :=
  match d with
  | [] => None
  | (k', v) :: d' => if String.eqb k k' then Some v else dict_get d' k
  end.

(** [d[k]] *)
Definition dict_getitem {V : Type} (d : list (string * V)) (k : string)
  : result V :=
  match dict_get d k with
  | Some v => Ok v
  | None => Raise (KeyError k)
  end.

Record KpiRecord : Type := mkKpiRecord
  { kpi_date : Z;            (* 'Дата' : ts.date() *)
    kpi_time : Z;            (* 'Время' : ts.time() *)
    kpi_channel : string;    (* 'Канал коммуникации' *)
    kpi_skill : string;      (* 'Скилл группа' *)
    kpi_plan : Q;            (* 'План' *)
    kpi_forecast : Q }.      (* 'Прогноз' *)

(** A row of the returned table: the record and its ['Дельта']. *)
Definition KpiRow : Type := KpiRecord * Q.

Definition kpi_columns : list string :=
  ["Дата"; "Время"; "Канал коммуникации"; "Скилл группа"; "План"; "Прогноз"].

Section MonthlyKpi.

(** The content of [mapping.json], which is loaded at import time. *)
Variable VARIANT_TO_SYSTEM : list (string * string).

(** [calculate_monthly_kpi(df_filtered, df_forecast, selected_channels,
    selected_variants, year, month)]; a local variable that has the name
    of a column takes a trailing underscore. *)
Definition calculate_monthly_kpi (df_filtered : ActivityFrame)
  (df_forecast : ForecastFrame) (selected_channels selected_variants : list string)
  (year month : Z) : result (DataFrame KpiRow) :=
  start_month <- Timestamp_ymd year month 1 ;;
  let end_month := add_MonthEnd1 start_month + Timedelta_days 1 in
  let slots_month := date_range start_month end_month freq_30min in
  let df_act_m :=
    filter (fun r => (start r <? end_month) && (end_ r >? start_month)) df_filtered in
  df_fc_m <-
    (if negb (empty df_forecast) then
       getitem df_forecast "Дата" ;;;
       getitem df_forecast "Время" ;;;
       let df_fc_m := add_column "ts" df_forecast in
       let df_fc_m :=
         select (fun r => (start_month <=? ts r) && (ts r <? end_month)) df_fc_m in
       Ok (if negb (has_column df_fc_m "skill_variant")
           then add_column "skill_variant" df_fc_m
           else df_fc_m)
     else
       Ok (mkDataFrame ["ts"; "Прогноз"; "Канал коммуникации"; "skill_variant"] [])) ;;
  kpi_data <-
    for_each selected_channels (fun channel_ =>
      main_acts <- dict_getitem CHANNEL_MAPPING channel_ ;;
      let df_act_channel :=
        filter (fun r => existsb (String.eqb (main_act r)) main_acts) df_act_m in
      for_each selected_variants (fun skill_variant_ =>
        let system_group_ :=
          match dict_get VARIANT_TO_SYSTEM skill_variant_ with
          | Some g => g
          | None => skill_variant_
          end in
        let df_act_skill :=
          filter (fun r => String.eqb (skill_variant r) skill_variant_)
                 df_act_channel in
        getitem df_fc_m "Канал коммуникации" ;;;
        getitem df_fc_m "system_group" ;;;
        let df_fc_channel :=
          select (fun r => String.eqb (channel r) channel_
                           && String.eqb (system_group r) system_group_) df_fc_m in
        for_each slots_month (fun ts_ =>
          let plan :=
            calculate_overlap df_act_skill ts_ (ts_ + Timedelta_minutes 30) in
          getitem df_fc_channel "ts" ;;;
          getitem df_fc_channel "Прогноз" ;;;
          let forecast_ :=
            Qsum (map forecast (filter (fun r => ts r =? ts_) (rows df_fc_channel))) in
          Ok [mkKpiRecord (date_of ts_) (time_of ts_) channel_ skill_variant_
                          plan forecast_]))) ;;
  let kpi_df := DataFrame_records kpi_columns kpi_data in
  getitem kpi_df "План" ;;;
  getitem kpi_df "Прогноз" ;;;
  Ok (mkDataFrame (columns kpi_df ++ ["Дельта"])
        (map (fun r => (r, (kpi_plan r - kpi_forecast r)%Q)) (rows kpi_df))).

End MonthlyKpi.

(** * Specification-side definitions and sample data *)

(** The selection predicate and the per-interval overlap, in the words of
    the specification. *)
Definition spec_included (slot_start slot_end : Timestamp) (r : Activity) : bool :=
  (start r <? slot_end) && (end_ r >? slot_start).

Definition spec_overlap_hours (slot_start slot_end : Timestamp) (r : Activity) : Q :=
  (total_seconds (Z.min (end_ r) slot_end - Z.max (start r) slot_start) / 3600)%Q.

Definition spec_overlap (df : ActivityFrame) (slot_start slot_end : Timestamp) : Q :=
  Qsum (map (spec_overlap_hours slot_start slot_end)
            (filter (spec_included slot_start slot_end) df)).

Definition touches (slot_start slot_end : Timestamp) (r : Activity) : Prop :=
  end_ r = slot_start \/ start r = slot_end.

Definition act_10_00_10_45 : Activity :=
  mkActivity (36000 * NS_PER_SECOND) (38700 * NS_PER_SECOND) "Чат" "A".
Definition act_09_00_10_00 : Activity :=
  mkActivity (32400 * NS_PER_SECOND) (36000 * NS_PER_SECOND) "Чат" "A".

(** The frequency that [prepare_slot_data] passes to [pd.date_range] in
    each mode: ['30min'] and ['D']. *)
Definition mode_freq (mode : Mode) : Timedelta :=
  match mode with
  | By_hours => freq_30min
  | By_days => freq_D
  end.

(** The number of slot starts [period_start + i * freq] below
    [period_end]. *)
Definition slot_count (period_start period_end : Timestamp) (freq : Timedelta) : nat :=
  Z.to_nat ((period_end - period_start + freq - 1) / freq).

Definition slot_at (period_start : Timestamp) (freq : Timedelta) (i : nat) : Timestamp :=
  period_start + Z.of_nat i * freq.

(** [is_hourly] as [prepare_slot_data] passes it in each mode. *)
Definition mode_is_hourly (mode : Mode) : bool :=
  match mode with
  | By_hours => true
  | By_days => false
  end.

(** The duration of an interval in hours, and an interval that lies
    within the period [[period_start, period_end)]. *)
Definition duration_hours (r : Activity) : Q :=
  (total_seconds (end_ r - start r) / 3600)%Q.

Definition contained (period_start period_end : Timestamp) (r : Activity) : Prop :=
  period_start <= start r /\ start r <= end_ r /\ end_ r <= period_end.

(** The overlap of one interval with one slot in nanoseconds, and the
    conversion of nanoseconds to hours. *)
Definition overlap_ns (slot_start slot_end : Timestamp) (r : Activity) : Z :=
  if overlap_mask slot_start slot_end r
  then Z.min (end_ r) slot_end - Z.max (start r) slot_start
  else 0.

Definition hours_of_ns (n : Z) : Q := (total_seconds n / 3600)%Q.

Definition Zsum (l : list Z) : Z := fold_right Z.add 0 l.

(** The scale factor in the words of the specification: the quotient of
    the totals, and 0 when the total forecast is zero. *)
Definition spec_scale_factor (total_plan total_forecast : Q) : Q :=
  if Qeq_bool total_forecast 0 then 0%Q else (total_plan / total_forecast)%Q.

Definition total_plan_of (slot_df : list SlotRecord) : Q :=
  Qsum (map plan_hours slot_df).
Definition total_forecast_of (slot_df : list SlotRecord) : Q :=
  Qsum (map forecast_value slot_df).

(** The uniformity column as the specification states it. *)
Definition spec_uniformity_claim (slot_df : list SlotRecord) : Prop :=
  Forall (fun r => (uniformity r
                    == forecast_value r
                       * spec_scale_factor (total_plan_of slot_df)
                                           (total_forecast_of slot_df))%Q)
         slot_df.

(** The non-negativity invariant with the hypothesis of the
    specification, that on the activity intervals only. *)
Definition spec_nonneg_claim (df_period : ActivityFrame) (df_forecast : ForecastFrame)
  (times : list Timestamp) (start_dt end_dt : option Timestamp) (is_hourly : bool)
  (year month : option Z) : Prop :=
  Forall (fun r => start r < end_ r) df_period ->
  forall plan_df forecast_df slot_df,
    calculate_plan df_period times is_hourly = Ok plan_df ->
    calculate_forecast df_forecast times start_dt end_dt is_hourly = Ok forecast_df ->
    finalize_slot_df plan_df forecast_df year month = Ok slot_df ->
    Forall (fun r => (0 <= plan_hours r)%Q /\ (0 <= forecast_value r)%Q) slot_df.

(** The slot, plan and forecast of a slot record. *)
Definition record_key (r : SlotRecord) : MergedRow :=
  (slot_start r, plan_hours r, forecast_value r).

(** The merged table of a plan and a forecast series over the same
    slots, restricted to the month when a year and a month are given. *)
Definition merged_table (plan_df forecast_df : SlotSeries) (year month : option Z)
  : list MergedRow :=
  let table :=
    map (fun p => (fst (fst p), snd (fst p), snd (snd p)))
        (combine plan_df forecast_df) in
  match year, month with
  | Some y, Some m => filter (fun r => in_year_month y m (m_slot r)) table
  | _, _ => table
  end.

Definition sample_plan : SlotSeries := [(0, 10%Q); (NS_PER_DAY, 0%Q)].
Definition sample_forecast : SlotSeries := [(0, 1%Q); (NS_PER_DAY, 4%Q)].

Definition negative_forecast : ForecastFrame :=
  mkDataFrame forecast_columns [mkForecastRow 0 "Чаты" "A" (-1)%Q].

Definition sample_times : list Timestamp :=
  [36000 * NS_PER_SECOND; 37800 * NS_PER_SECOND].

Definition sample_forecast_frame : ForecastFrame :=
  mkDataFrame forecast_columns
    [mkForecastRow (36000 * NS_PER_SECOND) "Чаты" "A" 3%Q].

(** Two days of data across a month boundary: one hour of chat on
    2024-01-31 and two hours on 2024-02-01, one unit of forecast on each
    day; the available dates run to 2024-02-02. *)
Definition jan31 : Z := days_from_civil 2024 1 31.
Definition feb01 : Z := days_from_civil 2024 2 1.
Definition feb02 : Z := days_from_civil 2024 2 2.

Definition two_month_activity : ActivityFrame :=
  [ mkActivity (to_datetime jan31 + 36000 * NS_PER_SECOND)
               (to_datetime jan31 + 39600 * NS_PER_SECOND) "Чат" "A";
    mkActivity (to_datetime feb01 + 36000 * NS_PER_SECOND)
               (to_datetime feb01 + 43200 * NS_PER_SECOND) "Чат" "A";
    mkActivity (to_datetime feb02 + 36000 * NS_PER_SECOND)
               (to_datetime feb02 + 39600 * NS_PER_SECOND) "Чат" "A" ].

Definition two_month_forecast : ForecastFrame :=
  mkDataFrame forecast_columns
    [ mkForecastRow (to_datetime jan31 + 36000 * NS_PER_SECOND) "Чаты" "A" 1%Q;
      mkForecastRow (to_datetime feb01 + 36000 * NS_PER_SECOND) "Чаты" "A" 1%Q ].

(** The session state of the application: the keys ['year'] and
    ['month'] are never set. *)
Definition sample_session : SessionState :=
  mkSessionState jan31 false false 2024 2.

(** The day of the era for the first day of the month [mp] (counted
    from March) of the year [yoe] of an era, and the civil fields that
    [civil_from_days] computes from an era and a day of the era. *)
Definition doe_of_first (yoe mp : Z) : Z :=
  yoe * 365 + yoe / 4 - yoe / 100 + ((153 * mp + 2) / 5 + 1 - 1).

Definition civil_of_doe (era doe : Z) : Z * Z * Z :=
  let yoe := (doe - doe / 1460 + doe / 36524 - doe / 146096) / 365 in
  let doy := doe - (365 * yoe + yoe / 4 - yoe / 100) in
  let mp := (5 * doy + 2) / 153 in
  let d := doy - (153 * mp + 2) / 5 + 1 in
  let m := if mp <? 10 then mp + 3 else mp - 9 in
  ((if m <=? 2 then yoe + era * 400 + 1 else yoe + era * 400), m, d).

(** The check, over the 400 years of an era and the 12 months, that the
    first day of a month is mapped back to its civil fields. *)
Definition first_of_month_ok (yoe mp : Z) : bool :=
  let doe := doe_of_first yoe mp in
  let '(y, m, d) := civil_of_doe 0 doe in
  (0 <=? doe) && (doe <? 146097)
  && (y =? (if mp <? 10 then yoe else yoe + 1))
  && (m =? (if mp <? 10 then mp + 3 else mp - 9))
  && (d =? 1).

(** The key of a row of the KPI table. *)
Definition kpi_key (r : KpiRecord) : Z * Z * string * string :=
  (kpi_date r, kpi_time r, kpi_channel r, kpi_skill r).

(** * The loaders and the filters *)

(** [series.isin(values)] on a column of strings *)
Definition isin (values : list string) (x : string) : bool :=
  existsb (String.eqb x) values.

(** [filter_data(df_act, selected_variants, selected_main_acts)] *)
Definition filter_data (df_act : ActivityFrame)
  (selected_variants selected_main_acts : list string) : ActivityFrame :=
  filter (fun r => isin selected_variants (skill_variant r)
                   && isin selected_main_acts (main_act r)) df_act.

(** The ['selected_main_acts'] entry of [render_filters]:
    [[act for channel in selected_channels for act in CHANNEL_MAPPING[channel]]] *)
Definition selected_main_acts (selected_channels : list string)
  : result (list string) :=
  for_each selected_channels (fun channel_ => dict_getitem CHANNEL_MAPPING channel_).

(** A row of an activity sheet after [pd.read_excel] and the two calls of
    [pd.to_datetime(..., errors='coerce')]: a date and time that do not
    parse give [NaT], written [None]. *)
Record ActivitySheetRow : Type := mkActivitySheetRow
  { sheet_start : option Timestamp;   (* activity_date + ' ' + start_time *)
    sheet_end : option Timestamp;     (* activity_date + ' ' + end_time *)
    sheet_main_act : string;          (* 'main_act' *)
    sheet_skill_group : string }.     (* 'Скилл-группа' *)

Definition activity_required_columns : list string :=
  ["activity_date"; "start_time"; "end_time"; "Скилл-группа"; "main_act"].

(** [series.isnull()] on a cell *)
Definition isnull {A : Type} (c : option A) : bool :=
  match c with
  | Some _ => false
  | None => true
  end.

(** [load_activity(file)], from the sheet that [pd.read_excel] returns.
    The column ['system_group'] that it adds to the activity table is not
    read by any later code and has no field in [Activity]. *)
Definition load_activity (df : DataFrame ActivitySheetRow) : DataFrame Activity :=
  if negb (forallb (has_column df) activity_required_columns) then DataFrame_empty
  else
    let cols :=
      columns (add_column "end" (add_column "start"
                (add_column "system_group" (add_column "skill_variant" df)))) in
    if existsb (fun r => isnull (sheet_start r) || isnull (sheet_end r)) (rows df)
    then DataFrame_empty
    else
      mkDataFrame cols
        (flat_map (fun r =>
           match sheet_start r, sheet_end r with
           | Some s, Some e =>
               let e := if e <=? s then e + Timedelta_days 1 else e in
               [mkActivity s e (sheet_main_act r) (sheet_skill_group r)]
           | _, _ => []
           end) (rows df)).

(** [load_and_validate_files()], the combined activity table of its
    result: [None] when no file is uploaded or none loads. *)
Definition load_and_validate_files (activity_files : list (DataFrame ActivitySheetRow))
  : option ActivityFrame :=
  match activity_files with
  | [] => None
  | _ =>
      let dfs_act :=
        filter (fun df => negb (empty df)) (map load_activity activity_files) in
      match dfs_act with
      | [] => None
      | _ => Some (concat (map rows dfs_act))
      end
  end.

(** ** The forecast sheets and the selection *)

(** A row of a forecast sheet as [pd.read_excel] gives it. *)
Record ForecastSheetRow : Type := mkForecastSheetRow
  { fs_ts : Timestamp;            (* pd.to_datetime(Дата + ' ' + Время) *)
    fs_skill_variant : string;    (* 'Скилл группа', renamed 'skill_variant' *)
    fs_channel : string;          (* 'Канал коммуникации' *)
    fs_raw : Q;                   (* 'Прогноз Raw' *)
    fs_abs_new : Q;               (* 'Прогноз Abs_new' *)
    fs_full : Q }.                (* 'Прогноз Full' *)

(** A loaded forecast row: the sheet row and its ['system_group']. *)
Definition LoadedForecastRow : Type := ForecastSheetRow * string.

(** The options of the select box of [render_filters]. *)
Inductive ForecastCol : Type :=
| Forecast_Raw
| Forecast_Abs_new
| Forecast_Full.

Definition forecast_col_label (c : ForecastCol) : string :=
  match c with
  | Forecast_Raw => "Прогноз Raw"
  | Forecast_Abs_new => "Прогноз Abs_new"
  | Forecast_Full => "Прогноз Full"
  end.

Definition forecast_col_value (c : ForecastCol) (r : ForecastSheetRow) : Q :=
  match c with
  | Forecast_Raw => fs_raw r
  | Forecast_Abs_new => fs_abs_new r
  | Forecast_Full => fs_full r
  end.

(** [df.rename(columns={old: new})] on the labels *)
Definition rename_columns (old new : string) (cols : list string) : list string :=
  map (fun c => if String.eqb c old then new else c) cols.

Definition forecast_required_columns : list string :=
  ["skill_variant"; "Канал коммуникации"; "Прогноз Raw"; "Прогноз Abs_new";
   "Прогноз Full"].

Section Loading.

Variable VARIANT_TO_SYSTEM : list (string * string).

(** [VARIANT_TO_SYSTEM.get(v, v)], also written
    [series.map(VARIANT_TO_SYSTEM).fillna(series)] *)
Definition system_group_of (v : string) : string :=
  match dict_get VARIANT_TO_SYSTEM v with
  | Some g => g
  | None => v
  end.

(** [load_forecast_single(file)], from the sheet that [pd.read_excel]
    returns *)
Definition load_forecast_single (file : DataFrame ForecastSheetRow)
  : DataFrame LoadedForecastRow :=
  let df :=
    mkDataFrame (rename_columns "Скилл группа" "skill_variant" (columns file))
                (rows file) in
  if negb (forallb (has_column df) forecast_required_columns) then DataFrame_empty
  else
    mkDataFrame (columns (add_column "system_group" df))
                (map (fun r => (r, system_group_of (fs_skill_variant r))) (rows df)).

(** [process_forecast(forecast_file, selected_system_groups,
    selected_channels, selected_forecast_col)], from the frame
    [df_forecast] that [load_forecast(forecast_file)] returns.  A label
    list that names a missing column raises [KeyError]; the model names
    the first missing label. *)
Definition process_forecast (df_forecast : DataFrame LoadedForecastRow)
  (selected_system_groups selected_channels : list string)
  (selected_forecast_col : ForecastCol) : result ForecastFrame :=
  if negb (empty df_forecast) then
    getitem df_forecast "system_group" ;;;
    getitem df_forecast "Канал коммуникации" ;;;
    let df_forecast :=
      select (fun r => isin selected_system_groups (snd r)
                       && isin selected_channels (fs_channel (fst r)))
             df_forecast in
    let labels :=
      ["Дата"; "Время"; "system_group"; "Канал коммуникации";
       forecast_col_label selected_forecast_col] in
    for_each labels (fun c => getitem df_forecast c ;;; Ok (@nil unit)) ;;;
    Ok (mkDataFrame
          (rename_columns (forecast_col_label selected_forecast_col) "Прогноз" labels)
          (map (fun r => mkForecastRow (fs_ts (fst r)) (fs_channel (fst r)) (snd r)
                           (forecast_col_value selected_forecast_col (fst r)))
               (rows df_forecast)))
  else Ok (mkDataFrame (columns df_forecast) []).

(** [apply_filters_and_process(df_act, filters, forecast_file)], with the
    entries of [filters] as arguments and the loaded forecast as for
    [process_forecast]; [None] stands for [(None, None)]. *)
Definition apply_filters_and_process (df_act : ActivityFrame)
  (selected_variants selected_channels selected_main_acts : list string)
  (selected_forecast_col : ForecastCol) (df_forecast : DataFrame LoadedForecastRow)
  : result (option (ActivityFrame * ForecastFrame)) :=
  let selected_system_groups :=
    nodup string_dec (map system_group_of selected_variants) in
  let df_filtered := filter_data df_act selected_variants selected_main_acts in
  df_forecast <- process_forecast df_forecast selected_system_groups
                   selected_channels selected_forecast_col ;;
  match df_filtered with
  | [] => Ok None
  | _ => Ok (Some (df_filtered, df_forecast))
  end.

End Loading.

(** ** The period and the rendering *)

(** The ['min_date'] and ['max_date'] entries of [get_period_params]:
    [df_filtered['start'].min().date()] and
    [df_filtered['start'].max().date()]; [None] stands for the empty dict
    that is returned for a table with no row. *)
Definition get_period_dates (df_filtered : ActivityFrame) : option (Z * Z) :=
  match map start df_filtered with
  | [] => None
  | s :: ss =>
      Some (date_of (fold_right Z.min s ss), date_of (fold_right Z.max s ss))
  end.

Section Rendering.

Variable VARIANT_TO_SYSTEM : list (string * string).

(** [render_export_buttons(...)]: the KPI table that is offered for
    download, [None] when there is no KPI button.  The sheet of the
    intervals needs the columns of [slot_df], which the empty
    [pd.DataFrame()] does not have, and the file label of the daily mode
    formats [month] as a number. *)
Definition render_export_buttons (slot_df : list SlotRecord) (mode : Mode)
  (df_filtered : ActivityFrame) (df_forecast : ForecastFrame)
  (selected_channels selected_variants : list string) (year month : option Z)
  : result (option (DataFrame KpiRow)) :=
  match slot_df with
  | [] => Raise (KeyError "План")
  | _ =>
      match mode with
      | By_hours => Ok None
      | By_days =>
          match month with
          | None => Raise TypeError
          | Some m =>
              match year with
              | Some y =>
                  if truthy year && truthy month then
                    kpi_df <- calculate_monthly_kpi VARIANT_TO_SYSTEM df_filtered
                                df_forecast selected_channels selected_variants y m ;;
                    Ok (Some kpi_df)
                  else Ok None
              | None => Ok None
              end
          end
      end
  end.

(** [render_results(...)]: the rows that are charted and the KPI table
    that is offered, [None] when only the warning is shown. *)
Definition render_results (slot_df : list SlotRecord) (mode : Mode)
  (selected_date year month : option Z) (df_filtered : ActivityFrame)
  (df_forecast : ForecastFrame) (selected_channels selected_variants : list string)
  : result (option (list SlotRecord * option (DataFrame KpiRow))) :=
  let not_empty := match slot_df with [] => false | _ => true end in
  match mode with
  | By_hours =>
      if negb (isnull selected_date) && not_empty then
        let shown := render_chart_and_table slot_df mode None None in
        kpi <- render_export_buttons slot_df mode df_filtered df_forecast
                 selected_channels selected_variants None None ;;
        Ok (Some (shown, kpi))
      else Ok None
  | By_days =>
      if negb (isnull year) && negb (isnull month) && not_empty then
        let shown := render_chart_and_table slot_df mode year month in
        kpi <- render_export_buttons slot_df mode df_filtered df_forecast
                 selected_channels selected_variants year month ;;
        Ok (Some (shown, kpi))
      else Ok None
  end.

End Rendering.

(** The month filter on the activity that [prepare_slot_data] applies in
    the daily mode when the session has the keys ['year'] and ['month']. *)
Definition daily_activity (st : SessionState) (df_filtered : ActivityFrame)
  : ActivityFrame :=
  if has_year st && has_month st then
    filter (fun r => month_of (start r) =? selected_month st)
           (filter (fun r => year_of (start r) =? selected_year st) df_filtered)
  else df_filtered.

(** The forecast of a slot of the hourly and of the daily view: the sum
    over the forecast rows at the slot start, and over the rows of the
    day. *)
Definition forecast_at (df_forecast : ForecastFrame) (t : Timestamp) : Q :=
  if empty df_forecast then 0%Q
  else Qsum (map forecast (filter (fun r => ts r =? t) (rows df_forecast))).

Definition forecast_of_day (df_forecast : ForecastFrame) (t : Timestamp) : Q :=
  if empty df_forecast then 0%Q
  else Qsum (map forecast
               (filter (fun r => (t <=? ts r) && (ts r <? t + Timedelta_days 1))
                       (rows df_forecast))).

(** The dates that get a slot in the daily view: [min_date] up to, but
    not including, [max_date]. *)
Definition daily_dates (min_date max_date : Z) : list Z :=
  map (fun i => min_date + Z.of_nat i) (seq 0 (Z.to_nat (max_date - min_date))).

(** The start and the end of a sheet row are parsed from the same
    [activity_date]: when both parse they fall on the same day. *)
Definition same_activity_date (r : ActivitySheetRow) : Prop :=
  forall s e, sheet_start r = Some s -> sheet_end r = Some e -> date_of s = date_of e.

(** Two sheet rows of 2024-01-31: a night shift 22:00 to 06:00 and an
    interval whose end time is its start time. *)
Definition sample_sheet : DataFrame ActivitySheetRow :=
  mkDataFrame activity_required_columns
    [ mkActivitySheetRow (Some (to_datetime jan31 + 79200 * NS_PER_SECOND))
                         (Some (to_datetime jan31 + 21600 * NS_PER_SECOND)) "Чат" "A";
      mkActivitySheetRow (Some (to_datetime jan31 + 36000 * NS_PER_SECOND))
                         (Some (to_datetime jan31 + 36000 * NS_PER_SECOND)) "Чат" "A" ].

(** A forecast sheet with the columns of a complete file, and the same
    sheet without its ['Дата'] column. *)
Definition sample_forecast_rows : list ForecastSheetRow :=
  [ mkForecastSheetRow (36000 * NS_PER_SECOND) "A" "Чаты" 3%Q 4%Q 5%Q;
    mkForecastSheetRow (36000 * NS_PER_SECOND) "B" "Входящие звонки" 1%Q 1%Q 1%Q ].

Definition sample_forecast_sheet : DataFrame ForecastSheetRow :=
  mkDataFrame
    ["Дата"; "Время"; "Скилл группа"; "Канал коммуникации"; "Прогноз Raw";
     "Прогноз Abs_new"; "Прогноз Full"]
    sample_forecast_rows.

Definition sample_forecast_sheet_no_date : DataFrame ForecastSheetRow :=
  mkDataFrame
    ["Время"; "Скилл группа"; "Канал коммуникации"; "Прогноз Raw";
     "Прогноз Abs_new"; "Прогноз Full"]
    sample_forecast_rows.

(** ** The rows of the KPI table *)

(** The activity kinds of a channel; no kind for a name that is no key
    of [CHANNEL_MAPPING]. *)
Definition channel_acts (c : string) : list string :=
  match dict_get CHANNEL_MAPPING c with
  | Some acts => acts
  | None => []
  end.

(** The half-hour slots of a month, from the first day at 00:00. *)
Definition month_slots (year month : Z) : list Timestamp :=
  map (fun i => to_datetime (days_from_civil year month 1)
                + Z.of_nat i * Timedelta_minutes 30)
      (seq 0 (Z.to_nat (days_in_month year month * 48))).

(** The plan of a channel and skill group in a slot: the overlap of the
    slot with the activity of that skill group and of the kinds of the
    channel. *)
Definition kpi_plan_of (df_filtered : ActivityFrame) (c s : string) (t : Timestamp)
  : Q :=
  calculate_overlap (filter_data df_filtered [s] (channel_acts c))
                    t (t + Timedelta_minutes 30).

(** The forecast of a channel and skill group in a slot: the sum of the
    forecast rows of the channel and of the system group of the skill
    group at the slot start. *)
Definition kpi_forecast_of (VARIANT_TO_SYSTEM : list (string * string))
  (df_forecast : ForecastFrame) (c s : string) (t : Timestamp) : Q :=
  Qsum (map forecast
          (filter (fun r => (ts r =? t)
                            && (String.eqb (channel r) c
                                && String.eqb (system_group r)
                                              (system_group_of VARIANT_TO_SYSTEM s)))
                  (rows df_forecast))).

Definition kpi_record (VARIANT_TO_SYSTEM : list (string * string))
  (df_filtered : ActivityFrame) (df_forecast : ForecastFrame) (c s : string)
  (t : Timestamp) : KpiRecord :=
  mkKpiRecord (date_of t) (time_of t) c s (kpi_plan_of df_filtered c s t)
              (kpi_forecast_of VARIANT_TO_SYSTEM df_forecast c s t).

Definition kpi_row (VARIANT_TO_SYSTEM : list (string * string))
  (df_filtered : ActivityFrame) (df_forecast : ForecastFrame) (c s : string)
  (t : Timestamp) : KpiRow :=
  (kpi_record VARIANT_TO_SYSTEM df_filtered df_forecast c s t,
   (kpi_plan_of df_filtered c s t
    - kpi_forecast_of VARIANT_TO_SYSTEM df_forecast c s t)%Q).

(** The rows of a KPI table that belong to the slot that starts at [t]. *)
Definition kpi_rows_at (t : Timestamp) (kpi_df : DataFrame KpiRow) : list KpiRow :=
  filter (fun r => (kpi_date (fst r) =? date_of t) && (kpi_time (fst r) =? time_of t))
         (rows kpi_df).

(** The channel that lists an activity kind. *)
Definition channel_of_act (a : string) : option string :=
  option_map fst (find (fun kv => isin (snd kv) a) CHANNEL_MAPPING).

(** The activity and the forecast of a day in January 1970, for two
    channels and two skill groups. *)
Definition slot_10_00 : Timestamp := 36000 * NS_PER_SECOND.

Definition sample_selection_activity : ActivityFrame :=
  [ act_10_00_10_45; act_09_00_10_00;
    mkActivity (36000 * NS_PER_SECOND) (37800 * NS_PER_SECOND) "Входящие звонки" "B";
    mkActivity (36000 * NS_PER_SECOND) (37800 * NS_PER_SECOND) "Обед" "A" ].

Definition sample_loaded_forecast : DataFrame LoadedForecastRow :=
  load_forecast_single [("B", "G")] sample_forecast_sheet.

(** ** The years of an era

    An era of the calendar arithmetic has 400 years that start on 1
    March; [year_start y] is the day of the era on which its year [y]
    starts and [year_end y] is the last day of that year. *)

Definition year_start (y : Z) : Z := 365 * y + y / 4 - y / 100.

Definition year_end (y : Z) : Z :=
  if y =? 399 then 146096 else year_start (y + 1) - 1.

(** The year of the era that [civil_from_days] computes for a day of the
    era. *)
Definition yoe_of_doe (doe : Z) : Z :=
  (doe - doe / 1460 + doe / 36524 - doe / 146096) / 365.

(** The check, for a year of the era, that the formula maps its first
    and its last day to it, and that the year has 366 days exactly when
    the civil year of its February is a leap year. *)
Definition year_of_era_ok (y : Z) : bool :=
  (yoe_of_doe (year_start y) =? y)
  && (yoe_of_doe (year_end y) =? y)
  && (year_end y - year_start y + 1 =? (if is_leap_year (y + 1) then 366 else 365)).

(** The first day of the month [mp], counted from March, within its
    year. *)
Definition month_start (mp : Z) : Z := (153 * mp + 2) / 5.

(** The half-hour slots of the day [d]. *)
Definition day_slots (d : Z) : list Timestamp :=
  map (fun i => to_datetime d + Z.of_nat i * Timedelta_minutes 30) (seq 0 48).

(** A forecast row is timed on a multiple of 30 minutes, a slot start of
    the hourly view. *)
Definition on_half_hour (r : ForecastRow) : bool :=
  ts r mod Timedelta_minutes 30 =? 0.

(** A forecast at 10:10 on the first day of 1970. *)
Definition off_grid_forecast : ForecastFrame :=
  mkDataFrame forecast_columns [mkForecastRow (36600 * NS_PER_SECOND) "Чаты" "A" 2%Q].

(** * Properties *)

(** ** Sums of rationals *)

Local Open Scope Q_scope.

Lemma Qsum_app (xs ys : list Q) : Qsum (xs ++ ys) == Qsum xs + Qsum ys.
Proof.
  induction xs as [|x xs IH]; simpl.
  - ring.
  - rewrite IH. ring.
Qed.

Lemma Qsum_map_ext {A : Type} (f g : A -> Q) (l : list A) :
  (forall x, In x l -> f x == g x) -> Qsum (map f l) == Qsum (map g l).
Proof.
  induction l as [|a l IH]; intros H; simpl.
  - reflexivity.
  - rewrite (H a (or_introl eq_refl)), IH.
    + reflexivity.
    + intros x Hx. apply H. right. exact Hx.
Qed.

Lemma Qsum_div {A : Type} (f : A -> Q) (c : Q) (l : list A) :
  Qsum (map f l) / c == Qsum (map (fun x => f x / c) l).
Proof.
  induction l as [|a l IH]; simpl.
  - unfold Qdiv. ring.
  - rewrite <- IH. unfold Qdiv. ring.
Qed.

Lemma Qsum_nonneg (l : list Q) : Forall (fun q => 0 <= q) l -> 0 <= Qsum l.
Proof.
  induction 1 as [|q l Hq _ IH]; simpl.
  - apply Qle_refl.
  - replace 0%Q with (0 + 0)%Q by reflexivity. apply Qplus_le_compat; assumption.
Qed.

Lemma Qsum_zero (l : list Q) : Forall (fun q => q == 0) l -> Qsum l == 0.
Proof.
  induction 1 as [|q l Hq _ IH]; simpl.
  - reflexivity.
  - rewrite Hq, IH. ring.
Qed.

Lemma combine_map_same {A B C : Type} (f : A -> B) (g : A -> C) (l : list A) :
  combine (map f l) (map g l) = map (fun x => (f x, g x)) l.
Proof.
  induction l as [|a l IH]; simpl; [reflexivity | now rewrite IH].
Qed.

Local Close Scope Q_scope.

(** ** The overlap calculator *)

Lemma calculate_overlap_sum (df : ActivityFrame) (s e : Timestamp) :
  (calculate_overlap df s e == spec_overlap df s e)%Q.
Proof.
  unfold calculate_overlap, spec_overlap.
  change (filter (overlap_mask s e) df) with (filter (spec_included s e) df).
  destruct (filter (spec_included s e) df) as [|a l] eqn:E.
  - reflexivity.
  - rewrite combine_map_same, map_map, Qsum_div. reflexivity.
Qed.

Lemma calculate_overlap_none (df : ActivityFrame) (s e : Timestamp) :
  filter (spec_included s e) df = [] -> calculate_overlap df s e = 0%Q.
Proof.
  intros H. unfold calculate_overlap.
  change (filter (overlap_mask s e) df) with (filter (spec_included s e) df).
  now rewrite H.
Qed.

Lemma touches_excluded (s e : Timestamp) (r : Activity) :
  touches s e r -> spec_included s e r = false.
Proof.
  unfold touches, spec_included. intros [H | H]; rewrite H.
  - rewrite Z.gtb_ltb, Z.ltb_irrefl. apply andb_false_r.
  - now rewrite Z.ltb_irrefl.
Qed.

(** C1: [calculate_overlap] is the sum, over exactly the intervals with
    [start < slot_end] and [end > slot_start], of
    [min(end, slot_end) - max(start, slot_start)] in hours; it is exactly
    0 when no interval is selected, and an interval that only touches a
    slot boundary contributes nothing, wherever it stands in the table. *)
Theorem calculate_overlap_correct (df : ActivityFrame) (s e : Timestamp) :
  (calculate_overlap df s e == spec_overlap df s e)%Q
  /\ (filter (spec_included s e) df = [] -> calculate_overlap df s e = 0%Q)
  /\ (forall r df1 df2, touches s e r ->
        calculate_overlap [r] s e = 0%Q
        /\ calculate_overlap (df1 ++ r :: df2) s e = calculate_overlap (df1 ++ df2) s e).
Proof.
  split; [apply calculate_overlap_sum | split; [apply calculate_overlap_none |]].
  intros r df1 df2 Ht. apply touches_excluded in Ht.
  unfold calculate_overlap.
  change (overlap_mask s e) with (spec_included s e).
  rewrite !filter_app. simpl. rewrite Ht. split; reflexivity.
Qed.

Lemma calculate_overlap_correct_witness :
  calculate_overlap [act_09_00_10_00] (36000 * NS_PER_SECOND) (37800 * NS_PER_SECOND) = 0%Q
  /\ calculate_overlap [act_10_00_10_45; act_09_00_10_00]
       (36000 * NS_PER_SECOND) (37800 * NS_PER_SECOND)
     = calculate_overlap [act_10_00_10_45]
       (36000 * NS_PER_SECOND) (37800 * NS_PER_SECOND).
Proof.
  destruct (calculate_overlap_correct [act_09_00_10_00]
              (36000 * NS_PER_SECOND) (37800 * NS_PER_SECOND)) as [_ [H0 H]].
  split.
  - apply H0. reflexivity.
  - apply (H act_09_00_10_00 [act_10_00_10_45] []). left. reflexivity.
Defined.

(** The worked examples of the specification. *)
Example overlap_first_slot :
  (calculate_overlap [act_10_00_10_45] (36000 * NS_PER_SECOND) (37800 * NS_PER_SECOND)
   == 1 # 2)%Q.
Proof. vm_compute. reflexivity. Qed.

Example overlap_second_slot :
  (calculate_overlap [act_10_00_10_45] (37800 * NS_PER_SECOND) (39600 * NS_PER_SECOND)
   == 1 # 4)%Q.
Proof. vm_compute. reflexivity. Qed.

Example overlap_disjoint_slot :
  calculate_overlap [act_10_00_10_45] (39600 * NS_PER_SECOND) (41400 * NS_PER_SECOND)
  = 0%Q.
Proof. reflexivity. Qed.

(** ** The slot generator *)

Lemma map_seq_last {A : Type} (f : nat -> A) (n : nat) (d : A) :
  last (map f (seq 0 (S n))) d = f n.
Proof.
  rewrite seq_S, map_app. simpl. apply last_last.
Qed.

Lemma map_seq_removelast {A : Type} (f : nat -> A) (n : nat) :
  removelast (map f (seq 0 (S n))) = map f (seq 0 n).
Proof.
  rewrite seq_S, map_app. simpl. apply removelast_last.
Qed.

Lemma mode_freq_pos (mode : Mode) : 0 < mode_freq mode.
Proof. destruct mode; reflexivity. Qed.

Lemma date_range_not_after (s e w : Z) : 0 < w -> e <= s -> date_range s e w = [].
Proof.
  intros Hw H. unfold date_range, regular_range.
  destruct (Z.ltb_spec e s) as [Hlt | Hge].
  - simpl. destruct (Z.eqb_spec s e); [lia | reflexivity].
  - assert (e = s) by lia. subst e.
    rewrite Z.sub_diag, Z.div_0_l by lia. simpl.
    rewrite Z.add_0_r, Z.eqb_refl. reflexivity.
Qed.

Lemma date_range_after (s e w : Z) :
  0 < w -> s < e ->
  date_range s e w = map (slot_at s w) (seq 0 (slot_count s e w)).
Proof.
  intros Hw Hse. unfold date_range, regular_range, slot_count.
  destruct (Z.ltb_spec e s); [lia |].
  fold (slot_at s w).
  rewrite map_seq_last.
  pose proof (Z.div_mod (e - s) w ltac:(lia)) as Hdm.
  pose proof (Z.mod_pos_bound (e - s) w Hw) as Hr.
  assert (Hq : 0 <= (e - s) / w) by (apply Z.div_pos; lia).
  unfold slot_at at 1. rewrite Z2Nat.id by exact Hq.
  destruct (Z.eqb_spec (s + (e - s) / w * w) e) as [Heq | Hne].
  - rewrite map_seq_removelast. do 2 f_equal. f_equal.
    apply Z.div_unique with (r := w - 1); nia.
  - do 2 f_equal. rewrite <- Z2Nat.inj_succ by exact Hq. f_equal.
    apply Z.div_unique with (r := (e - s) mod w - 1); nia.
Qed.

Lemma slot_count_bounds (s e w : Z) :
  0 < w -> s < e ->
  Z.of_nat (slot_count s e w) * w - w < e - s <= Z.of_nat (slot_count s e w) * w.
Proof.
  intros Hw Hse. unfold slot_count.
  pose proof (Z.div_mod (e - s + w - 1) w ltac:(lia)) as Hdm.
  pose proof (Z.mod_pos_bound (e - s + w - 1) w Hw) as Hr.
  assert (Hq : 0 <= (e - s + w - 1) / w) by (apply Z.div_pos; lia).
  rewrite Z2Nat.id by exact Hq. nia.
Qed.

Lemma in_slots (s w : Z) (n : nat) (x : Z) :
  In x (map (slot_at s w) (seq 0 n)) <-> exists i, (i < n)%nat /\ x = slot_at s w i.
Proof.
  rewrite in_map_iff. split.
  - intros [i [Hx Hi]]. apply in_seq in Hi. exists i. split; [lia | now symmetry].
  - intros [i [Hi Hx]]. exists i. split; [now symmetry | apply in_seq; lia].
Qed.

Lemma slots_sorted (s w : Z) (k n : nat) :
  0 < w -> StronglySorted Z.lt (map (slot_at s w) (seq k n)).
Proof.
  intros Hw. revert k. induction n as [|n IH]; intros k; simpl.
  - constructor.
  - constructor; [apply IH |].
    apply Forall_forall. intros x Hx. apply in_map_iff in Hx.
    destruct Hx as [i [<- Hi]]. apply in_seq in Hi. unfold slot_at. nia.
Qed.


Lemma date_range_inside (s e w x : Z) :
  0 < w -> s < e -> In x (date_range s e w) -> s <= x < e.
Proof.
  intros Hw Hse Hx. rewrite date_range_after in Hx by assumption.
  apply in_slots in Hx. destruct Hx as [i [Hi ->]].
  pose proof (slot_count_bounds s e w Hw Hse). unfold slot_at. nia.
Qed.

Lemma date_range_covers (s e w t : Z) :
  0 < w -> s < e -> s <= t < e ->
  exists x, In x (date_range s e w) /\ x <= t < x + w
            /\ forall y, In y (date_range s e w) -> y <= t < y + w -> y = x.
Proof.
  intros Hw Hse Ht. rewrite date_range_after by assumption.
  pose proof (slot_count_bounds s e w Hw Hse) as Hn.
  pose proof (Z.div_mod (t - s) w ltac:(lia)) as Hdm.
  pose proof (Z.mod_pos_bound (t - s) w Hw) as Hr.
  assert (Hq : 0 <= (t - s) / w) by (apply Z.div_pos; lia).
  exists (slot_at s w (Z.to_nat ((t - s) / w))).
  assert (Hslot : slot_at s w (Z.to_nat ((t - s) / w)) = s + (t - s) / w * w)
    by (unfold slot_at; now rewrite Z2Nat.id).
  split; [| split].
  - apply in_slots. exists (Z.to_nat ((t - s) / w)). split; [| reflexivity].
    apply Nat2Z.inj_lt. rewrite Z2Nat.id by exact Hq. nia.
  - rewrite Hslot. nia.
  - intros y Hy Hty. apply in_slots in Hy. destruct Hy as [i [_ ->]].
    rewrite Hslot. unfold slot_at in *.
    assert (Hi : Z.of_nat i = (t - s) / w)
      by (apply Z.div_unique with (r := t - s - Z.of_nat i * w); lia).
    now rewrite Hi.
Qed.



(** ** Conservation of hours by the plan aggregator *)

Lemma hours_of_ns_0 : (hours_of_ns 0 == 0)%Q.
Proof. reflexivity. Qed.

Lemma hours_of_ns_add (a b : Z) :
  (hours_of_ns (a + b) == hours_of_ns a + hours_of_ns b)%Q.
Proof.
  unfold hours_of_ns, total_seconds. rewrite inject_Z_plus. field.
  discriminate.
Qed.

Lemma hours_of_ns_Zsum {A : Type} (f : A -> Z) (l : list A) :
  (Qsum (map (fun x => hours_of_ns (f x)) l) == hours_of_ns (Zsum (map f l)))%Q.
Proof.
  induction l as [|a l IH]; simpl.
  - reflexivity.
  - rewrite hours_of_ns_add, IH. reflexivity.
Qed.

Lemma Zsum_app (xs ys : list Z) : Zsum (xs ++ ys) = Zsum xs + Zsum ys.
Proof.
  induction xs as [|x xs IH]; simpl; [reflexivity | rewrite IH; lia].
Qed.

Lemma Zsum_map_add {A : Type} (f g : A -> Z) (l : list A) :
  Zsum (map (fun x => f x + g x) l) = Zsum (map f l) + Zsum (map g l).
Proof.
  induction l as [|a l IH]; simpl; [reflexivity | rewrite IH; lia].
Qed.

Lemma Zsum_map_0 {A : Type} (l : list A) : Zsum (map (fun _ => 0) l) = 0.
Proof. induction l as [|a l IH]; simpl; [reflexivity | exact IH]. Qed.

Lemma Zsum_exchange {A B : Type} (F : A -> B -> Z) (xs : list A) (ys : list B) :
  Zsum (map (fun x => Zsum (map (F x) ys)) xs)
  = Zsum (map (fun y => Zsum (map (fun x => F x y) xs)) ys).
Proof.
  induction xs as [|x xs IH]; simpl.
  - now rewrite Zsum_map_0.
  - rewrite IH, <- Zsum_map_add. reflexivity.
Qed.

Lemma Zsum_map_ext {A : Type} (f g : A -> Z) (l : list A) :
  (forall x, In x l -> f x = g x) -> Zsum (map f l) = Zsum (map g l).
Proof.
  intros H. f_equal. apply map_ext_in. exact H.
Qed.

Lemma calculate_overlap_ns (df : ActivityFrame) (s e : Timestamp) :
  (calculate_overlap df s e == hours_of_ns (Zsum (map (overlap_ns s e) df)))%Q.
Proof.
  rewrite calculate_overlap_sum. unfold spec_overlap.
  rewrite <- hours_of_ns_Zsum.
  induction df as [|r df IH]; simpl.
  - reflexivity.
  - unfold overlap_ns at 1. change (overlap_mask s e r) with (spec_included s e r).
    destruct (spec_included s e r); simpl.
    + rewrite IH. reflexivity.
    + rewrite IH, hours_of_ns_0. ring.
Qed.

Lemma calculate_plan_ok (df : ActivityFrame) (times : list Timestamp) (h : bool) :
  times <> [] ->
  calculate_plan df times h
  = Ok (map (fun t => (t, calculate_overlap df t (t + slot_width h))) times).
Proof.
  intros H. unfold calculate_plan. destruct times as [|t times]; [contradiction |].
  reflexivity.
Qed.

(** The overlaps of one interval with the first [k] slots add up to the
    part of the interval before the end of the [k]-th slot. *)
Lemma overlap_ns_prefix (ps w : Z) (r : Activity) (k : nat) :
  0 < w -> ps <= start r -> start r <= end_ r ->
  Zsum (map (fun t => overlap_ns t (t + w) r) (map (slot_at ps w) (seq 0 k)))
  = Z.max 0 (Z.min (end_ r) (ps + Z.of_nat k * w) - start r).
Proof.
  intros Hw Hps Hse. induction k as [|k IH].
  - simpl. lia.
  - rewrite seq_S, !map_app, Zsum_app, IH.
    cbn [map Zsum fold_right Nat.add].
    unfold overlap_ns, overlap_mask, slot_at.
    rewrite Z.gtb_ltb, Nat2Z.inj_succ.
    set (a := ps + Z.of_nat k * w).
    replace (ps + Z.succ (Z.of_nat k) * w) with (a + w) by (unfold a; lia).
    destruct (Z.ltb_spec (start r) (a + w));
      destruct (Z.ltb_spec a (end_ r)); cbn [andb]; lia.
Qed.

Lemma overlap_ns_total (ps pe w : Z) (r : Activity) :
  0 < w -> ps < pe -> contained ps pe r ->
  Zsum (map (fun t => overlap_ns t (t + w) r) (date_range ps pe w))
  = end_ r - start r.
Proof.
  intros Hw Hp [H1 [H2 H3]].
  rewrite date_range_after, overlap_ns_prefix by assumption.
  pose proof (slot_count_bounds ps pe w Hw Hp). lia.
Qed.

(** C2: for intervals that lie within a period, the plan values that
    [calculate_plan] produces over the slots of the period add up to the
    total duration of the intervals in hours (exactly, the float column
    being read as rationals). *)
Theorem plan_conservation (mode : Mode) (df : ActivityFrame)
  (period_start period_end : Timestamp) :
  period_start < period_end ->
  Forall (contained period_start period_end) df ->
  exists plan_df,
    calculate_plan df (date_range period_start period_end (mode_freq mode))
                   (mode_is_hourly mode) = Ok plan_df
    /\ index plan_df = date_range period_start period_end (mode_freq mode)
    /\ (Qsum (map snd plan_df) == Qsum (map duration_hours df))%Q.
Proof.
  intros Hp Hdf.
  pose proof (mode_freq_pos mode) as Hw.
  set (w := mode_freq mode) in *.
  assert (Hwidth : slot_width (mode_is_hourly mode) = w) by (destruct mode; reflexivity).
  set (times := date_range period_start period_end w).
  assert (Hne : times <> []).
  { destruct (date_range_covers period_start period_end w period_start Hw Hp
                ltac:(lia)) as [x [Hx _]].
    fold times in Hx. intros E. rewrite E in Hx. exact Hx. }
  eexists. split; [apply calculate_plan_ok; exact Hne |].
  split.
  - unfold index. rewrite map_map. simpl. apply map_id.
  - rewrite map_map. simpl. rewrite Hwidth.
    rewrite (Qsum_map_ext _ (fun t => hours_of_ns (Zsum (map (overlap_ns t (t + w)) df))))
      by (intros; apply calculate_overlap_ns).
    rewrite hours_of_ns_Zsum, Zsum_exchange.
    unfold times.
    rewrite (Zsum_map_ext _ (fun r => end_ r - start r)).
    + rewrite <- hours_of_ns_Zsum. reflexivity.
    + intros r Hr. apply overlap_ns_total; try assumption.
      rewrite Forall_forall in Hdf. now apply Hdf.
Qed.

Lemma plan_conservation_witness :
  exists plan_df,
    calculate_plan [act_10_00_10_45; act_09_00_10_00]
      (date_range 0 NS_PER_DAY freq_30min) true = Ok plan_df
    /\ index plan_df = date_range 0 NS_PER_DAY freq_30min
    /\ (Qsum (map snd plan_df)
        == Qsum (map duration_hours [act_10_00_10_45; act_09_00_10_00]))%Q.
Proof.
  apply (plan_conservation By_hours [act_10_00_10_45; act_09_00_10_00] 0 NS_PER_DAY).
  - reflexivity.
  - repeat constructor; vm_compute; discriminate.
Defined.

(** ** Loops and frames *)

Lemma for_each_Forall {A B : Type} (P : B -> Prop) (xs : list A)
  (body : A -> result (list B)) (out : list B) :
  (forall x ys, In x xs -> body x = Ok ys -> Forall P ys) ->
  for_each xs body = Ok out -> Forall P out.
Proof.
  revert out. induction xs as [|x xs IH]; intros out Hbody H; simpl in H.
  - injection H as <-. constructor.
  - destruct (body x) as [ys|] eqn:Ex; simpl in H; [| discriminate].
    destruct (for_each xs body) as [zs|] eqn:Ez; simpl in H; [| discriminate].
    injection H as <-. apply Forall_app. split.
    + apply (Hbody x); [now left | exact Ex].
    + apply IH; [| reflexivity]. intros x' ys' Hin. apply Hbody. now right.
Qed.

Lemma for_each_ok {A B : Type} (f : A -> list B) (xs : list A)
  (body : A -> result (list B)) :
  (forall x, In x xs -> body x = Ok (f x)) ->
  for_each xs body = Ok (concat (map f xs)).
Proof.
  induction xs as [|x xs IH]; intros H; simpl.
  - reflexivity.
  - rewrite (H x (or_introl eq_refl)). simpl.
    rewrite IH by (intros; apply H; now right). reflexivity.
Qed.

Lemma for_each_raise {A B : Type} (e : exn) (x : A) (xs : list A)
  (body : A -> result (list B)) :
  body x = Raise e -> for_each (x :: xs) body = Raise e.
Proof. intros H. simpl. now rewrite H. Qed.

Lemma combine_repeat {A B : Type} (l : list A) (b : B) :
  combine l (repeat b (length l)) = map (fun a => (a, b)) l.
Proof.
  induction l as [|a l IH]; simpl; [reflexivity | now rewrite IH].
Qed.

(** ** The aggregators on empty inputs *)

Lemma calculate_overlap_no_activity (s e : Timestamp) :
  calculate_overlap [] s e = 0%Q.
Proof. reflexivity. Qed.

Lemma calculate_plan_no_activity (times : list Timestamp) (is_hourly : bool) :
  times <> [] ->
  calculate_plan [] times is_hourly = Ok (map (fun t => (t, 0%Q)) times).
Proof.
  intros H. now rewrite calculate_plan_ok.
Qed.

Lemma calculate_forecast_empty (df_forecast : ForecastFrame)
  (times : list Timestamp) (start_dt end_dt : option Timestamp) (is_hourly : bool) :
  empty df_forecast = true ->
  calculate_forecast df_forecast times start_dt end_dt is_hourly
  = Ok (map (fun t => (t, 0%Q)) times).
Proof.
  intros H. unfold calculate_forecast. rewrite H, combine_repeat. reflexivity.
Qed.

(** C6: an empty slot list is not handled: with [times = []] the list of
    records is empty, [pd.DataFrame([])] has no column, and
    [set_index('slot_start')] raises [KeyError] in [calculate_plan], and
    in [calculate_forecast] as soon as forecast rows are present. *)
Theorem aggregators_raise_without_slots (df_period : ActivityFrame)
  (is_hourly : bool) (r : ForecastRow) (rs : list ForecastRow)
  (start_dt end_dt : option Timestamp) :
  calculate_plan df_period [] is_hourly = Raise (KeyError "slot_start")
  /\ calculate_forecast (mkDataFrame forecast_columns (r :: rs)) []
       start_dt end_dt true = Raise (KeyError "slot_start").
Proof. split; reflexivity. Qed.

(** ** The merge and the scale factor *)

Lemma lookup_value (P : Q -> Prop) (t : Timestamp) (s : SlotSeries) :
  P 0%Q -> Forall (fun p => P (snd p)) s -> P (fillna0 (lookup t s)).
Proof.
  intros H0 Hs. unfold lookup.
  destruct (find (fun p => fst p =? t) s) as [p|] eqn:E; simpl.
  - apply find_some in E. destruct E as [Hin _].
    rewrite Forall_forall in Hs. now apply Hs.
  - exact H0.
Qed.

Lemma concat_axis1_cells (P Pf : Q -> Prop) (plan_df forecast_df : SlotSeries)
  (merged : list (Timestamp * option Q * option Q)) :
  P 0%Q -> Pf 0%Q ->
  Forall (fun p => P (snd p)) plan_df ->
  Forall (fun p => Pf (snd p)) forecast_df ->
  concat_axis1 plan_df forecast_df = Ok merged ->
  Forall (fun r => P (fillna0 (snd (fst r))) /\ Pf (fillna0 (snd r))) merged.
Proof.
  intros H0 Hf0 Hp Hf. unfold concat_axis1.
  destruct (list_eqb (index plan_df) (index forecast_df)).
  - intros H. injection H as <-. apply Forall_forall. intros r Hr.
    apply in_map_iff in Hr. destruct Hr as [[p f] [<- Hin]]. simpl.
    rewrite Forall_forall in Hp, Hf. split.
    + apply Hp. eapply in_combine_l. exact Hin.
    + apply Hf. eapply in_combine_r. exact Hin.
  - destruct (negb (is_unique (index plan_df) && is_unique (index forecast_df)));
      [discriminate |].
    intros H. injection H as <-. apply Forall_forall. intros r Hr.
    apply in_map_iff in Hr. destruct Hr as [t [<- _]]. simpl.
    split; now apply lookup_value.
Qed.

Lemma add_uniformity_plan (slot_df : list MergedRow) :
  map plan_hours (add_uniformity slot_df) = map m_plan slot_df.
Proof.
  destruct slot_df as [|r l]; [reflexivity |].
  unfold add_uniformity. rewrite map_map. reflexivity.
Qed.

Lemma add_uniformity_forecast (slot_df : list MergedRow) :
  map forecast_value (add_uniformity slot_df) = map m_forecast slot_df.
Proof.
  destruct slot_df as [|r l]; [reflexivity |].
  unfold add_uniformity. rewrite map_map. reflexivity.
Qed.

Lemma add_uniformity_slot (slot_df : list MergedRow) :
  map slot_start (add_uniformity slot_df) = map m_slot slot_df.
Proof.
  destruct slot_df as [|r l]; [reflexivity |].
  unfold add_uniformity. rewrite map_map. reflexivity.
Qed.

Lemma add_uniformity_key (slot_df : list MergedRow) :
  map record_key (add_uniformity slot_df) = slot_df.
Proof.
  destruct slot_df as [|r l]; [reflexivity |].
  unfold add_uniformity. rewrite map_map. unfold record_key. simpl.
  f_equal; [now destruct r as [[t p] f] |].
  rewrite <- (map_id l) at 2. apply map_ext. now intros [[t p] f].
Qed.

Lemma add_uniformity_scaled (slot_df : list MergedRow) :
  let out := add_uniformity slot_df in
  Forall (fun r => uniformity r
                   = (forecast_value r
                      * scale_factor (total_plan_of out) (total_forecast_of out))%Q)
         out.
Proof.
  intros out. unfold total_plan_of, total_forecast_of. subst out.
  rewrite add_uniformity_plan, add_uniformity_forecast.
  destruct slot_df as [|r l]; [constructor |].
  unfold add_uniformity. apply Forall_forall. intros x Hx.
  apply in_map_iff in Hx. destruct Hx as [y [<- _]]. reflexivity.
Qed.

Lemma add_uniformity_cells (P Pf : Q -> Prop) (slot_df : list MergedRow) :
  Forall (fun r => P (m_plan r) /\ Pf (m_forecast r)) slot_df ->
  Forall (fun r => P (plan_hours r) /\ Pf (forecast_value r)) (add_uniformity slot_df).
Proof.
  intros H. destruct slot_df as [|r l]; [constructor |].
  unfold add_uniformity. rewrite Forall_map. exact H.
Qed.

Lemma restrict_month_incl (year month : option Z) (slot_df : list MergedRow) :
  incl (restrict_month year month slot_df) slot_df.
Proof.
  unfold restrict_month. destruct year, month; try apply incl_refl.
  apply incl_filter.
Qed.

(** What a successful [finalize_slot_df] returns. *)
Lemma finalize_slot_df_ok (plan_df forecast_df : SlotSeries) (year month : option Z)
  (out : list SlotRecord) :
  finalize_slot_df plan_df forecast_df year month = Ok out ->
  exists merged,
    concat_axis1 plan_df forecast_df = Ok merged
    /\ out = add_uniformity
               (restrict_month year month
                  (map (fun r => (fst (fst r), fillna0 (snd (fst r)), fillna0 (snd r)))
                       merged)).
Proof.
  unfold finalize_slot_df. destruct (concat_axis1 plan_df forecast_df) as [merged|];
    simpl; [| discriminate].
  intros H. injection H as <-. exists merged. split; reflexivity.
Qed.

Lemma finalize_slot_df_cells (P Pf : Q -> Prop) (plan_df forecast_df : SlotSeries)
  (year month : option Z) (out : list SlotRecord) :
  P 0%Q -> Pf 0%Q ->
  Forall (fun p => P (snd p)) plan_df ->
  Forall (fun p => Pf (snd p)) forecast_df ->
  finalize_slot_df plan_df forecast_df year month = Ok out ->
  Forall (fun r => P (plan_hours r) /\ Pf (forecast_value r)) out.
Proof.
  intros H0 Hf0 Hp Hf H. apply finalize_slot_df_ok in H.
  destruct H as [merged [Hm ->]]. apply add_uniformity_cells.
  pose proof (concat_axis1_cells P Pf _ _ _ H0 Hf0 Hp Hf Hm) as Hc.
  eapply incl_Forall; [apply restrict_month_incl |].
  rewrite Forall_map. exact Hc.
Qed.

Lemma finalize_slot_df_scaled (plan_df forecast_df : SlotSeries)
  (year month : option Z) (out : list SlotRecord) :
  finalize_slot_df plan_df forecast_df year month = Ok out ->
  Forall (fun r => uniformity r
                   = (forecast_value r
                      * scale_factor (total_plan_of out) (total_forecast_of out))%Q)
         out.
Proof.
  intros H. apply finalize_slot_df_ok in H. destruct H as [merged [_ ->]].
  apply add_uniformity_scaled.
Qed.

Lemma list_eqb_refl (l : list Timestamp) : list_eqb l l = true.
Proof.
  unfold list_eqb. rewrite Nat.eqb_refl. simpl.
  induction l as [|a l IH]; simpl; [reflexivity |].
  now rewrite Z.eqb_refl, IH.
Qed.

(** Frames over the same index always merge. *)
Lemma finalize_slot_df_same_index (plan_df forecast_df : SlotSeries)
  (year month : option Z) :
  index plan_df = index forecast_df ->
  exists out, finalize_slot_df plan_df forecast_df year month = Ok out.
Proof.
  intros H. unfold finalize_slot_df, concat_axis1.
  rewrite H, list_eqb_refl. simpl. eexists. reflexivity.
Qed.

Lemma scale_factor_pos (total_plan total_forecast : Q) :
  (0 < total_forecast)%Q ->
  scale_factor total_plan total_forecast = (total_plan / total_forecast)%Q.
Proof.
  intros H. unfold scale_factor, Qgtb0.
  destruct (Qlt_le_dec 0 total_forecast) as [_ | Hle]; [reflexivity |].
  exfalso. apply (Qlt_not_le _ _ H Hle).
Qed.

Lemma scale_factor_nonpos (total_plan total_forecast : Q) :
  (total_forecast <= 0)%Q -> scale_factor total_plan total_forecast = 0%Q.
Proof.
  intros H. unfold scale_factor, Qgtb0.
  destruct (Qlt_le_dec 0 total_forecast) as [Hlt | _]; [| reflexivity].
  exfalso. apply (Qlt_not_le _ _ Hlt H).
Qed.

(** With a negative total forecast the guard [total_forecast > 0] fails
    and [k] is 0, not the quotient of the totals. *)
Lemma finalize_negative_total_counterexample :
  exists slot_df,
    finalize_slot_df [(0, 1%Q)] [(0, (-1)%Q)] None None = Ok slot_df
    /\ ~ spec_uniformity_claim slot_df.
Proof.
  eexists. split; [reflexivity |].
  intros H. inversion H as [|r l Hr _]. subst. vm_compute in Hr. discriminate Hr.
Qed.

(** Frames over the same slots merge into the table of their rows. *)
Lemma finalize_slot_df_merged (plan_df forecast_df : SlotSeries)
  (year month : option Z) :
  index plan_df = index forecast_df ->
  finalize_slot_df plan_df forecast_df year month
  = Ok (add_uniformity (merged_table plan_df forecast_df year month)).
Proof.
  intros H. unfold finalize_slot_df, concat_axis1.
  rewrite H, list_eqb_refl. cbn [bind]. rewrite map_map. reflexivity.
Qed.

(** C3 (amended): [finalize_slot_df] fails only on frames that cannot be
    aligned, never on a division.  For a plan and a forecast over the
    same slots it returns the rows of the merged, possibly
    month-restricted table, each with its slot, plan and forecast, and
    one factor [k] for all of them, [uniformity = forecast * k], where
    [k = total_plan / total_forecast] for the column sums of that table
    when [total_forecast > 0] and [k = 0] when [total_forecast <= 0]; so
    totals 10 and 5 give [k = 2] and uniformity 2 at a slot with
    forecast 1, and a zero total forecast gives [k = 0].  The factor of
    any returned table obeys the same rule. *)
Theorem finalize_scale_factor (plan_df forecast_df : SlotSeries)
  (year month : option Z) :
  (forall e, finalize_slot_df plan_df forecast_df year month = Raise e ->
             e = InvalidIndexError)
  /\ (index plan_df = index forecast_df ->
      let merged := merged_table plan_df forecast_df year month in
      let total_plan := Qsum (map m_plan merged) in
      let total_forecast := Qsum (map m_forecast merged) in
      exists slot_df k,
        finalize_slot_df plan_df forecast_df year month = Ok slot_df
        /\ map record_key slot_df = merged
        /\ Forall (fun r => uniformity r = (forecast_value r * k)%Q) slot_df
        /\ ((0 < total_forecast)%Q -> k = (total_plan / total_forecast)%Q)
        /\ ((total_forecast <= 0)%Q -> k = 0%Q)
        /\ ((total_forecast == 0)%Q -> k = 0%Q)
        /\ ((total_plan == 10)%Q -> (total_forecast == 5)%Q ->
            (k == 2)%Q
            /\ forall r, In r slot_df -> (forecast_value r == 1)%Q ->
                         (uniformity r == 2)%Q))
  /\ forall slot_df,
       finalize_slot_df plan_df forecast_df year month = Ok slot_df ->
       let total_plan := total_plan_of slot_df in
       let total_forecast := total_forecast_of slot_df in
       exists k,
         Forall (fun r => uniformity r = (forecast_value r * k)%Q) slot_df
         /\ ((0 < total_forecast)%Q -> k = (total_plan / total_forecast)%Q)
         /\ ((total_forecast <= 0)%Q -> k = 0%Q)
         /\ ((total_forecast == 0)%Q -> k = 0%Q)
         /\ ((total_plan == 10)%Q -> (total_forecast == 5)%Q ->
             (k == 2)%Q
             /\ forall r, In r slot_df -> (forecast_value r == 1)%Q ->
                          (uniformity r == 2)%Q).
Proof.
  assert (Hany : forall slot_df,
       finalize_slot_df plan_df forecast_df year month = Ok slot_df ->
       let total_plan := total_plan_of slot_df in
       let total_forecast := total_forecast_of slot_df in
       exists k,
         Forall (fun r => uniformity r = (forecast_value r * k)%Q) slot_df
         /\ ((0 < total_forecast)%Q -> k = (total_plan / total_forecast)%Q)
         /\ ((total_forecast <= 0)%Q -> k = 0%Q)
         /\ ((total_forecast == 0)%Q -> k = 0%Q)
         /\ ((total_plan == 10)%Q -> (total_forecast == 5)%Q ->
             (k == 2)%Q
             /\ forall r, In r slot_df -> (forecast_value r == 1)%Q ->
                          (uniformity r == 2)%Q)).
  { intros slot_df H total_plan total_forecast.
    exists (scale_factor total_plan total_forecast).
    pose proof (finalize_slot_df_scaled _ _ _ _ _ H) as Hs.
    split; [exact Hs |].
    split; [apply scale_factor_pos |].
    split; [apply scale_factor_nonpos |].
    split.
    - intros H0. apply scale_factor_nonpos. rewrite H0. apply Qle_refl.
    - intros Hp Hf.
      assert (Hk : (scale_factor total_plan total_forecast == 2)%Q).
      { rewrite scale_factor_pos by (rewrite Hf; reflexivity).
        rewrite Hp, Hf. reflexivity. }
      split; [exact Hk |].
      intros r Hr Hr1. rewrite Forall_forall in Hs.
      rewrite (Hs r Hr). fold total_plan total_forecast. rewrite Hk, Hr1.
      reflexivity. }
  split; [| split; [| exact Hany]].
  - intros e. unfold finalize_slot_df, concat_axis1.
    destruct (list_eqb (index plan_df) (index forecast_df)); [discriminate |].
    destruct (negb (is_unique (index plan_df) && is_unique (index forecast_df)));
      simpl; [| discriminate].
    intros H. now injection H as <-.
  - intros Hidx merged total_plan total_forecast.
    pose proof (finalize_slot_df_merged plan_df forecast_df year month Hidx) as Hrun.
    fold merged in Hrun.
    destruct (Hany _ Hrun) as [k Hk].
    unfold total_plan_of, total_forecast_of in Hk.
    rewrite add_uniformity_plan, add_uniformity_forecast in Hk.
    exists (add_uniformity merged), k.
    split; [exact Hrun |]. split; [apply add_uniformity_key |]. exact Hk.
Qed.

Lemma finalize_scale_factor_witness :
  exists slot_df k,
    finalize_slot_df sample_plan sample_forecast None None = Ok slot_df
    /\ map record_key slot_df = [(0, 10%Q, 1%Q); (NS_PER_DAY, 0%Q, 4%Q)]
    /\ Forall (fun r => uniformity r = (forecast_value r * k)%Q) slot_df
    /\ (k == 2)%Q
    /\ (forall r, In r slot_df -> (forecast_value r == 1)%Q -> (uniformity r == 2)%Q).
Proof.
  destruct (finalize_scale_factor sample_plan sample_forecast None None)
    as [_ [Hsame _]].
  destruct (Hsame eq_refl) as [slot_df [k [Hrun [Hkeys [Hu [_ [_ [_ H105]]]]]]]].
  exists slot_df, k. split; [exact Hrun |]. split; [exact Hkeys |].
  split; [exact Hu |]. apply H105; reflexivity.
Defined.

(** C7: without forecast rows [calculate_forecast] gives every slot the
    forecast value 0 and raises nothing; for a plan over the same slots
    [finalize_slot_df] then returns the rows of the merged table, one
    for each slot when no month is given, each with the plan of its
    slot, forecast 0 and uniformity 0. *)
Theorem empty_forecast_zero (df_forecast : ForecastFrame) (times : list Timestamp)
  (start_dt end_dt : option Timestamp) (is_hourly : bool) (plan_df : SlotSeries)
  (year month : option Z) :
  empty df_forecast = true ->
  exists forecast_df,
    calculate_forecast df_forecast times start_dt end_dt is_hourly = Ok forecast_df
    /\ index forecast_df = times
    /\ Forall (fun p => snd p = 0%Q) forecast_df
    /\ (index plan_df = times ->
        exists slot_df,
          finalize_slot_df plan_df forecast_df year month = Ok slot_df
          /\ map record_key slot_df = merged_table plan_df forecast_df year month
          /\ (year = None \/ month = None ->
              map slot_start slot_df = times
              /\ map plan_hours slot_df = map snd plan_df)
          /\ Forall (fun r => forecast_value r = 0%Q /\ uniformity r = 0%Q) slot_df)
    /\ forall slot_df,
         finalize_slot_df plan_df forecast_df year month = Ok slot_df ->
         Forall (fun r => forecast_value r = 0%Q /\ uniformity r = 0%Q) slot_df.
Proof.
  intros He. exists (map (fun t => (t, 0%Q)) times).
  assert (Hidx : index (map (fun t => (t, 0%Q)) times) = times).
  { unfold index. rewrite map_map. simpl. apply map_id. }
  assert (Hz : Forall (fun p : Timestamp * Q => snd p = 0%Q)
                      (map (fun t => (t, 0%Q)) times)).
  { rewrite Forall_map. simpl. apply Forall_forall. reflexivity. }
  assert (Hall : forall slot_df,
         finalize_slot_df plan_df (map (fun t => (t, 0%Q)) times) year month
         = Ok slot_df ->
         Forall (fun r => forecast_value r = 0%Q /\ uniformity r = 0%Q) slot_df).
  { intros slot_df H.
    pose proof (finalize_slot_df_cells (fun _ => True) (fun q => q = 0%Q)
                  _ _ _ _ _ I eq_refl
                  ltac:(apply Forall_forall; intros; exact I) Hz H) as Hc.
    pose proof (finalize_slot_df_scaled _ _ _ _ _ H) as Hs.
    assert (Ht : (total_forecast_of slot_df == 0)%Q).
    { unfold total_forecast_of. apply Qsum_zero. rewrite Forall_map.
      eapply Forall_impl; [| exact Hc]. simpl. intros r [_ ->]. reflexivity. }
    rewrite scale_factor_nonpos in Hs by (rewrite Ht; apply Qle_refl).
    rewrite Forall_forall in *. intros r Hr.
    destruct (Hc r Hr) as [_ Hf]. split; [exact Hf |].
    rewrite (Hs r Hr), Hf. reflexivity. }
  split; [now apply calculate_forecast_empty |].
  split; [exact Hidx |]. split; [exact Hz |]. split; [| exact Hall].
  intros Hp.
  assert (Hsame : index plan_df = index (map (fun t => (t, 0%Q)) times))
    by now rewrite Hidx.
  pose proof (finalize_slot_df_merged plan_df _ year month Hsame) as Hrun.
  eexists. split; [exact Hrun |]. split; [apply add_uniformity_key |].
  split; [| exact (Hall _ Hrun)].
  intros Hnone.
  assert (Hm : merged_table plan_df (map (fun t => (t, 0%Q)) times) year month
               = map (fun p => (fst p, snd p, 0%Q)) plan_df).
  { unfold merged_table.
    assert (Hc : map (fun p : Timestamp * Q * (Timestamp * Q) =>
                        (fst (fst p), snd (fst p), snd (snd p)))
                     (combine plan_df (map (fun t => (t, 0%Q)) times))
                 = map (fun p => (fst p, snd p, 0%Q)) plan_df).
    { rewrite <- Hp. unfold index. clear. induction plan_df as [|a l IH];
        [reflexivity |]. cbn [map combine fst snd]. now rewrite IH. }
    rewrite Hc. destruct Hnone as [-> | ->]; [reflexivity |].
    now destruct year. }
  rewrite add_uniformity_slot, add_uniformity_plan, Hm, !map_map. cbn [fst snd].
  split; [exact Hp | reflexivity].
Qed.

Lemma empty_forecast_zero_witness :
  exists forecast_df,
    calculate_forecast DataFrame_empty [0; NS_PER_DAY] None None true = Ok forecast_df
    /\ Forall (fun p => snd p = 0%Q) forecast_df
    /\ exists slot_df,
         finalize_slot_df sample_plan forecast_df None None = Ok slot_df
         /\ map slot_start slot_df = [0; NS_PER_DAY]
         /\ map plan_hours slot_df = [10%Q; 0%Q]
         /\ Forall (fun r => forecast_value r = 0%Q /\ uniformity r = 0%Q) slot_df.
Proof.
  destruct (empty_forecast_zero DataFrame_empty [0; NS_PER_DAY] None None true
              sample_plan None None eq_refl)
    as [forecast_df [Hrun [_ [Hz [Hok _]]]]].
  exists forecast_df. split; [exact Hrun |]. split; [exact Hz |].
  destruct (Hok eq_refl) as [slot_df [Hfin [_ [Hslots Hzero]]]].
  destruct (Hslots (or_introl eq_refl)) as [Hs Hp].
  exists slot_df. split; [exact Hfin |]. split; [exact Hs |].
  split; [exact Hp | exact Hzero].
Defined.

(** ** Non-negative slot records *)

Lemma hours_of_ns_nonneg (n : Z) : 0 <= n -> (0 <= hours_of_ns n)%Q.
Proof.
  intros H. unfold hours_of_ns, total_seconds.
  change (inject_Z NS_PER_SECOND) with 1000000000%Q.
  assert (E : (inject_Z n / 1000000000 / 3600
               == inject_Z n * (1 # 3600000000000))%Q) by field.
  rewrite E. apply Qmult_le_0_compat; [| discriminate].
  change 0%Q with (inject_Z 0). now rewrite <- Zle_Qle.
Qed.

Lemma overlap_ns_nonneg (s e : Timestamp) (r : Activity) :
  s < e -> start r < end_ r -> 0 <= overlap_ns s e r.
Proof.
  intros Hse Hr. unfold overlap_ns, overlap_mask. rewrite Z.gtb_ltb.
  destruct (Z.ltb_spec (start r) e); destruct (Z.ltb_spec s (end_ r));
    cbn [andb]; lia.
Qed.

Lemma Zsum_nonneg (l : list Z) : Forall (fun z => 0 <= z) l -> 0 <= Zsum l.
Proof.
  induction 1 as [|z l Hz _ IH]; simpl; lia.
Qed.

Lemma calculate_overlap_nonneg (df : ActivityFrame) (s e : Timestamp) :
  s < e -> Forall (fun r => start r < end_ r) df ->
  (0 <= calculate_overlap df s e)%Q.
Proof.
  intros Hse Hdf. rewrite calculate_overlap_ns. apply hours_of_ns_nonneg.
  apply Zsum_nonneg. rewrite Forall_map.
  eapply Forall_impl; [| exact Hdf]. intros r. now apply overlap_ns_nonneg.
Qed.

Lemma slot_width_pos (is_hourly : bool) : 0 < slot_width is_hourly.
Proof. destruct is_hourly; reflexivity. Qed.

Lemma calculate_plan_values (df : ActivityFrame) (times : list Timestamp)
  (is_hourly : bool) (plan_df : SlotSeries) :
  calculate_plan df times is_hourly = Ok plan_df ->
  plan_df = map (fun t => (t, calculate_overlap df t (t + slot_width is_hourly))) times.
Proof.
  destruct times as [|t times]; [discriminate |].
  rewrite calculate_plan_ok by discriminate. intros H. now injection H.
Qed.

Lemma calculate_plan_nonneg (df : ActivityFrame) (times : list Timestamp)
  (is_hourly : bool) (plan_df : SlotSeries) :
  Forall (fun r => start r < end_ r) df ->
  calculate_plan df times is_hourly = Ok plan_df ->
  Forall (fun p => (0 <= snd p)%Q) plan_df.
Proof.
  intros Hdf H. apply calculate_plan_values in H. subst plan_df.
  rewrite Forall_map. apply Forall_forall. intros t _. simpl.
  apply calculate_overlap_nonneg; [| exact Hdf].
  pose proof (slot_width_pos is_hourly). lia.
Qed.

Lemma rows_add_column {R : Type} (c : string) (df : DataFrame R) :
  rows (add_column c df) = rows df.
Proof. unfold add_column. now destruct (has_column df c). Qed.

(** Every value of a forecast series is the sum of some of the supplied
    forecast rows. *)
Lemma calculate_forecast_values (df_forecast : ForecastFrame)
  (times : list Timestamp) (start_dt end_dt : option Timestamp) (is_hourly : bool)
  (forecast_df : SlotSeries) :
  calculate_forecast df_forecast times start_dt end_dt is_hourly = Ok forecast_df ->
  Forall (fun p => exists l, incl l (rows df_forecast)
                             /\ snd p = Qsum (map forecast l)) forecast_df.
Proof.
  unfold calculate_forecast. destruct (empty df_forecast).
  - rewrite combine_repeat. intros H. injection H as <-.
    rewrite Forall_map. apply Forall_forall. intros t _.
    exists []. split; [apply incl_nil_l | reflexivity].
  - destruct (getitem df_forecast "Дата"); simpl; [| discriminate].
    destruct (getitem df_forecast "Время"); simpl; [| discriminate].
    set (df0 := add_column "ts" df_forecast).
    match goal with
    | |- bind ?c _ = _ -> _ => destruct c as [df_fc|] eqn:Efc
    end; simpl; [| discriminate].
    assert (Hrows : incl (rows df_fc) (rows df_forecast)).
    { destruct (negb is_hourly).
      - destruct start_dt, end_dt; try discriminate.
        injection Efc as <-. simpl. unfold df0. rewrite rows_add_column.
        apply incl_filter.
      - injection Efc as <-. unfold df0. rewrite rows_add_column. apply incl_refl. }
    match goal with
    | |- bind ?c _ = _ -> _ => destruct c as [forecast_list|] eqn:El
    end; simpl; [| discriminate].
    intros H.
    assert (Hl : Forall (fun p => exists l, incl l (rows df_forecast)
                                            /\ snd p = Qsum (map forecast l))
                        forecast_list).
    { eapply for_each_Forall; [| exact El].
      intros t ys _. destruct (getitem df_fc "Прогноз"); simpl; [| discriminate].
      intros Hy. injection Hy as <-. constructor; [| constructor].
      eexists. split; [| reflexivity].
      eapply incl_tran; [apply incl_filter | exact Hrows]. }
    unfold set_index in H.
    destruct forecast_list as [|p l]; [discriminate |].
    simpl in H. injection H as <-. exact Hl.
Qed.

Lemma calculate_forecast_nonneg (df_forecast : ForecastFrame)
  (times : list Timestamp) (start_dt end_dt : option Timestamp) (is_hourly : bool)
  (forecast_df : SlotSeries) :
  Forall (fun r => (0 <= forecast r)%Q) (rows df_forecast) ->
  calculate_forecast df_forecast times start_dt end_dt is_hourly = Ok forecast_df ->
  Forall (fun p => (0 <= snd p)%Q) forecast_df.
Proof.
  intros Hdf H. apply calculate_forecast_values in H.
  eapply Forall_impl; [| exact H]. intros p [l [Hl ->]].
  apply Qsum_nonneg. rewrite Forall_map.
  eapply incl_Forall; [exact Hl | exact Hdf].
Qed.

(** A forecast row with a negative value gives a slot record with a
    negative forecast value, whatever the activity intervals are. *)
Lemma negative_forecast_counterexample :
  ~ spec_nonneg_claim [act_10_00_10_45] negative_forecast [0] None None true
      None None.
Proof.
  intros H.
  assert (Hact : Forall (fun r => start r < end_ r) [act_10_00_10_45])
    by (repeat constructor).
  specialize (H Hact _ _ _ eq_refl eq_refl eq_refl).
  inversion H as [|r l [_ Hneg] _]. subst. vm_compute in Hneg. now apply Hneg.
Qed.

(** C9 (amended): when every activity interval has [end > start] and
    every forecast row has a non-negative value, the plan series, the
    forecast series and every slot record that [finalize_slot_df] builds
    from them have non-negative plan hours and forecast values. *)
Theorem slot_records_nonneg (df_period : ActivityFrame) (df_forecast : ForecastFrame)
  (times : list Timestamp) (start_dt end_dt : option Timestamp) (is_hourly : bool)
  (year month : option Z) (plan_df forecast_df : SlotSeries)
  (slot_df : list SlotRecord) :
  Forall (fun r => start r < end_ r) df_period ->
  Forall (fun r => (0 <= forecast r)%Q) (rows df_forecast) ->
  calculate_plan df_period times is_hourly = Ok plan_df ->
  calculate_forecast df_forecast times start_dt end_dt is_hourly = Ok forecast_df ->
  finalize_slot_df plan_df forecast_df year month = Ok slot_df ->
  Forall (fun p => (0 <= snd p)%Q) plan_df
  /\ Forall (fun p => (0 <= snd p)%Q) forecast_df
  /\ Forall (fun r => (0 <= plan_hours r)%Q /\ (0 <= forecast_value r)%Q) slot_df.
Proof.
  intros Hact Hfc Hp Hf Hfin.
  pose proof (calculate_plan_nonneg _ _ _ _ Hact Hp) as Hpn.
  pose proof (calculate_forecast_nonneg _ _ _ _ _ _ Hfc Hf) as Hfn.
  split; [exact Hpn |]. split; [exact Hfn |].
  exact (finalize_slot_df_cells (fun q => (0 <= q)%Q) (fun q => (0 <= q)%Q)
           _ _ _ _ _ (Qle_refl 0) (Qle_refl 0) Hpn Hfn Hfin).
Qed.

Lemma slot_records_nonneg_witness :
  exists plan_df forecast_df slot_df,
    calculate_plan [act_10_00_10_45] sample_times true = Ok plan_df
    /\ calculate_forecast sample_forecast_frame sample_times None None true
       = Ok forecast_df
    /\ finalize_slot_df plan_df forecast_df None None = Ok slot_df
    /\ length slot_df = 2%nat
    /\ Forall (fun r => (0 <= plan_hours r)%Q /\ (0 <= forecast_value r)%Q) slot_df.
Proof.
  destruct (calculate_plan [act_10_00_10_45] sample_times true)
    as [plan_df|e] eqn:Hp; [| vm_compute in Hp; discriminate Hp].
  destruct (calculate_forecast sample_forecast_frame sample_times None None true)
    as [forecast_df|e] eqn:Hf; [| vm_compute in Hf; discriminate Hf].
  pose proof Hp as Hp'. vm_compute in Hp'. injection Hp' as <-.
  pose proof Hf as Hf'. vm_compute in Hf'. injection Hf' as <-.
  match type of Hp with
  | _ = Ok ?p =>
      match type of Hf with
      | _ = Ok ?f =>
          destruct (finalize_slot_df_same_index p f None None eq_refl)
            as [slot_df Hfin]
      end
  end.
  eexists _, _, slot_df.
  split; [reflexivity |]. split; [reflexivity |]. split; [exact Hfin |].
  split.
  - pose proof Hfin as Hfin'. vm_compute in Hfin'. injection Hfin' as <-.
    reflexivity.
  - refine (proj2 (proj2 (slot_records_nonneg [act_10_00_10_45] sample_forecast_frame
              sample_times None None true None None _ _ slot_df _ _ Hp Hf Hfin))).
    + repeat constructor.
    + repeat constructor. discriminate.
Defined.

(** ** The scale factor on the two call paths *)

(** With a year and a month, the table is the month's part of the
    unrestricted table. *)
Lemma finalize_slot_df_restricted (plan_df forecast_df : SlotSeries) (year month : Z)
  (slot_df : list SlotRecord) :
  finalize_slot_df plan_df forecast_df (Some year) (Some month) = Ok slot_df ->
  exists full,
    finalize_slot_df plan_df forecast_df None None = Ok full
    /\ map record_key slot_df
       = filter (fun r => in_year_month year month (m_slot r)) (map record_key full).
Proof.
  intros H. apply finalize_slot_df_ok in H. destruct H as [merged [Hm ->]].
  eexists. split.
  - unfold finalize_slot_df. rewrite Hm. simpl. reflexivity.
  - rewrite !add_uniformity_key. reflexivity.
Qed.

Lemma prepare_slot_data_daily (st : SessionState) (df_filtered : ActivityFrame)
  (df_forecast : ForecastFrame) (min_date max_date : Z) (slot_df : list SlotRecord) :
  prepare_slot_data st By_days df_filtered df_forecast min_date max_date = Ok slot_df ->
  exists plan_df forecast_df,
    finalize_slot_df plan_df forecast_df None None = Ok slot_df.
Proof.
  unfold prepare_slot_data.
  match goal with
  | |- bind ?c _ = _ -> _ => destruct c as [plan_df|]
  end; simpl; [| discriminate].
  match goal with
  | |- bind ?c _ = _ -> _ => destruct c as [forecast_df|]
  end; simpl; [| discriminate].
  intros H. now exists plan_df, forecast_df.
Qed.

Lemma render_daily_month (slot_df : list SlotRecord) (year month : Z) :
  year <> 0 -> month <> 0 ->
  render_chart_and_table slot_df By_days (Some year) (Some month)
  = filter (fun r => in_year_month year month (slot_start r)) slot_df.
Proof.
  intros Hy Hm. unfold render_chart_and_table, truthy.
  destruct slot_df as [|r l]; [reflexivity |].
  destruct (Z.eqb_spec year 0); [contradiction |].
  destruct (Z.eqb_spec month 0); [contradiction |]. reflexivity.
Qed.

(** C10: with a year and a month, [finalize_slot_df] keeps the month's
    rows of the merged table and computes the totals and [k] from these
    rows only.  The daily view calls it without year and month and
    filters the month afterwards in [render_chart_and_table]: the rows
    shown for a month carry [forecast * k] with [k] from the totals of
    the whole date range, and this differs from the month's own factor,
    as on the sample data across January and February 2024. *)
Theorem uniformity_scale_by_call_path :
  (forall plan_df forecast_df year month slot_df,
     finalize_slot_df plan_df forecast_df (Some year) (Some month) = Ok slot_df ->
     (exists full,
        finalize_slot_df plan_df forecast_df None None = Ok full
        /\ map record_key slot_df
           = filter (fun r => in_year_month year month (m_slot r))
                    (map record_key full))
     /\ Forall (fun r => uniformity r
                         = (forecast_value r
                            * scale_factor (total_plan_of slot_df)
                                           (total_forecast_of slot_df))%Q) slot_df)
  /\ (forall st df_filtered df_forecast min_date max_date year month slot_df,
        year <> 0 -> month <> 0 ->
        prepare_slot_data st By_days df_filtered df_forecast min_date max_date
        = Ok slot_df ->
        let shown := render_chart_and_table slot_df By_days (Some year) (Some month) in
        shown = filter (fun r => in_year_month year month (slot_start r)) slot_df
        /\ Forall (fun r => uniformity r
                            = (forecast_value r
                               * scale_factor (total_plan_of slot_df)
                                              (total_forecast_of slot_df))%Q) shown)
  /\ (exists slot_df r,
        prepare_slot_data sample_session By_days two_month_activity
          two_month_forecast jan31 feb02 = Ok slot_df
        /\ let shown := render_chart_and_table slot_df By_days (Some 2024) (Some 2) in
           In r shown
           /\ ~ (uniformity r
                 == forecast_value r
                    * scale_factor (total_plan_of shown) (total_forecast_of shown))%Q).
Proof.
  split; [| split].
  - intros plan_df forecast_df year month slot_df H. split.
    + now apply finalize_slot_df_restricted.
    + now apply finalize_slot_df_scaled in H.
  - intros st df_filtered df_forecast min_date max_date year month slot_df Hy Hm H shown.
    apply prepare_slot_data_daily in H. destruct H as [plan_df [forecast_df H]].
    apply finalize_slot_df_scaled in H.
    subst shown. rewrite render_daily_month by assumption.
    split; [reflexivity |].
    eapply incl_Forall; [apply incl_filter | exact H].
  - eexists. eexists. split; [vm_compute; reflexivity |].
    split.
    + vm_compute. left. reflexivity.
    + vm_compute. discriminate.
Qed.

Lemma uniformity_scale_by_call_path_witness :
  exists slot_df,
    prepare_slot_data sample_session By_days two_month_activity two_month_forecast
      jan31 feb02 = Ok slot_df
    /\ Forall (fun r => uniformity r
                        = (forecast_value r
                           * scale_factor (total_plan_of slot_df)
                                          (total_forecast_of slot_df))%Q)
              (render_chart_and_table slot_df By_days (Some 2024) (Some 2)).
Proof.
  destruct (prepare_slot_data sample_session By_days two_month_activity
              two_month_forecast jan31 feb02) as [slot_df|e] eqn:H;
    [| vm_compute in H; discriminate H].
  exists slot_df. split; [reflexivity |].
  destruct uniformity_scale_by_call_path as [_ [Hdaily _]].
  refine (proj2 (Hdaily sample_session two_month_activity two_month_forecast
                   jan31 feb02 2024 2 slot_df _ _ H)); discriminate.
Defined.

(** ** The monthly KPI table *)

Lemma for_each_nil_bodies {A B : Type} (xs : list A) (body : A -> result (list B))
  (out : list B) :
  (forall x ys, In x xs -> body x = Ok ys -> ys = []) ->
  for_each xs body = Ok out -> out = [].
Proof.
  intros Hbody H.
  assert (HF : Forall (fun _ => False) out).
  { eapply for_each_Forall; [| exact H].
    intros x ys Hin Hy. rewrite (Hbody x ys Hin Hy). constructor. }
  destruct out as [|b out]; [reflexivity |]. now inversion HF.
Qed.

(** With no channel or no skill group selected no record is built,
    [pd.DataFrame([])] has no column and the ['Дельта'] computation
    raises [KeyError] on ['План']: [calculate_monthly_kpi] returns no
    table for an empty channel list or an empty skill-group list. *)
Lemma monthly_kpi_no_record
  (VARIANT_TO_SYSTEM : list (string * string)) (df_filtered : ActivityFrame)
  (df_forecast : ForecastFrame) (channels variants : list string) (year month : Z) :
  variants = [] \/ channels = [] ->
  exists e, calculate_monthly_kpi VARIANT_TO_SYSTEM df_filtered df_forecast
              channels variants year month = Raise e.
Proof.
  intros Hempty. unfold calculate_monthly_kpi.
  destruct (Timestamp_ymd year month 1) as [start_month|e]; simpl;
    [| eexists; reflexivity].
  match goal with
  | |- exists e, bind ?c _ = _ => destruct c as [df_fc_m|e]
  end; simpl; [| eexists; reflexivity].
  match goal with
  | |- exists e, bind ?c _ = _ => destruct c as [kpi_data|e] eqn:Ek
  end; simpl; [| eexists; reflexivity].
  assert (Hnil : kpi_data = []).
  { destruct Hempty as [-> | ->].
    - apply for_each_nil_bodies in Ek; [exact Ek |].
      intros channel_ ys _.
      destruct (dict_getitem CHANNEL_MAPPING channel_); simpl; [| discriminate].
      intros H. now injection H.
    - cbn in Ek. now injection Ek. }
  subst kpi_data. eexists. reflexivity.
Qed.

(** The original claim fails: the two calls return no table. *)
Lemma monthly_kpi_empty_selection_counterexample :
  ~ (exists kpi_df,
       calculate_monthly_kpi [] [act_10_00_10_45] DataFrame_empty [] ["A"] 2023 2
       = Ok kpi_df)
  /\ ~ (exists kpi_df,
          calculate_monthly_kpi [] [act_10_00_10_45] sample_forecast_frame
            ["Чаты"] [] 2023 2 = Ok kpi_df).
Proof.
  split; intros [kpi_df H].
  - destruct (monthly_kpi_no_record [] [act_10_00_10_45] DataFrame_empty
                [] ["A"] 2023 2 (or_intror eq_refl)) as [e He].
    rewrite He in H. discriminate H.
  - destruct (monthly_kpi_no_record [] [act_10_00_10_45] sample_forecast_frame
                ["Чаты"] [] 2023 2 (or_introl eq_refl)) as [e He].
    rewrite He in H. discriminate H.
Qed.

Lemma days_in_month_ge_28 (y m : Z) : 28 <= days_in_month y m.
Proof.
  unfold days_in_month.
  destruct (m =? 2); [destruct (is_leap_year y); lia |].
  destruct ((m =? 4) || (m =? 6) || (m =? 9) || (m =? 11)); lia.
Qed.

Lemma Timestamp_ymd_first (y m : Z) :
  1 <= m <= 12 -> Timestamp_ymd y m 1 = Ok (days_from_civil y m 1 * NS_PER_DAY).
Proof.
  intros Hm. unfold Timestamp_ymd.
  destruct (Z.leb_spec 1 m); [| lia]. destruct (Z.leb_spec m 12); [| lia].
  pose proof (days_in_month_ge_28 y m).
  destruct (Z.leb_spec 1 (days_in_month y m)); [| lia]. reflexivity.
Qed.

(** C8: without forecast rows the frame that stands in for the forecast
    has the columns [ts], [Прогноз], [Канал коммуникации] and
    [skill_variant] only, and the first (channel, skill group) pair
    raises [KeyError] on ['system_group']: no table is returned. *)
Theorem monthly_kpi_raises_without_forecast
  (VARIANT_TO_SYSTEM : list (string * string)) (df_filtered : ActivityFrame)
  (df_forecast : ForecastFrame) (channel_ : string) (channels : list string)
  (skill : string) (skills : list string) (year month : Z) :
  empty df_forecast = true ->
  1 <= month <= 12 ->
  dict_get CHANNEL_MAPPING channel_ <> None ->
  calculate_monthly_kpi VARIANT_TO_SYSTEM df_filtered df_forecast
    (channel_ :: channels) (skill :: skills) year month
  = Raise (KeyError "system_group").
Proof.
  intros He Hm Hc. unfold calculate_monthly_kpi.
  rewrite Timestamp_ymd_first by exact Hm. cbn [bind]. cbv zeta.
  rewrite He. cbn [negb bind for_each]. unfold dict_getitem.
  destruct (dict_get CHANNEL_MAPPING channel_) as [acts|]; [| contradiction].
  reflexivity.
Qed.

Lemma monthly_kpi_raises_without_forecast_witness :
  calculate_monthly_kpi [] [act_10_00_10_45] DataFrame_empty
    ["Входящие звонки"; "Чаты"] ["A"; "B"; "C"] 2023 2
  = Raise (KeyError "system_group").
Proof.
  apply monthly_kpi_raises_without_forecast.
  - reflexivity.
  - lia.
  - discriminate.
Defined.

(** *** The calendar: the month that starts at [Timestamp(year, month, 1)] *)

Lemma civil_from_days_era (era doe : Z) :
  0 <= doe < 146097 ->
  civil_from_days (era * 146097 + doe - 719468) = civil_of_doe era doe.
Proof.
  intros H. unfold civil_from_days, civil_of_doe.
  replace (era * 146097 + doe - 719468 + 719468) with (doe + era * 146097) by lia.
  rewrite (Z.div_add doe era 146097) by lia.
  rewrite (Z.div_small doe 146097) by lia. simpl (0 + era).
  replace (doe + era * 146097 - era * 146097) with doe by lia.
  reflexivity.
Qed.

Lemma civil_of_doe_shift (era doe : Z) :
  civil_of_doe era doe
  = let '(y, m, d) := civil_of_doe 0 doe in (y + era * 400, m, d).
Proof.
  unfold civil_of_doe. cbv zeta.
  match goal with
  | |- context [if ?b then _ + era * 400 + 1 else _] => destruct b
  end; f_equal; f_equal; lia.
Qed.

Lemma first_of_month_table_ok :
  forallb (fun yoe => forallb (fun mp => first_of_month_ok (Z.of_nat yoe) (Z.of_nat mp))
                              (seq 0 12))
          (seq 0 400) = true.
Proof. vm_compute. reflexivity. Qed.

Lemma forallb_seq (f : nat -> bool) (n i : nat) :
  forallb f (seq 0 n) = true -> (i < n)%nat -> f i = true.
Proof.
  intros H Hi. rewrite forallb_forall in H. apply H. apply in_seq. lia.
Qed.

Lemma first_of_month_ok_nat (i j : nat) :
  (i < 400)%nat -> (j < 12)%nat ->
  first_of_month_ok (Z.of_nat i) (Z.of_nat j) = true.
Proof.
  intros Hi Hj.
  apply (forallb_seq (fun mp => first_of_month_ok (Z.of_nat i) (Z.of_nat mp)) 12 j);
    [| exact Hj].
  apply (forallb_seq
           (fun yoe => forallb (fun mp => first_of_month_ok (Z.of_nat yoe) (Z.of_nat mp))
                               (seq 0 12)) 400 i);
    [| exact Hi].
  exact first_of_month_table_ok.
Qed.

Lemma first_of_month_ok_all (yoe mp : Z) :
  0 <= yoe < 400 -> 0 <= mp < 12 -> first_of_month_ok yoe mp = true.
Proof.
  intros Hy Hm.
  rewrite <- (Z2Nat.id yoe), <- (Z2Nat.id mp) by lia.
  apply first_of_month_ok_nat; lia.
Qed.

Lemma civil_first_of_month (y m : Z) :
  1 <= m <= 12 -> civil_from_days (days_from_civil y m 1) = (y, m, 1).
Proof.
  intros Hm. unfold days_from_civil. cbv zeta.
  set (y' := if m <=? 2 then y - 1 else y).
  set (mp := if 2 <? m then m - 3 else m + 9).
  set (era := y' / 400). set (yoe := y' - era * 400).
  assert (Hyoe : 0 <= yoe < 400).
  { unfold yoe, era. pose proof (Z.div_mod y' 400 ltac:(lia)).
    pose proof (Z.mod_pos_bound y' 400 ltac:(lia)). lia. }
  assert (Hmp : 0 <= mp < 12) by (unfold mp; destruct (Z.ltb_spec 2 m); lia).
  pose proof (first_of_month_ok_all yoe mp Hyoe Hmp) as Hok.
  unfold first_of_month_ok in Hok. fold (doe_of_first yoe mp).
  destruct (civil_of_doe 0 (doe_of_first yoe mp)) as [[y0 m0] d0] eqn:Ec.
  apply andb_prop in Hok. destruct Hok as [Hok Hd].
  apply andb_prop in Hok. destruct Hok as [Hok Hmm].
  apply andb_prop in Hok. destruct Hok as [Hok Hyy].
  apply andb_prop in Hok. destruct Hok as [Hlo Hhi].
  apply Z.leb_le in Hlo. apply Z.ltb_lt in Hhi.
  apply Z.eqb_eq in Hd, Hmm, Hyy.
  rewrite civil_from_days_era by lia. rewrite civil_of_doe_shift, Ec.
  subst y0 m0 d0. unfold mp, yoe, y' in *.
  destruct (Z.leb_spec m 2); destruct (Z.ltb_spec 2 m); try lia.
  - destruct (Z.ltb_spec (m + 9) 10); [lia |]. f_equal. f_equal; lia.
  - destruct (Z.ltb_spec (m - 3) 10); [| lia]. f_equal. f_equal; lia.
Qed.

Lemma days_from_civil_day (y m d : Z) :
  days_from_civil y m d = days_from_civil y m 1 + (d - 1).
Proof. unfold days_from_civil. lia. Qed.

Lemma date_of_midnight (day : Z) : date_of (day * NS_PER_DAY) = day.
Proof. unfold date_of. apply Z.div_mul. discriminate. Qed.

Lemma time_of_midnight (day : Z) : time_of (day * NS_PER_DAY) = 0.
Proof. unfold time_of. apply Z.mod_mul. discriminate. Qed.

(** [start_month + MonthEnd(1) + Timedelta(days=1)] is the start of the
    next month: [days_in_month] days after [start_month]. *)
Lemma end_month_after (y m : Z) :
  1 <= m <= 12 ->
  add_MonthEnd1 (days_from_civil y m 1 * NS_PER_DAY) + Timedelta_days 1
  = days_from_civil y m 1 * NS_PER_DAY + days_in_month y m * NS_PER_DAY.
Proof.
  intros Hm. unfold add_MonthEnd1, year_of, month_of, day_of.
  rewrite date_of_midnight, time_of_midnight, civil_first_of_month by exact Hm.
  pose proof (days_in_month_ge_28 y m).
  destruct (Z.eqb_spec 1 (days_in_month y m)); [lia |].
  rewrite (days_from_civil_day y m (days_in_month y m)).
  unfold Timedelta_days. lia.
Qed.

Lemma slot_count_days (s days : Z) :
  0 < days ->
  slot_count s (s + days * NS_PER_DAY) freq_30min = Z.to_nat (days * 48).
Proof.
  intros H. unfold slot_count. f_equal.
  symmetry. apply Z.div_unique with (r := freq_30min - 1).
  - left. vm_compute. split; [discriminate | reflexivity].
  - unfold freq_30min, Timedelta_minutes, NS_PER_DAY, NS_PER_SECOND. lia.
Qed.

(** *** The cross product when forecast rows are present *)

Lemma for_each_length {A B : Type} (n : nat) (xs : list A)
  (body : A -> result (list B)) :
  (forall x, In x xs -> exists ys, body x = Ok ys /\ length ys = n) ->
  exists out, for_each xs body = Ok out /\ length out = (length xs * n)%nat.
Proof.
  induction xs as [|x xs IH]; intros H; simpl.
  - exists []. split; reflexivity.
  - destruct (H x (or_introl eq_refl)) as [ys [-> Hys]].
    destruct IH as [zs [-> Hzs]]; [intros; apply H; now right |].
    simpl. eexists. split; [reflexivity |].
    rewrite length_app. lia.
Qed.

Lemma for_each_NoDup {A B K : Type} (key : B -> K) (tag : K -> A) (xs : list A)
  (body : A -> result (list B)) (out : list B) :
  NoDup xs ->
  (forall x ys, In x xs -> body x = Ok ys ->
                NoDup (map key ys) /\ Forall (fun y => tag (key y) = x) ys) ->
  for_each xs body = Ok out ->
  NoDup (map key out) /\ Forall (fun y => In (tag (key y)) xs) out.
Proof.
  intros Hxs. revert out. induction Hxs as [|x xs Hx Hnd IH]; intros out Hbody H;
    simpl in H.
  - injection H as <-. split; constructor.
  - destruct (body x) as [ys|] eqn:Ex; simpl in H; [| discriminate].
    destruct (for_each xs body) as [zs|] eqn:Ez; simpl in H; [| discriminate].
    injection H as <-.
    destruct (Hbody x ys (or_introl eq_refl) Ex) as [Hys Htag].
    destruct (IH zs) as [Hzs Hin]; [| reflexivity |].
    { intros x' ys' Hin'. apply Hbody. now right. }
    split.
    + rewrite map_app. apply NoDup_app; [exact Hys | exact Hzs |].
      intros k Hk1 Hk2. apply in_map_iff in Hk1, Hk2.
      destruct Hk1 as [y1 [<- Hy1]]. destruct Hk2 as [y2 [E Hy2]].
      rewrite Forall_forall in Htag, Hin.
      apply Hx. rewrite <- (Htag y1 Hy1), <- E. now apply Hin.
    + apply Forall_app. split.
      * eapply Forall_impl; [| exact Htag]. simpl. intros y ->. now left.
      * eapply Forall_impl; [| exact Hin]. simpl. intros y Hy. now right.
Qed.

Lemma date_time_of (t : Timestamp) : date_of t * NS_PER_DAY + time_of t = t.
Proof.
  unfold date_of, time_of. pose proof (Z.div_mod t NS_PER_DAY ltac:(discriminate)).
  lia.
Qed.

Lemma NoDup_sorted (l : list Z) : StronglySorted Z.lt l -> NoDup l.
Proof.
  induction 1 as [|a l _ IH Ha]; constructor; [| exact IH].
  intros Hin. rewrite Forall_forall in Ha. specialize (Ha a Hin). lia.
Qed.
(** With forecast rows present, channels of [CHANNEL_MAPPING] and a
    valid month, [calculate_monthly_kpi] returns one row per channel,
    skill group and 30-minute slot of the month, and the rows have
    distinct keys when the selections have no repetition. *)
Lemma monthly_kpi_cross_product (VARIANT_TO_SYSTEM : list (string * string))
  (df_filtered : ActivityFrame) (df_forecast : ForecastFrame)
  (selected_channels selected_variants : list string) (year month : Z) :
  empty df_forecast = false ->
  columns df_forecast = forecast_columns ->
  1 <= month <= 12 ->
  selected_channels <> [] -> selected_variants <> [] ->
  Forall (fun c => dict_get CHANNEL_MAPPING c <> None) selected_channels ->
  exists kpi_df,
    calculate_monthly_kpi VARIANT_TO_SYSTEM df_filtered df_forecast
      selected_channels selected_variants year month = Ok kpi_df
    /\ length (rows kpi_df)
       = (length selected_channels
          * (length selected_variants * (Z.to_nat (days_in_month year month) * 48)))%nat
    /\ (NoDup selected_channels -> NoDup selected_variants ->
        NoDup (map (fun r => kpi_key (fst r)) (rows kpi_df))).
Proof.
  intros He Hcols Hm Hch Hsk Hmap.
  pose proof (days_in_month_ge_28 year month) as Hdim.
  unfold calculate_monthly_kpi.
  rewrite Timestamp_ymd_first by exact Hm. cbn [bind]. cbv zeta.
  rewrite !end_month_after by exact Hm.
  set (start_month := days_from_civil year month 1 * NS_PER_DAY).
  set (end_month := start_month + days_in_month year month * NS_PER_DAY).
  assert (Hslots : date_range start_month end_month freq_30min
                   = map (slot_at start_month freq_30min)
                         (seq 0 (Z.to_nat (days_in_month year month * 48)))).
  { unfold end_month. rewrite date_range_after, slot_count_days; try lia.
    - reflexivity.
    - reflexivity.
    - unfold NS_PER_DAY, NS_PER_SECOND. lia. }
  rewrite Hslots.
  set (slots := map (slot_at start_month freq_30min)
                    (seq 0 (Z.to_nat (days_in_month year month * 48)))).
  assert (Hlen : length slots = (Z.to_nat (days_in_month year month) * 48)%nat).
  { unfold slots. rewrite length_map, length_seq. lia. }
  assert (Hnd : NoDup slots).
  { apply NoDup_sorted. unfold slots. now apply slots_sorted. }
  rewrite He. cbn [negb].
  destruct df_forecast as [cols rws]. cbn [columns] in Hcols. subst cols.
  change (getitem (mkDataFrame forecast_columns rws) "Дата") with (Ok tt).
  change (getitem (mkDataFrame forecast_columns rws) "Время") with (Ok tt).
  cbn [bind].
  match goal with
  | |- context [getitem ?d "system_group"] => set (df_fc_m := d)
  end.
  assert (G1 : getitem df_fc_m "Канал коммуникации" = Ok tt) by reflexivity.
  assert (G2 : getitem df_fc_m "system_group" = Ok tt) by reflexivity.
  assert (G3 : forall mask, getitem (select mask df_fc_m) "ts" = Ok tt)
    by reflexivity.
  assert (G4 : forall mask, getitem (select mask df_fc_m) "Прогноз" = Ok tt)
    by reflexivity.
  rewrite G1, G2. cbn [bind].
  match goal with
  | |- context [for_each selected_channels ?b] => set (body := b)
  end.
  assert (Hrun : exists kpi_data,
             for_each selected_channels body = Ok kpi_data
             /\ length kpi_data
                = (length selected_channels
                   * (length selected_variants * (length slots * 1)))%nat).
  { apply for_each_length. intros c Hc. unfold body.
    rewrite Forall_forall in Hmap. specialize (Hmap c Hc). unfold dict_getitem.
    destruct (dict_get CHANNEL_MAPPING c) as [acts|]; [| contradiction].
    cbn [bind]. apply for_each_length. intros s _.
    apply for_each_length. intros t _. rewrite G3, G4. cbn [bind].
    eexists. split; reflexivity. }
  destruct Hrun as [kpi_data [Hrun Hlength]]. rewrite Hrun. cbn [bind].
  rewrite Nat.mul_1_r, Hlen in Hlength.
  destruct kpi_data as [|r0 kpi_data].
  { exfalso. simpl in Hlength.
    destruct selected_channels; [contradiction |].
    destruct selected_variants; [contradiction |]. simpl in Hlength. lia. }
  eexists. split; [reflexivity |]. cbn [rows DataFrame_records].
  split; [now rewrite length_map |].
  intros Hndc Hnds. rewrite map_map. cbn [fst].
  refine (proj1 (for_each_NoDup kpi_key (fun k => snd (fst k)) selected_channels
                   body _ Hndc _ Hrun)).
  intros c ys _. unfold body, dict_getitem.
  destruct (dict_get CHANNEL_MAPPING c) as [acts|]; [| discriminate].
  cbn [bind]. intros Hys. split.
  - refine (proj1 (for_each_NoDup kpi_key snd selected_variants _ _ Hnds _ Hys)).
    intros s zs _ Hzs. split.
    + refine (proj1 (for_each_NoDup kpi_key
                       (fun k => fst (fst (fst k)) * NS_PER_DAY + snd (fst (fst k)))
                       slots _ _ Hnd _ Hzs)).
      intros t ws _. rewrite G3, G4. cbn [bind]. intros Hws. injection Hws as <-.
      split; [repeat constructor; intros [] |].
      constructor; [| constructor]. apply date_time_of.
    + eapply for_each_Forall; [| exact Hzs].
      intros t ws _. rewrite G3, G4. cbn [bind]. intros Hws. injection Hws as <-.
      constructor; [reflexivity | constructor].
  - eapply for_each_Forall; [| exact Hys].
    intros s zs _ Hzs. eapply for_each_Forall; [| exact Hzs].
    intros t ws _. rewrite G3, G4. cbn [bind]. intros Hws. injection Hws as <-.
    constructor; [reflexivity | constructor].
Qed.

(** The instance of the specification: 2 channels, 3 skill groups and
    the 28 days of February 2023, with forecast rows present. *)
Example monthly_kpi_february_2023 (VARIANT_TO_SYSTEM : list (string * string))
  (df_filtered : ActivityFrame) :
  exists kpi_df,
    calculate_monthly_kpi VARIANT_TO_SYSTEM df_filtered sample_forecast_frame
      ["Входящие звонки"; "Чаты"] ["A"; "B"; "C"] 2023 2 = Ok kpi_df
    /\ length (rows kpi_df) = (2 * 3 * 28 * 48)%nat
    /\ NoDup (map (fun r => kpi_key (fst r)) (rows kpi_df)).
Proof.
  assert (Hmap : Forall (fun c => dict_get CHANNEL_MAPPING c <> None)
                        ["Входящие звонки"; "Чаты"])
    by (repeat constructor; discriminate).
  assert (Hndc : NoDup ["Входящие звонки"; "Чаты"]).
  { constructor; [| repeat constructor; intros []].
    intros [H | []]. discriminate H. }
  assert (Hnds : NoDup ["A"; "B"; "C"]).
  { constructor; [intros [H | [H | []]]; discriminate H |].
    constructor; [intros [H | []]; discriminate H |].
    repeat constructor. intros []. }
  destruct (monthly_kpi_cross_product VARIANT_TO_SYSTEM df_filtered
              sample_forecast_frame ["Входящие звонки"; "Чаты"] ["A"; "B"; "C"]
              2023 2 eq_refl eq_refl ltac:(lia) ltac:(discriminate)
              ltac:(discriminate) Hmap) as [kpi_df [Hrun [Hlen Hnd]]].
  exists kpi_df. split; [exact Hrun |]. split; [| exact (Hnd Hndc Hnds)].
  rewrite Hlen. reflexivity.
Qed.

(** * Further properties

    The loaders, the filters, the two views end to end, the KPI table
    and the calendar. *)

(** ** The period filter *)

Lemma filter_filter_implied {A : Type} (p q : A -> bool) (l : list A) :
  (forall x, q x = true -> p x = true) -> filter q (filter p l) = filter q l.
Proof.
  intros H. induction l as [|a l IH]; simpl; [reflexivity |].
  destruct (p a) eqn:Ep; simpl; destruct (q a) eqn:Eq; try (now rewrite IH).
  apply H in Eq. congruence.
Qed.

Lemma calculate_overlap_in_period (df : ActivityFrame)
  (start_dt end_dt slot_start slot_end : Timestamp) :
  start_dt <= slot_start -> slot_end <= end_dt ->
  calculate_overlap (filter_by_period df (Some start_dt) (Some end_dt))
                    slot_start slot_end
  = calculate_overlap df slot_start slot_end.
Proof.
  intros Hs He. unfold calculate_overlap, filter_by_period.
  rewrite filter_filter_implied; [reflexivity |].
  intros r. unfold overlap_mask.
  rewrite !andb_true_iff, !Z.ltb_lt, !Z.gtb_lt. lia.
Qed.

(** X1: [filter_by_period] does not change the overlap of any slot that
    lies within the period, nor the plan series of slots that all lie
    within it: the intervals it drops do not intersect the period. *)
Theorem filter_by_period_transparent (df : ActivityFrame)
  (start_dt end_dt : Timestamp) (times : list Timestamp) (is_hourly : bool) :
  Forall (fun t => start_dt <= t /\ t + slot_width is_hourly <= end_dt) times ->
  calculate_plan (filter_by_period df (Some start_dt) (Some end_dt)) times is_hourly
  = calculate_plan df times is_hourly
  /\ Forall (fun t =>
              calculate_overlap (filter_by_period df (Some start_dt) (Some end_dt))
                                t (t + slot_width is_hourly)
              = calculate_overlap df t (t + slot_width is_hourly)) times.
Proof.
  intros Hin.
  assert (Hall : Forall (fun t =>
              calculate_overlap (filter_by_period df (Some start_dt) (Some end_dt))
                                t (t + slot_width is_hourly)
              = calculate_overlap df t (t + slot_width is_hourly)) times).
  { eapply Forall_impl; [| exact Hin]. intros t [Hs He].
    now apply calculate_overlap_in_period. }
  split; [| exact Hall].
  unfold calculate_plan. do 2 f_equal. apply map_ext_in. intros t Ht.
  rewrite Forall_forall in Hall. now rewrite (Hall t Ht).
Qed.

Lemma filter_by_period_transparent_witness :
  calculate_plan
    (filter_by_period [act_10_00_10_45; act_09_00_10_00] (Some 0) (Some NS_PER_DAY))
    sample_times true
  = calculate_plan [act_10_00_10_45; act_09_00_10_00] sample_times true.
Proof.
  refine (proj1 (filter_by_period_transparent _ 0 NS_PER_DAY sample_times true _)).
  repeat constructor; vm_compute; discriminate.
Defined.

(** ** The two views *)

Lemma concat_map_singleton {A B : Type} (g : A -> B) (l : list A) :
  concat (map (fun x => [g x]) l) = map g l.
Proof. induction l as [|a l IH]; simpl; [reflexivity | now rewrite IH]. Qed.

Lemma getitem_forecast_columns (rws : list ForecastRow) (c : string) :
  In c forecast_columns -> getitem (mkDataFrame forecast_columns rws) c = Ok tt.
Proof.
  intros Hc. simpl in Hc.
  repeat (destruct Hc as [<- | Hc]; [reflexivity |]). contradiction.
Qed.

Lemma calculate_forecast_hourly (r : ForecastRow) (rws : list ForecastRow)
  (times : list Timestamp) (start_dt end_dt : option Timestamp) :
  times <> [] ->
  calculate_forecast (mkDataFrame forecast_columns (r :: rws)) times
    start_dt end_dt true
  = Ok (map (fun t => (t, Qsum (map forecast
                                    (filter (fun x => ts x =? t) (r :: rws)))))
            times).
Proof.
  intros Ht. unfold calculate_forecast.
  change (empty (mkDataFrame forecast_columns (r :: rws))) with false. cbv iota.
  rewrite !getitem_forecast_columns by (simpl; tauto). cbn [bind negb].
  rewrite (for_each_ok
             (fun t => [(t, Qsum (map forecast
                                      (filter (fun x => ts x =? t) (r :: rws))))])).
  - cbn [bind]. rewrite concat_map_singleton.
    destruct times as [|t0 times]; [contradiction | reflexivity].
  - intros t _. reflexivity.
Qed.

Lemma calculate_forecast_daily (r : ForecastRow) (rws : list ForecastRow)
  (times : list Timestamp) (s e : Timestamp) :
  times <> [] ->
  calculate_forecast (mkDataFrame forecast_columns (r :: rws)) times
    (Some s) (Some e) false
  = Ok (map (fun t =>
               (t, Qsum (map forecast
                           (filter (fun x => (t <=? ts x)
                                             && (ts x <? t + Timedelta_days 1))
                                   (filter (fun x => (s <=? ts x) && (ts x <? e))
                                           (r :: rws))))))
            times).
Proof.
  intros Ht. unfold calculate_forecast.
  change (empty (mkDataFrame forecast_columns (r :: rws))) with false. cbv iota.
  rewrite !getitem_forecast_columns by (simpl; tauto). cbn [bind negb].
  rewrite (for_each_ok
             (fun t =>
                [(t, Qsum (map forecast
                             (filter (fun x => (t <=? ts x)
                                               && (ts x <? t + Timedelta_days 1))
                                     (filter (fun x => (s <=? ts x) && (ts x <? e))
                                             (r :: rws)))))])).
  - cbn [bind]. rewrite concat_map_singleton.
    destruct times as [|t0 times]; [contradiction | reflexivity].
  - intros t _. reflexivity.
Qed.

Lemma finalize_slot_df_zip (times : list Timestamp) (p f : Timestamp -> Q) :
  finalize_slot_df (map (fun t => (t, p t)) times) (map (fun t => (t, f t)) times)
                   None None
  = Ok (add_uniformity (map (fun t => (t, p t, f t)) times)).
Proof.
  unfold finalize_slot_df, concat_axis1, index. rewrite !map_map. cbn [fst].
  rewrite list_eqb_refl. cbn [bind restrict_month].
  rewrite combine_map_same, !map_map. reflexivity.
Qed.

Lemma calculate_forecast_hourly_at (df_forecast : ForecastFrame)
  (times : list Timestamp) (start_dt end_dt : option Timestamp) :
  empty df_forecast = true \/ columns df_forecast = forecast_columns ->
  times <> [] ->
  calculate_forecast df_forecast times start_dt end_dt true
  = Ok (map (fun t => (t, forecast_at df_forecast t)) times).
Proof.
  intros Hfc Ht. destruct (empty df_forecast) eqn:He.
  - rewrite calculate_forecast_empty by exact He.
    unfold forecast_at. now rewrite He.
  - destruct Hfc as [Hfc | Hfc]; [discriminate |].
    destruct df_forecast as [cols rws]. cbn [columns] in Hfc. subst cols.
    destruct rws as [|r rws]; [discriminate |].
    rewrite calculate_forecast_hourly by exact Ht.
    unfold forecast_at. rewrite He. reflexivity.
Qed.

Lemma calculate_forecast_daily_of_day (df_forecast : ForecastFrame)
  (times : list Timestamp) (s e : Timestamp) :
  empty df_forecast = true \/ columns df_forecast = forecast_columns ->
  times <> [] ->
  Forall (fun t => s <= t /\ t + Timedelta_days 1 <= e) times ->
  calculate_forecast df_forecast times (Some s) (Some e) false
  = Ok (map (fun t => (t, forecast_of_day df_forecast t)) times).
Proof.
  intros Hfc Ht Hin. destruct (empty df_forecast) eqn:He.
  - rewrite calculate_forecast_empty by exact He.
    unfold forecast_of_day. now rewrite He.
  - destruct Hfc as [Hfc | Hfc]; [discriminate |].
    destruct df_forecast as [cols rws]. cbn [columns] in Hfc. subst cols.
    destruct rws as [|r rws]; [discriminate |].
    rewrite calculate_forecast_daily by exact Ht. f_equal.
    apply map_ext_in. intros t Hti. f_equal.
    unfold forecast_of_day. rewrite He. cbn [rows].
    rewrite Forall_forall in Hin. specialize (Hin t Hti).
    rewrite filter_filter_implied; [reflexivity |].
    intros x. rewrite !andb_true_iff, !Z.leb_le, !Z.ltb_lt. lia.
Qed.

Lemma hourly_times (d : Z) :
  date_range (to_datetime d) (to_datetime d + Timedelta_days 1) freq_30min
  = map (fun i => to_datetime d + Z.of_nat i * Timedelta_minutes 30) (seq 0 48).
Proof.
  rewrite date_range_after.
  - change (Timedelta_days 1) with (1 * NS_PER_DAY).
    rewrite slot_count_days by lia. reflexivity.
  - reflexivity.
  - unfold Timedelta_days, NS_PER_DAY, NS_PER_SECOND. lia.
Qed.

Lemma daily_times (min_date max_date : Z) :
  date_range (to_datetime min_date) (to_datetime max_date) freq_D
  = map to_datetime (daily_dates min_date max_date).
Proof.
  unfold daily_dates. destruct (Z.lt_ge_cases min_date max_date) as [Hlt | Hge].
  - rewrite date_range_after;
      [| reflexivity | unfold to_datetime, NS_PER_DAY, NS_PER_SECOND; lia].
    assert (Hc : slot_count (to_datetime min_date) (to_datetime max_date) freq_D
                 = Z.to_nat (max_date - min_date)).
    { unfold slot_count, to_datetime, freq_D, Timedelta_days. f_equal.
      symmetry. apply (Z.div_unique _ _ _ (NS_PER_DAY - 1));
        unfold NS_PER_DAY, NS_PER_SECOND; lia. }
    rewrite Hc, map_map. apply map_ext. intros i.
    unfold slot_at, to_datetime, freq_D, Timedelta_days. lia.
  - rewrite date_range_not_after;
      [| reflexivity | unfold to_datetime, NS_PER_DAY, NS_PER_SECOND; lia].
    replace (Z.to_nat (max_date - min_date)) with 0%nat by lia. reflexivity.
Qed.

Lemma slot_start_of_key (slot_df : list SlotRecord) :
  map slot_start slot_df = map (fun k : MergedRow => fst (fst k)) (map record_key slot_df).
Proof. rewrite map_map. reflexivity. Qed.

Lemma prepare_slot_data_hourly_keys (st : SessionState) (df_filtered : ActivityFrame)
  (df_forecast : ForecastFrame) (min_date max_date : Z) :
  empty df_forecast = true \/ columns df_forecast = forecast_columns ->
  exists slot_df,
    prepare_slot_data st By_hours df_filtered df_forecast min_date max_date
    = Ok slot_df
    /\ map record_key slot_df
       = map (fun t => (t,
                        calculate_overlap df_filtered t (t + Timedelta_minutes 30),
                        forecast_at df_forecast t))
             (map (fun i => to_datetime (selected_date st)
                            + Z.of_nat i * Timedelta_minutes 30) (seq 0 48)).
Proof.
  intros Hfc. unfold prepare_slot_data. rewrite hourly_times.
  set (times := map (fun i => to_datetime (selected_date st)
                              + Z.of_nat i * Timedelta_minutes 30) (seq 0 48)).
  assert (Ht : times <> []) by discriminate.
  rewrite calculate_plan_ok by exact Ht. cbn [bind].
  rewrite calculate_forecast_hourly_at by assumption. cbn [bind].
  rewrite (finalize_slot_df_zip times
             (fun t => calculate_overlap _ t (t + slot_width true))).
  eexists. split; [reflexivity |].
  rewrite add_uniformity_key. apply map_ext_in. intros t Hti.
  f_equal. f_equal. apply calculate_overlap_in_period.
  - unfold times in Hti. apply in_map_iff in Hti. destruct Hti as [i [<- _]].
    unfold Timedelta_minutes, NS_PER_SECOND. lia.
  - unfold times in Hti. apply in_map_iff in Hti. destruct Hti as [i [<- Hi]].
    apply in_seq in Hi.
    unfold slot_width, Timedelta_minutes, Timedelta_days, NS_PER_DAY, NS_PER_SECOND.
    lia.
Qed.

(** X2: in the hourly view [prepare_slot_data] returns, for every
    activity table and every forecast table that is empty or has the
    columns of [process_forecast] and rows whose dates and times parse,
    the 48 half-hour slots of the selected date in order; the plan of a
    slot is its overlap with the whole filtered activity and its forecast
    is the sum of the forecast rows at the slot start. *)
Theorem prepare_slot_data_hourly (st : SessionState) (df_filtered : ActivityFrame)
  (df_forecast : ForecastFrame) (min_date max_date : Z) :
  empty df_forecast = true \/ columns df_forecast = forecast_columns ->
  exists slot_df,
    prepare_slot_data st By_hours df_filtered df_forecast min_date max_date
    = Ok slot_df
    /\ length slot_df = 48%nat
    /\ map record_key slot_df
       = map (fun t => (t,
                        calculate_overlap df_filtered t (t + Timedelta_minutes 30),
                        forecast_at df_forecast t))
             (map (fun i => to_datetime (selected_date st)
                            + Z.of_nat i * Timedelta_minutes 30) (seq 0 48)).
Proof.
  intros Hfc.
  destruct (prepare_slot_data_hourly_keys st df_filtered df_forecast min_date
              max_date Hfc) as [slot_df [Hrun Hkeys]].
  exists slot_df. split; [exact Hrun |]. split; [| exact Hkeys].
  apply (f_equal (@length _)) in Hkeys. rewrite !length_map in Hkeys. exact Hkeys.
Qed.

Lemma prepare_slot_data_hourly_witness :
  exists slot_df,
    prepare_slot_data sample_session By_hours two_month_activity two_month_forecast
      jan31 feb02 = Ok slot_df
    /\ length slot_df = 48%nat
    /\ map slot_start slot_df = day_slots jan31.
Proof.
  destruct (prepare_slot_data_hourly sample_session two_month_activity
              two_month_forecast jan31 feb02 (or_intror eq_refl))
    as [slot_df [Hrun [Hlen Hkeys]]].
  exists slot_df. split; [exact Hrun |]. split; [exact Hlen |].
  rewrite slot_start_of_key, Hkeys, map_map. reflexivity.
Defined.

Lemma in_daily_dates (min_date max_date d : Z) :
  In d (daily_dates min_date max_date) <-> min_date <= d < max_date.
Proof.
  unfold daily_dates. rewrite in_map_iff. split.
  - intros [i [<- Hi]]. apply in_seq in Hi. lia.
  - intros Hd. exists (Z.to_nat (d - min_date)). split; [lia |]. apply in_seq. lia.
Qed.

Lemma daily_dates_nonempty (min_date max_date : Z) :
  min_date < max_date -> daily_dates min_date max_date <> [].
Proof.
  intros Hlt. unfold daily_dates.
  destruct (Z.to_nat (max_date - min_date)) eqn:En; [lia | discriminate].
Qed.

(** Without two dates the daily view has no slot and [calculate_plan]
    raises. *)
Lemma prepare_slot_data_daily_one_date (st : SessionState)
  (df_filtered : ActivityFrame) (df_forecast : ForecastFrame)
  (min_date max_date : Z) :
  max_date <= min_date ->
  prepare_slot_data st By_days df_filtered df_forecast min_date max_date
  = Raise (KeyError "slot_start").
Proof.
  intros Hge. unfold prepare_slot_data. rewrite daily_times. unfold daily_dates.
  replace (Z.to_nat (max_date - min_date)) with 0%nat by lia. reflexivity.
Qed.

Lemma prepare_slot_data_daily_keys (st : SessionState) (df_filtered : ActivityFrame)
  (df_forecast : ForecastFrame) (min_date max_date : Z) :
  min_date < max_date ->
  empty df_forecast = true \/ columns df_forecast = forecast_columns ->
  exists slot_df,
    prepare_slot_data st By_days df_filtered df_forecast min_date max_date
    = Ok slot_df
    /\ map record_key slot_df
       = map (fun d => (to_datetime d,
                        calculate_overlap (daily_activity st df_filtered)
                          (to_datetime d) (to_datetime d + Timedelta_days 1),
                        forecast_of_day df_forecast (to_datetime d)))
             (daily_dates min_date max_date).
Proof.
  intros Hlt Hfc. unfold prepare_slot_data.
  rewrite daily_times.
  fold (daily_activity st df_filtered).
  set (times := map to_datetime (daily_dates min_date max_date)).
  assert (Ht : times <> []).
  { unfold times. intros Hnil. apply map_eq_nil in Hnil.
    now apply (daily_dates_nonempty min_date max_date). }
  rewrite calculate_plan_ok by exact Ht. cbn [bind].
  rewrite calculate_forecast_daily_of_day; [| exact Hfc | exact Ht |].
  - cbn [bind].
    rewrite (finalize_slot_df_zip times
               (fun t => calculate_overlap _ t (t + slot_width false))).
    eexists. split; [reflexivity |]. rewrite add_uniformity_key.
    unfold times. rewrite map_map. reflexivity.
  - apply Forall_forall. intros t Hti. unfold times in Hti.
    apply in_map_iff in Hti. destruct Hti as [d [<- Hd]].
    apply in_daily_dates in Hd.
    unfold to_datetime, Timedelta_days, NS_PER_DAY, NS_PER_SECOND. lia.
Qed.

(** X3: in the daily view [prepare_slot_data] makes one slot for each
    date from [min_date] up to, but not including, [max_date]: the last
    available date gets no slot.  The plan of a day is its overlap with
    the activity and its forecast is the sum of the forecast rows of the
    day.  When the two dates are equal, the activity being on one date
    only, there is no slot at all and [calculate_plan] raises
    [KeyError('slot_start')]. *)
Theorem prepare_slot_data_daily_slots (st : SessionState) (df_filtered : ActivityFrame)
  (df_forecast : ForecastFrame) (min_date max_date : Z) :
  empty df_forecast = true \/ columns df_forecast = forecast_columns ->
  (min_date < max_date ->
   exists slot_df,
     prepare_slot_data st By_days df_filtered df_forecast min_date max_date
     = Ok slot_df
     /\ map record_key slot_df
        = map (fun d => (to_datetime d,
                         calculate_overlap (daily_activity st df_filtered)
                           (to_datetime d) (to_datetime d + Timedelta_days 1),
                         forecast_of_day df_forecast (to_datetime d)))
              (daily_dates min_date max_date)
     /\ length slot_df = Z.to_nat (max_date - min_date)
     /\ ~ In (to_datetime max_date) (map slot_start slot_df))
  /\ (max_date <= min_date ->
      prepare_slot_data st By_days df_filtered df_forecast min_date max_date
      = Raise (KeyError "slot_start")).
Proof.
  intros Hfc. split; [| apply prepare_slot_data_daily_one_date].
  intros Hlt.
  destruct (prepare_slot_data_daily_keys st df_filtered df_forecast min_date
              max_date Hlt Hfc) as [slot_df [Hrun Hkeys]].
  exists slot_df. split; [exact Hrun |]. split; [exact Hkeys |]. split.
  - apply (f_equal (@length _)) in Hkeys. unfold daily_dates in Hkeys.
    rewrite !length_map, length_seq in Hkeys. exact Hkeys.
  - intros Hin. rewrite slot_start_of_key, Hkeys, map_map in Hin.
    cbn [fst] in Hin. apply in_map_iff in Hin. destruct Hin as [d [Hd Hin]].
    apply in_daily_dates in Hin.
    unfold to_datetime, NS_PER_DAY, NS_PER_SECOND in Hd. lia.
Qed.

Lemma prepare_slot_data_daily_slots_witness :
  (exists slot_df,
     prepare_slot_data sample_session By_days two_month_activity two_month_forecast
       jan31 feb02 = Ok slot_df
     /\ map slot_start slot_df = [to_datetime jan31; to_datetime feb01]
     /\ ~ In (to_datetime feb02) (map slot_start slot_df))
  /\ prepare_slot_data sample_session By_days [act_10_00_10_45] two_month_forecast
       0 0 = Raise (KeyError "slot_start").
Proof.
  split.
  - destruct (proj1 (prepare_slot_data_daily_slots sample_session two_month_activity
                       two_month_forecast jan31 feb02 (or_intror eq_refl))
                    ltac:(vm_compute; reflexivity))
      as [slot_df [Hrun [Hkeys [_ Hlast]]]].
    exists slot_df. split; [exact Hrun |]. split; [| exact Hlast].
    replace (map slot_start slot_df)
      with (map (fun k : MergedRow => fst (fst k)) (map record_key slot_df))
      by (rewrite map_map; reflexivity).
    rewrite Hkeys. reflexivity.
  - apply (proj2 (prepare_slot_data_daily_slots sample_session [act_10_00_10_45]
                    two_month_forecast 0 0 (or_intror eq_refl))).
    apply Z.le_refl.
Defined.

(** ** Loading the activity *)

Lemma same_date_close (s e : Timestamp) :
  date_of s = date_of e -> - NS_PER_DAY < e - s < NS_PER_DAY.
Proof.
  unfold date_of. intros H.
  pose proof (Z.div_mod s NS_PER_DAY ltac:(discriminate)) as Hs.
  pose proof (Z.div_mod e NS_PER_DAY ltac:(discriminate)) as He.
  pose proof (Z.mod_pos_bound s NS_PER_DAY ltac:(reflexivity)) as Bs.
  pose proof (Z.mod_pos_bound e NS_PER_DAY ltac:(reflexivity)) as Be.
  rewrite <- H in He. unfold NS_PER_DAY, NS_PER_SECOND in *. lia.
Qed.

Lemma load_activity_rows (df : DataFrame ActivitySheetRow) :
  rows (load_activity df) = []
  \/ (forallb (has_column df) activity_required_columns = true
      /\ existsb (fun r => isnull (sheet_start r) || isnull (sheet_end r)) (rows df)
         = false
      /\ rows (load_activity df)
         = flat_map (fun r =>
             match sheet_start r, sheet_end r with
             | Some s, Some e =>
                 [mkActivity s (if e <=? s then e + Timedelta_days 1 else e)
                             (sheet_main_act r) (sheet_skill_group r)]
             | _, _ => []
             end) (rows df)).
Proof.
  unfold load_activity.
  destruct (forallb (has_column df) activity_required_columns); cbn [negb];
    [| now left].
  destruct (existsb _ (rows df)) eqn:Ex; [now left |].
  right. repeat split.
Qed.

Lemma load_activity_positive (df : DataFrame ActivitySheetRow) :
  Forall same_activity_date (rows df) ->
  Forall (fun a => start a < end_ a <= start a + NS_PER_DAY) (rows (load_activity df)).
Proof.
  intros Hsame.
  destruct (load_activity_rows df) as [Hnil | [_ [Hex Hrows]]].
  { rewrite Hnil. constructor. }
  rewrite Hrows. apply Forall_flat_map. rewrite Forall_forall in *. intros r Hr.
  specialize (Hsame r Hr).
  destruct (sheet_start r) as [s|] eqn:Es; [| constructor].
  destruct (sheet_end r) as [e|] eqn:Ee; [| constructor].
  pose proof (same_date_close s e (Hsame s e Es Ee)) as Hc.
  constructor; [| constructor]. cbn [start end_].
  unfold Timedelta_days. destruct (Z.leb_spec e s); lia.
Qed.

(** X4: [load_activity] returns intervals of positive length of at most
    24 hours: an end that is not after its start is moved to the next
    day, so that an interval whose end time equals its start time is
    loaded as a 24-hour interval.  When the load succeeds no row of the
    sheet is dropped. *)
Theorem load_activity_intervals (df : DataFrame ActivitySheetRow) :
  Forall same_activity_date (rows df) ->
  Forall (fun a => start a < end_ a <= start a + NS_PER_DAY) (rows (load_activity df))
  /\ (rows (load_activity df) <> [] ->
      length (rows (load_activity df)) = length (rows df)
      /\ forall s m k,
           In (mkActivitySheetRow (Some s) (Some s) m k) (rows df) ->
           In (mkActivity s (s + NS_PER_DAY) m k) (rows (load_activity df))).
Proof.
  intros Hsame. split; [now apply load_activity_positive |].
  destruct (load_activity_rows df) as [Hnil | [_ [Hex Hrows]]].
  { rewrite Hnil. intros H; now elim H. }
  rewrite Hrows. clear Hrows. intros _; split.
  - induction (rows df) as [|r l IH]; [reflexivity |].
    cbn [existsb] in Hex. apply orb_false_elim in Hex. destruct Hex as [Hr Hl].
    apply orb_false_elim in Hr. destruct Hr as [Hs He].
    inversion Hsame as [|? ? _ Hsl]; subst.
    cbn [flat_map]. rewrite length_app, (IH Hsl Hl).
    destruct (sheet_start r); [| discriminate].
    destruct (sheet_end r); [| discriminate]. reflexivity.
  - intros s m k Hin. apply in_flat_map.
    exists (mkActivitySheetRow (Some s) (Some s) m k). split; [exact Hin |].
    cbn [sheet_start sheet_end sheet_main_act sheet_skill_group].
    rewrite Z.leb_refl. left. unfold Timedelta_days. rewrite Z.mul_1_l. reflexivity.
Qed.

Lemma load_activity_intervals_witness :
  Forall (fun a => start a < end_ a <= start a + NS_PER_DAY)
         (rows (load_activity sample_sheet))
  /\ length (rows (load_activity sample_sheet)) = 2%nat
  /\ In (mkActivity (to_datetime jan31 + 36000 * NS_PER_SECOND)
                    (to_datetime jan31 + 36000 * NS_PER_SECOND + NS_PER_DAY) "Чат" "A")
        (rows (load_activity sample_sheet)).
Proof.
  assert (Hsame : Forall same_activity_date (rows sample_sheet)).
  { repeat constructor; intros s e Hs He; injection Hs as <-; injection He as <-;
      reflexivity. }
  destruct (load_activity_intervals sample_sheet Hsame) as [Hpos Hrest].
  split; [exact Hpos |].
  destruct (Hrest ltac:(discriminate)) as [Hlen Hfull].
  split; [exact Hlen |]. apply Hfull. right. left. reflexivity.
Defined.

Lemma filter_Forall {A : Type} (P : A -> Prop) (p : A -> bool) (l : list A) :
  Forall P l -> Forall P (filter p l).
Proof.
  rewrite !Forall_forall. intros H x Hx. apply filter_In in Hx. now apply H.
Qed.

(** X5: the activity table that [load_and_validate_files] combines from
    the uploaded sheets is never empty, and each of its intervals, also
    after [filter_data], ends after it starts and lasts at most 24
    hours. *)
Theorem loaded_activity_intervals (activity_files : list (DataFrame ActivitySheetRow))
  (df_act_combined : ActivityFrame) (selected_variants acts : list string) :
  Forall (fun df => Forall same_activity_date (rows df)) activity_files ->
  load_and_validate_files activity_files = Some df_act_combined ->
  df_act_combined <> []
  /\ Forall (fun a => start a < end_ a <= start a + NS_PER_DAY) df_act_combined
  /\ Forall (fun a => start a < end_ a <= start a + NS_PER_DAY)
            (filter_data df_act_combined selected_variants acts).
Proof.
  intros Hsame Hload. unfold load_and_validate_files in Hload.
  destruct activity_files as [|f0 fs]; [discriminate |].
  set (files := f0 :: fs) in *.
  set (dfs := filter (fun df => negb (empty df)) (map load_activity files)) in *.
  assert (Hall : Forall (fun d => rows d <> []
                                  /\ Forall (fun a => start a < end_ a
                                                       <= start a + NS_PER_DAY)
                                            (rows d)) dfs).
  { apply Forall_forall. intros d Hd. unfold dfs in Hd. apply filter_In in Hd.
    destruct Hd as [Hd Hne]. apply in_map_iff in Hd. destruct Hd as [f [<- Hf]].
    rewrite Forall_forall in Hsame. split.
    - intros Hnil. unfold empty in Hne. rewrite Hnil in Hne.
      now destruct (columns (load_activity f)).
    - apply load_activity_positive. now apply Hsame. }
  destruct dfs as [|d0 ds] eqn:Ed; [discriminate |].
  injection Hload as <-.
  assert (Hpos : Forall (fun a => start a < end_ a <= start a + NS_PER_DAY)
                        (concat (map rows (d0 :: ds)))).
  { apply Forall_concat. apply Forall_map.
    eapply Forall_impl; [| exact Hall]. intros d [_ Hd]. exact Hd. }
  split; [| split].
  - inversion Hall as [|? ? [Hne _] _]; subst. cbn [map concat].
    destruct (rows d0); [contradiction | discriminate].
  - exact Hpos.
  - unfold filter_data. now apply filter_Forall.
Qed.

Lemma loaded_activity_intervals_witness :
  exists df_act_combined,
    load_and_validate_files [sample_sheet; DataFrame_empty] = Some df_act_combined
    /\ length df_act_combined = 2%nat
    /\ Forall (fun a => start a < end_ a <= start a + NS_PER_DAY)
              (filter_data df_act_combined ["A"] ["Чат"]).
Proof.
  eexists. split; [reflexivity |]. split; [reflexivity |].
  refine (proj2 (proj2 (loaded_activity_intervals [sample_sheet; DataFrame_empty] _
                          ["A"] ["Чат"] _ eq_refl))).
  repeat constructor; intros s e Hs He; injection Hs as <-; injection He as <-;
    reflexivity.
Defined.

(** ** The forecast selection *)

Lemma has_column_add_column {R : Type} (c c' : string) (df : DataFrame R) :
  has_column (add_column c df) c' = has_column df c' || String.eqb c' c.
Proof.
  unfold add_column. destruct (has_column df c) eqn:Hc.
  - destruct (String.eqb_spec c' c) as [-> | Hne].
    + rewrite Hc. reflexivity.
    + now rewrite orb_false_r.
  - unfold has_column. cbn [columns]. rewrite existsb_app. cbn [existsb].
    now rewrite orb_false_r.
Qed.

Lemma existsb_rename_columns (old new c : string) (cols : list string) :
  c <> old -> c <> new ->
  existsb (String.eqb c) (rename_columns old new cols) = existsb (String.eqb c) cols.
Proof.
  intros Ho Hn. induction cols as [|x cols IH]; [reflexivity |].
  cbn [rename_columns map existsb]. fold (rename_columns old new cols). rewrite IH.
  f_equal. destruct (String.eqb_spec x old) as [-> | Hx].
  - apply String.eqb_neq in Ho, Hn. now rewrite Ho, Hn.
  - reflexivity.
Qed.

Lemma forecast_labels_renamed (col : ForecastCol) :
  rename_columns (forecast_col_label col) "Прогноз"
    ["Дата"; "Время"; "system_group"; "Канал коммуникации"; forecast_col_label col]
  = forecast_columns.
Proof. destruct col; reflexivity. Qed.

Lemma forecast_col_required (col : ForecastCol) :
  In (forecast_col_label col) forecast_required_columns.
Proof. destruct col; simpl; tauto. Qed.

(** The frame that [process_forecast] returns, for a loaded frame with
    rows and the columns that the loader checks or adds. *)
Lemma process_forecast_loaded (df : DataFrame LoadedForecastRow)
  (groups channels : list string) (col : ForecastCol) :
  empty df = false ->
  forallb (has_column df) ("system_group" :: forecast_required_columns) = true ->
  process_forecast df groups channels col
  = if has_column df "Дата" then
      if has_column df "Время" then
        Ok (mkDataFrame forecast_columns
              (map (fun r => mkForecastRow (fs_ts (fst r)) (fs_channel (fst r)) (snd r)
                               (forecast_col_value col (fst r)))
                   (filter (fun r => isin groups (snd r)
                                     && isin channels (fs_channel (fst r)))
                           (rows df))))
      else Raise (KeyError "Время")
    else Raise (KeyError "Дата").
Proof.
  intros He Hcols. unfold process_forecast. rewrite He. cbn [negb].
  rewrite forallb_forall in Hcols.
  assert (G : forall c, In c ("system_group" :: forecast_required_columns) ->
                        forall mask, getitem (select mask df) c = Ok tt).
  { intros c Hc mask. unfold getitem, has_column, select. cbn [columns].
    fold (has_column df c). now rewrite (Hcols c Hc). }
  assert (Gd : forall c mask, getitem (select mask df) c
                              = if has_column df c then Ok tt else Raise (KeyError c)).
  { intros c mask. reflexivity. }
  assert (G0 : forall c, In c ("system_group" :: forecast_required_columns) ->
                         getitem df c = Ok tt).
  { intros c Hc. unfold getitem. now rewrite (Hcols c Hc). }
  rewrite !G0 by (simpl; tauto). cbn [bind for_each].
  rewrite (Gd "Дата"). destruct (has_column df "Дата"); [| reflexivity].
  cbn [bind]. rewrite (Gd "Время"). destruct (has_column df "Время"); [| reflexivity].
  cbn [bind].
  rewrite (G "system_group"), (G "Канал коммуникации") by (simpl; tauto).
  rewrite (G (forecast_col_label col))
    by (right; apply forecast_col_required).
  cbn [bind app]. rewrite forecast_labels_renamed. reflexivity.
Qed.

Lemma load_forecast_single_columns (VARIANT_TO_SYSTEM : list (string * string))
  (file : DataFrame ForecastSheetRow) :
  empty (load_forecast_single VARIANT_TO_SYSTEM file) = false ->
  forallb (has_column (load_forecast_single VARIANT_TO_SYSTEM file))
          ("system_group" :: forecast_required_columns) = true
  /\ has_column (load_forecast_single VARIANT_TO_SYSTEM file) "Дата"
     = has_column file "Дата"
  /\ has_column (load_forecast_single VARIANT_TO_SYSTEM file) "Время"
     = has_column file "Время"
  /\ rows (load_forecast_single VARIANT_TO_SYSTEM file)
     = map (fun r => (r, system_group_of VARIANT_TO_SYSTEM (fs_skill_variant r)))
           (rows file).
Proof.
  unfold load_forecast_single.
  set (df := mkDataFrame (rename_columns "Скилл группа" "skill_variant" (columns file))
                         (rows file)).
  destruct (forallb (has_column df) forecast_required_columns) eqn:Hreq;
    cbn [negb]; [| discriminate].
  intros _.
  assert (Hh : forall c, has_column
                           (mkDataFrame (columns (add_column "system_group" df))
                              (map (fun r => (r, system_group_of VARIANT_TO_SYSTEM
                                                   (fs_skill_variant r))) (rows df))) c
                         = has_column df c || String.eqb c "system_group").
  { intros c. rewrite <- has_column_add_column. reflexivity. }
  split; [| split; [| split]].
  - apply forallb_forall. intros c [<- | Hc].
    + rewrite Hh. apply orb_true_r.
    + rewrite Hh. rewrite forallb_forall in Hreq. now rewrite (Hreq c Hc).
  - rewrite Hh. cbn [String.eqb]. rewrite orb_false_r.
    unfold has_column, df. cbn [columns].
    apply existsb_rename_columns; discriminate.
  - rewrite Hh. rewrite orb_false_r.
    unfold has_column, df. cbn [columns].
    apply existsb_rename_columns; discriminate.
  - reflexivity.
Qed.

Lemma filter_map_comm {A B : Type} (f : A -> B) (p : B -> bool) (l : list A) :
  filter p (map f l) = map f (filter (fun x => p (f x)) l).
Proof.
  induction l as [|a l IH]; [reflexivity |]. cbn [map filter].
  destruct (p (f a)); cbn [map]; now rewrite IH.
Qed.

(** X6: a forecast sheet that passes the validation of
    [load_forecast_single] and has rows is turned by [process_forecast]
    into a frame with the five columns of the slot engine, holding the
    rows of the selected system groups and channels with the selected
    forecast column, provided the sheet has the columns ['Дата'] and
    ['Время']; the validation does not ask for these two, and without
    one of them [process_forecast] raises [KeyError]. *)
Theorem process_forecast_of_sheet (VARIANT_TO_SYSTEM : list (string * string))
  (file : DataFrame ForecastSheetRow) (groups channels : list string)
  (col : ForecastCol) :
  empty (load_forecast_single VARIANT_TO_SYSTEM file) = false ->
  (has_column file "Дата" = true -> has_column file "Время" = true ->
   process_forecast (load_forecast_single VARIANT_TO_SYSTEM file) groups channels col
   = Ok (mkDataFrame forecast_columns
           (map (fun r => mkForecastRow (fs_ts r) (fs_channel r)
                            (system_group_of VARIANT_TO_SYSTEM (fs_skill_variant r))
                            (forecast_col_value col r))
                (filter (fun r =>
                           isin groups
                                (system_group_of VARIANT_TO_SYSTEM (fs_skill_variant r))
                           && isin channels (fs_channel r))
                        (rows file)))))
  /\ (has_column file "Дата" && has_column file "Время" = false ->
      exists key,
        process_forecast (load_forecast_single VARIANT_TO_SYSTEM file)
                         groups channels col
        = Raise (KeyError key)).
Proof.
  intros He.
  destruct (load_forecast_single_columns VARIANT_TO_SYSTEM file He)
    as [Hcols [Hd [Ht Hrows]]].
  rewrite (process_forecast_loaded _ groups channels col He Hcols), Hd, Ht, Hrows.
  split.
  - intros -> ->. do 2 f_equal.
    rewrite filter_map_comm, map_map. reflexivity.
  - intros Hmiss. destruct (has_column file "Дата"); [| now eexists].
    cbn [andb] in Hmiss. rewrite Hmiss. now eexists.
Qed.

Lemma process_forecast_of_sheet_witness :
  process_forecast (load_forecast_single [("B", "A")] sample_forecast_sheet)
    ["A"] ["Чаты"; "Входящие звонки"] Forecast_Abs_new
  = Ok (mkDataFrame forecast_columns
          [ mkForecastRow (36000 * NS_PER_SECOND) "Чаты" "A" 4%Q;
            mkForecastRow (36000 * NS_PER_SECOND) "Входящие звонки" "A" 1%Q ])
  /\ exists key,
       process_forecast (load_forecast_single [("B", "A")] sample_forecast_sheet_no_date)
         ["A"] ["Чаты"; "Входящие звонки"] Forecast_Abs_new
       = Raise (KeyError key).
Proof.
  split.
  - exact (proj1 (process_forecast_of_sheet [("B", "A")] sample_forecast_sheet
                    ["A"] ["Чаты"; "Входящие звонки"] Forecast_Abs_new eq_refl)
                 eq_refl eq_refl).
  - exact (proj2 (process_forecast_of_sheet [("B", "A")] sample_forecast_sheet_no_date
                    ["A"] ["Чаты"; "Входящие звонки"] Forecast_Abs_new eq_refl)
                 eq_refl).
Defined.

(** ** The gate of the pipeline *)

Lemma process_forecast_shape (df : DataFrame LoadedForecastRow)
  (groups channels : list string) (col : ForecastCol) (fc : ForecastFrame) :
  process_forecast df groups channels col = Ok fc ->
  empty fc = true \/ columns fc = forecast_columns.
Proof.
  unfold process_forecast. destruct (empty df); cbn [negb].
  - intros H. injection H as <-. left. unfold empty. cbn [columns rows].
    now destruct (columns df).
  - destruct (getitem df "system_group"); cbn [bind]; [| discriminate].
    destruct (getitem df "Канал коммуникации"); cbn [bind]; [| discriminate].
    match goal with
    | |- bind ?c _ = _ -> _ => destruct c
    end; cbn [bind]; [| discriminate].
    intros H. injection H as <-. right. cbn [columns].
    apply forecast_labels_renamed.
Qed.

Lemma isin_nil (x : string) : isin [] x = false.
Proof. reflexivity. Qed.

Lemma filter_data_nil_variants (df_act : ActivityFrame) (acts : list string) :
  filter_data df_act [] acts = [].
Proof.
  unfold filter_data. induction df_act as [|r l IH]; [reflexivity |].
  cbn [filter]. rewrite isin_nil. exact IH.
Qed.

Lemma filter_data_nil_acts (df_act : ActivityFrame) (variants : list string) :
  filter_data df_act variants [] = [].
Proof.
  unfold filter_data. induction df_act as [|r l IH]; [reflexivity |].
  cbn [filter]. rewrite isin_nil, andb_false_r. exact IH.
Qed.

Lemma for_each_ok_inv {A B : Type} (xs : list A) (body : A -> result (list B))
  (out : list B) :
  for_each xs body = Ok out ->
  Forall (fun x => exists ys, body x = Ok ys) xs.
Proof.
  revert out. induction xs as [|x xs IH]; intros out H; [constructor |].
  cbn [for_each] in H. destruct (body x) as [ys|] eqn:Hb; cbn [bind] in H;
    [| discriminate].
  destruct (for_each xs body) as [zs|] eqn:Hr; cbn [bind] in H; [| discriminate].
  constructor; [now exists ys | now apply (IH zs)].
Qed.

Lemma selected_main_acts_known (channels acts : list string) :
  selected_main_acts channels = Ok acts ->
  Forall (fun c => dict_get CHANNEL_MAPPING c <> None) channels
  /\ (acts <> [] -> channels <> []).
Proof.
  intros H. split.
  - apply for_each_ok_inv in H. eapply Forall_impl; [| exact H].
    intros c [ys Hc]. unfold dict_getitem in Hc.
    destruct (dict_get CHANNEL_MAPPING c); [discriminate | discriminate].
  - intros Ha ->. cbn in H. injection H as <-. now apply Ha.
Qed.

Lemma apply_filters_and_process_inv (VARIANT_TO_SYSTEM : list (string * string))
  (df_act : ActivityFrame) (variants channels acts : list string) (col : ForecastCol)
  (df_forecast : DataFrame LoadedForecastRow) (df_filtered : ActivityFrame)
  (fc : ForecastFrame) :
  selected_main_acts channels = Ok acts ->
  apply_filters_and_process VARIANT_TO_SYSTEM df_act variants channels acts col
    df_forecast = Ok (Some (df_filtered, fc)) ->
  df_filtered = filter_data df_act variants acts
  /\ df_filtered <> []
  /\ variants <> [] /\ channels <> []
  /\ Forall (fun c => dict_get CHANNEL_MAPPING c <> None) channels
  /\ (empty fc = true \/ columns fc = forecast_columns).
Proof.
  intros Hacts H. unfold apply_filters_and_process in H.
  destruct (process_forecast df_forecast _ channels col) as [fc'|] eqn:Hp;
    cbn [bind] in H; [| discriminate].
  destruct (filter_data df_act variants acts) as [|r l] eqn:Hf; [discriminate |].
  injection H as <- <-.
  destruct (selected_main_acts_known channels acts Hacts) as [Hknown Hne].
  split; [reflexivity |]. split; [discriminate |]. split; [| split; [| split]].
  - intros ->. now rewrite filter_data_nil_variants in Hf.
  - apply Hne. intros ->. now rewrite filter_data_nil_acts in Hf.
  - exact Hknown.
  - eapply process_forecast_shape. exact Hp.
Qed.

(** X7: [apply_filters_and_process] hands a pair on only when the
    filtered activity has rows; then neither the selection of skill
    groups nor that of channels is empty, every selected channel is a key
    of [CHANNEL_MAPPING], and the forecast frame is empty or has the five
    columns of the slot engine.  With an empty selection it returns
    [(None, None)] or raises, so that no later stage runs. *)
Theorem apply_filters_and_process_gate (VARIANT_TO_SYSTEM : list (string * string))
  (df_act : ActivityFrame) (variants channels acts : list string) (col : ForecastCol)
  (df_forecast : DataFrame LoadedForecastRow) :
  selected_main_acts channels = Ok acts ->
  (forall df_filtered fc,
     apply_filters_and_process VARIANT_TO_SYSTEM df_act variants channels acts col
       df_forecast = Ok (Some (df_filtered, fc)) ->
     df_filtered = filter_data df_act variants acts
     /\ df_filtered <> []
     /\ variants <> [] /\ channels <> []
     /\ Forall (fun c => dict_get CHANNEL_MAPPING c <> None) channels
     /\ (empty fc = true \/ columns fc = forecast_columns))
  /\ (variants = [] \/ channels = [] ->
      apply_filters_and_process VARIANT_TO_SYSTEM df_act variants channels acts col
        df_forecast = Ok None
      \/ exists e,
           apply_filters_and_process VARIANT_TO_SYSTEM df_act variants channels acts
             col df_forecast = Raise e).
Proof.
  intros Hacts. split.
  - intros df_filtered fc H. now apply (apply_filters_and_process_inv _ _ _ _ _ _ _ _ _ Hacts H).
  - intros Hempty.
    destruct (apply_filters_and_process VARIANT_TO_SYSTEM df_act variants channels
                acts col df_forecast) as [[[df_filtered fc]|]|e] eqn:H.
    + exfalso.
      destruct (apply_filters_and_process_inv _ _ _ _ _ _ _ _ _ Hacts H)
        as [_ [_ [Hv [Hc _]]]].
      destruct Hempty; contradiction.
    + now left.
    + right. now exists e.
Qed.

Lemma apply_filters_and_process_gate_witness :
  apply_filters_and_process [] [act_10_00_10_45] ["A"] [] [] Forecast_Raw
    DataFrame_empty = Ok None
  \/ exists e,
       apply_filters_and_process [] [act_10_00_10_45] ["A"] [] [] Forecast_Raw
         DataFrame_empty = Raise e.
Proof.
  apply (proj2 (apply_filters_and_process_gate [] [act_10_00_10_45] ["A"] [] []
                  Forecast_Raw DataFrame_empty eq_refl)).
  right. reflexivity.
Defined.

Lemma for_each_no_record {A B : Type} (xs : list A) (body : A -> result (list B)) :
  (forall x, In x xs -> body x = Ok []) -> for_each xs body = Ok [].
Proof.
  intros H. rewrite (for_each_ok (fun _ => []) xs body H).
  f_equal. induction xs as [|x xs IH]; [reflexivity |]. cbn [map concat app].
  apply IH. intros y Hy. apply H. now right.
Qed.

Lemma monthly_kpi_no_record_KeyError
  (VARIANT_TO_SYSTEM : list (string * string)) (df_filtered : ActivityFrame)
  (df_forecast : ForecastFrame) (channels variants : list string) (year month : Z) :
  1 <= month <= 12 ->
  empty df_forecast = true \/ columns df_forecast = forecast_columns ->
  Forall (fun c => dict_get CHANNEL_MAPPING c <> None) channels ->
  variants = [] \/ channels = [] ->
  calculate_monthly_kpi VARIANT_TO_SYSTEM df_filtered df_forecast
    channels variants year month = Raise (KeyError "План").
Proof.
  intros Hm Hfc Hknown Hempty. unfold calculate_monthly_kpi.
  rewrite Timestamp_ymd_first by exact Hm. cbn [bind]. cbv zeta.
  match goal with
  | |- bind ?c _ = _ => assert (Hframe : exists df_fc_m, c = Ok df_fc_m)
  end.
  { destruct (empty df_forecast) eqn:He; cbn [negb]; [eexists; reflexivity |].
    destruct Hfc as [Hfc | Hfc]; [discriminate |].
    destruct df_forecast as [cols rws]. cbn [columns] in Hfc. subst cols.
    rewrite !getitem_forecast_columns by (simpl; tauto). cbn [bind].
    eexists. reflexivity. }
  destruct Hframe as [df_fc_m ->]. cbn [bind].
  rewrite for_each_no_record.
  - reflexivity.
  - intros c Hc. rewrite Forall_forall in Hknown. specialize (Hknown c Hc).
    unfold dict_getitem. destruct (dict_get CHANNEL_MAPPING c); [| contradiction].
    cbn [bind]. destruct Hempty as [-> | ->]; [reflexivity | contradiction].
Qed.

(** C4 (amended): an empty channel list or an empty skill-group list
    never reaches [calculate_monthly_kpi]: with such a selection, the
    activity kinds being those of the selected channels,
    [apply_filters_and_process] returns [(None, None)] or raises, and the
    application stops before any table is computed.  The function itself
    has no guard for it: called with an empty channel list or an empty
    skill-group list it returns no table, and for a month 1..12 and a
    forecast frame that is empty or has the columns of
    [process_forecast] it raises [KeyError('План')]. *)
Theorem monthly_kpi_empty_selection (VARIANT_TO_SYSTEM : list (string * string))
  (df_act : ActivityFrame) (variants channels acts : list string) (col : ForecastCol)
  (loaded : DataFrame LoadedForecastRow) :
  selected_main_acts channels = Ok acts ->
  variants = [] \/ channels = [] ->
  (apply_filters_and_process VARIANT_TO_SYSTEM df_act variants channels acts col
     loaded = Ok None
   \/ exists e,
        apply_filters_and_process VARIANT_TO_SYSTEM df_act variants channels acts
          col loaded = Raise e)
  /\ forall (df_filtered : ActivityFrame) (df_forecast : ForecastFrame)
            (year month : Z),
       (exists e,
          calculate_monthly_kpi VARIANT_TO_SYSTEM df_filtered df_forecast
            channels variants year month = Raise e)
       /\ (1 <= month <= 12 ->
           empty df_forecast = true \/ columns df_forecast = forecast_columns ->
           calculate_monthly_kpi VARIANT_TO_SYSTEM df_filtered df_forecast
             channels variants year month = Raise (KeyError "План")).
Proof.
  intros Hacts Hempty. split.
  - destruct (apply_filters_and_process VARIANT_TO_SYSTEM df_act variants channels
                acts col loaded) as [[[df_filtered fc]|]|e] eqn:H.
    + exfalso.
      destruct (apply_filters_and_process_inv _ _ _ _ _ _ _ _ _ Hacts H)
        as [_ [_ [Hv [Hc _]]]].
      destruct Hempty; contradiction.
    + now left.
    + right. now exists e.
  - intros df_filtered df_forecast year month. split.
    + now apply monthly_kpi_no_record.
    + intros Hm Hfc. apply monthly_kpi_no_record_KeyError; try assumption.
      now destruct (selected_main_acts_known channels acts Hacts).
Qed.

Lemma monthly_kpi_empty_selection_witness :
  apply_filters_and_process [] [act_10_00_10_45] ["A"] [] [] Forecast_Raw
    sample_loaded_forecast = Ok None
  /\ calculate_monthly_kpi [] [act_10_00_10_45] sample_forecast_frame [] ["A"] 2023 2
     = Raise (KeyError "План")
  /\ calculate_monthly_kpi [] [act_10_00_10_45] sample_forecast_frame ["Чаты"] []
       2023 2 = Raise (KeyError "План").
Proof.
  destruct (monthly_kpi_empty_selection [] [act_10_00_10_45] ["A"] [] []
              Forecast_Raw sample_loaded_forecast eq_refl (or_intror eq_refl))
    as [Hgate Hkpi].
  destruct (monthly_kpi_empty_selection [] [act_10_00_10_45] [] ["Чаты"] ["Чат"]
              Forecast_Raw sample_loaded_forecast eq_refl (or_introl eq_refl))
    as [_ Hkpi'].
  split; [| split].
  - destruct Hgate as [Hnone | [e He]]; [exact Hnone | discriminate He].
  - apply (proj2 (Hkpi [act_10_00_10_45] sample_forecast_frame 2023 2));
      [lia | right; reflexivity].
  - apply (proj2 (Hkpi' [act_10_00_10_45] sample_forecast_frame 2023 2));
      [lia | right; reflexivity].
Defined.

(** ** The KPI table *)

Lemma filter_and {A : Type} (p q : A -> bool) (l : list A) :
  filter p (filter q l) = filter (fun x => q x && p x) l.
Proof.
  induction l as [|a l IH]; [reflexivity |]. cbn [filter].
  destruct (q a); cbn [filter andb]; [destruct (p a) |]; now rewrite IH.
Qed.

Lemma map_flat_map {A B C : Type} (g : B -> C) (f : A -> list B) (l : list A) :
  map g (flat_map f l) = flat_map (fun x => map g (f x)) l.
Proof.
  induction l as [|a l IH]; [reflexivity |]. cbn [flat_map].
  now rewrite map_app, IH.
Qed.

Lemma flat_map_ext_in {A B : Type} (f g : A -> list B) (l : list A) :
  (forall x, In x l -> f x = g x) -> flat_map f l = flat_map g l.
Proof.
  intros H. induction l as [|a l IH]; [reflexivity |]. cbn [flat_map].
  rewrite (H a (or_introl eq_refl)), IH; [reflexivity |].
  intros x Hx. apply H. now right.
Qed.

Lemma month_slots_range (year month : Z) :
  1 <= month <= 12 ->
  date_range (days_from_civil year month 1 * NS_PER_DAY)
             (days_from_civil year month 1 * NS_PER_DAY
              + days_in_month year month * NS_PER_DAY) freq_30min
  = month_slots year month.
Proof.
  intros Hm. pose proof (days_in_month_ge_28 year month) as Hdim.
  rewrite date_range_after, slot_count_days; try lia.
  - reflexivity.
  - reflexivity.
  - unfold NS_PER_DAY, NS_PER_SECOND. lia.
Qed.

Lemma month_slots_inside (year month : Z) (t : Timestamp) :
  In t (month_slots year month) ->
  days_from_civil year month 1 * NS_PER_DAY <= t
  /\ t + Timedelta_minutes 30
     <= days_from_civil year month 1 * NS_PER_DAY
        + days_in_month year month * NS_PER_DAY.
Proof.
  pose proof (days_in_month_ge_28 year month) as Hdim.
  unfold month_slots. intros Hin. apply in_map_iff in Hin.
  destruct Hin as [i [<- Hi]]. apply in_seq in Hi.
  unfold to_datetime, Timedelta_minutes, NS_PER_DAY, NS_PER_SECOND. lia.
Qed.

Lemma month_slots_nonempty (year month : Z) : month_slots year month <> [].
Proof.
  pose proof (days_in_month_ge_28 year month) as Hdim. unfold month_slots.
  destruct (Z.to_nat (days_in_month year month * 48)) eqn:En; [lia | discriminate].
Qed.

Lemma month_slots_NoDup (year month : Z) : NoDup (month_slots year month).
Proof.
  apply NoDup_sorted. unfold month_slots.
  apply (slots_sorted (to_datetime (days_from_civil year month 1))
                      (Timedelta_minutes 30)).
  reflexivity.
Qed.

Lemma calculate_overlap_filter_eq (df1 df2 : ActivityFrame) (a b : Timestamp) :
  filter (overlap_mask a b) df1 = filter (overlap_mask a b) df2 ->
  calculate_overlap df1 a b = calculate_overlap df2 a b.
Proof. unfold calculate_overlap. now intros ->. Qed.

Lemma kpi_plan_in_month (df : ActivityFrame) (acts : list string) (s : string)
  (t sm em : Timestamp) :
  sm <= t -> t + Timedelta_minutes 30 <= em ->
  calculate_overlap
    (filter (fun r => String.eqb (skill_variant r) s)
       (filter (fun r => existsb (String.eqb (main_act r)) acts)
          (filter (fun r => (start r <? em) && (end_ r >? sm)) df)))
    t (t + Timedelta_minutes 30)
  = calculate_overlap (filter_data df [s] acts) t (t + Timedelta_minutes 30).
Proof.
  intros Hs He. apply calculate_overlap_filter_eq. unfold filter_data.
  rewrite !filter_and. apply filter_ext.
  intros x. unfold isin. cbn [existsb]. rewrite orb_false_r.
  destruct (overlap_mask t (t + Timedelta_minutes 30) x) eqn:Hmask;
    [| now rewrite !andb_false_r].
  rewrite !andb_true_r.
  assert (Hmo : (start x <? em) && (end_ x >? sm) = true).
  { unfold overlap_mask in Hmask.
    rewrite andb_true_iff, Z.ltb_lt, Z.gtb_lt in *. lia. }
  rewrite Hmo. cbn [andb]. apply andb_comm.
Qed.

Lemma kpi_forecast_in_month (rws : list ForecastRow) (c g : string)
  (t sm em : Timestamp) :
  sm <= t < em ->
  filter (fun r => ts r =? t)
    (filter (fun r => String.eqb (channel r) c && String.eqb (system_group r) g)
       (filter (fun r => (sm <=? ts r) && (ts r <? em)) rws))
  = filter (fun r => (ts r =? t)
                     && (String.eqb (channel r) c && String.eqb (system_group r) g))
           rws.
Proof.
  intros Ht. rewrite !filter_and. apply filter_ext. intros x.
  destruct (Z.eqb_spec (ts x) t) as [-> | Hne]; [| now rewrite !andb_false_r].
  rewrite !andb_true_r. cbn [andb].
  replace ((sm <=? t) && (t <? em)) with true; [reflexivity |].
  symmetry. rewrite andb_true_iff, Z.leb_le, Z.ltb_lt. lia.
Qed.

Lemma kpi_rows_nonempty {A B C D : Type} (g : A -> B -> C -> D) (cs : list A)
  (ss : list B) (slots : list C) :
  cs <> [] -> ss <> [] -> slots <> [] ->
  flat_map (fun c => flat_map (fun s => map (g c s) slots) ss) cs <> [].
Proof.
  destruct cs as [|c cs]; [contradiction |].
  destruct ss as [|s ss]; [contradiction |].
  destruct slots as [|t slots]; [contradiction |].
  intros _ _ _. discriminate.
Qed.

(** The table that [calculate_monthly_kpi] returns when forecast rows
    are present. *)
Lemma monthly_kpi_rows (VARIANT_TO_SYSTEM : list (string * string))
  (df_filtered : ActivityFrame) (df_forecast : ForecastFrame)
  (selected_channels selected_variants : list string) (year month : Z) :
  empty df_forecast = false ->
  columns df_forecast = forecast_columns ->
  1 <= month <= 12 ->
  selected_channels <> [] -> selected_variants <> [] ->
  Forall (fun c => dict_get CHANNEL_MAPPING c <> None) selected_channels ->
  calculate_monthly_kpi VARIANT_TO_SYSTEM df_filtered df_forecast
    selected_channels selected_variants year month
  = Ok (mkDataFrame (kpi_columns ++ ["Дельта"])
          (flat_map (fun c =>
             flat_map (fun s =>
               map (kpi_row VARIANT_TO_SYSTEM df_filtered df_forecast c s)
                   (month_slots year month))
               selected_variants)
             selected_channels)).
Proof.
  intros He Hcols Hm Hch Hsk Hmap.
  unfold calculate_monthly_kpi.
  rewrite Timestamp_ymd_first by exact Hm. cbn [bind]. cbv zeta.
  rewrite !end_month_after by exact Hm.
  rewrite month_slots_range by exact Hm.
  pose proof (month_slots_inside year month) as Hin.
  pose proof (month_slots_nonempty year month) as Hne.
  set (start_month := days_from_civil year month 1 * NS_PER_DAY) in *.
  set (end_month := start_month + days_in_month year month * NS_PER_DAY) in *.
  set (slots := month_slots year month) in *.
  rewrite He. cbn [negb].
  destruct df_forecast as [cols rws]. cbn [columns] in Hcols. subst cols.
  change (getitem (mkDataFrame forecast_columns rws) "Дата") with (Ok tt).
  change (getitem (mkDataFrame forecast_columns rws) "Время") with (Ok tt).
  cbn [bind].
  match goal with
  | |- context [getitem ?d "system_group"] => set (df_fc_m := d)
  end.
  assert (G1 : getitem df_fc_m "Канал коммуникации" = Ok tt) by reflexivity.
  assert (G2 : getitem df_fc_m "system_group" = Ok tt) by reflexivity.
  assert (G3 : forall mask, getitem (select mask df_fc_m) "ts" = Ok tt)
    by reflexivity.
  assert (G4 : forall mask, getitem (select mask df_fc_m) "Прогноз" = Ok tt)
    by reflexivity.
  assert (Hrows : rows df_fc_m
                  = filter (fun r => (start_month <=? ts r) && (ts r <? end_month)) rws)
    by reflexivity.
  rewrite G1, G2. cbn [bind].
  set (fc := mkDataFrame forecast_columns rws).
  rewrite (for_each_ok
             (fun c => flat_map (fun s =>
                         map (kpi_record VARIANT_TO_SYSTEM df_filtered fc c s) slots)
                         selected_variants)).
  - cbn [bind]. rewrite <- flat_map_concat_map.
    match goal with
    | |- context [DataFrame_records kpi_columns ?k] => set (kpi_data := k)
    end.
    assert (Hk : kpi_data <> []) by (now apply kpi_rows_nonempty).
    destruct kpi_data as [|r0 rest] eqn:Ek; [contradiction |].
    cbn [DataFrame_records].
    change (getitem (mkDataFrame kpi_columns (r0 :: rest)) "План") with (Ok tt).
    change (getitem (mkDataFrame kpi_columns (r0 :: rest)) "Прогноз") with (Ok tt).
    cbn [bind columns rows]. rewrite <- Ek. unfold kpi_data.
    apply (f_equal Ok). apply (f_equal (mkDataFrame (kpi_columns ++ ["Дельта"]))).
    rewrite map_flat_map. apply flat_map_ext_in. intros c _.
    rewrite map_flat_map. apply flat_map_ext_in. intros s _.
    rewrite map_map. reflexivity.
  - intros c Hc. rewrite Forall_forall in Hmap. specialize (Hmap c Hc).
    unfold dict_getitem.
    destruct (dict_get CHANNEL_MAPPING c) as [acts|] eqn:Hacts; [| contradiction].
    cbn [bind].
    rewrite (for_each_ok
               (fun s => map (kpi_record VARIANT_TO_SYSTEM df_filtered fc c s) slots)).
    + now rewrite <- flat_map_concat_map.
    + intros s _.
      rewrite (for_each_ok
                 (fun t => [kpi_record VARIANT_TO_SYSTEM df_filtered fc c s t])).
      * now rewrite concat_map_singleton.
      * intros t Ht. rewrite G3, G4. cbn [bind]. do 2 f_equal.
        destruct (Hin t Ht) as [Hlo Hhi].
        unfold kpi_record. f_equal.
        -- unfold kpi_plan_of, channel_acts. rewrite Hacts.
           now apply kpi_plan_in_month.
        -- unfold kpi_forecast_of, system_group_of. do 2 f_equal.
           cbn [rows select]. rewrite Hrows. unfold fc. cbn [rows].
           apply kpi_forecast_in_month.
           unfold Timedelta_minutes, NS_PER_SECOND in Hhi. lia.
Qed.

(** X8: with forecast rows present [calculate_monthly_kpi] returns, in
    the order of its loops, one row for each selected channel, selected
    skill group and half-hour slot of the month.  The plan of a row is
    the overlap of its slot with the activity of its skill group and of
    the activity kinds of its channel, and its forecast is the sum of the
    forecast rows of its channel and of the system group of its skill
    group at the slot start: the month filters on the activity and on
    the forecast change none of these values.  ['Дельта'] is the plan
    minus the forecast. *)
Theorem monthly_kpi_table (VARIANT_TO_SYSTEM : list (string * string))
  (df_filtered : ActivityFrame) (df_forecast : ForecastFrame)
  (selected_channels selected_variants : list string) (year month : Z) :
  empty df_forecast = false ->
  columns df_forecast = forecast_columns ->
  1 <= month <= 12 ->
  selected_channels <> [] -> selected_variants <> [] ->
  Forall (fun c => dict_get CHANNEL_MAPPING c <> None) selected_channels ->
  exists kpi_df,
    calculate_monthly_kpi VARIANT_TO_SYSTEM df_filtered df_forecast
      selected_channels selected_variants year month = Ok kpi_df
    /\ columns kpi_df = kpi_columns ++ ["Дельта"]
    /\ rows kpi_df
       = flat_map (fun c =>
           flat_map (fun s =>
             map (kpi_row VARIANT_TO_SYSTEM df_filtered df_forecast c s)
                 (month_slots year month))
             selected_variants)
           selected_channels
    /\ Forall (fun r => snd r = (kpi_plan (fst r) - kpi_forecast (fst r))%Q)
              (rows kpi_df).
Proof.
  intros He Hcols Hm Hch Hsk Hmap.
  eexists. split; [now apply monthly_kpi_rows |].
  split; [reflexivity |]. split; [reflexivity |].
  cbn [rows]. apply Forall_flat_map. apply Forall_forall. intros c _.
  apply Forall_flat_map. apply Forall_forall. intros s _.
  apply Forall_map. apply Forall_forall. intros t _. reflexivity.
Qed.

Lemma monthly_kpi_table_witness :
  exists kpi_df,
    calculate_monthly_kpi [] [act_10_00_10_45] sample_forecast_frame
      ["Чаты"] ["A"] 2023 2 = Ok kpi_df
    /\ length (rows kpi_df) = (28 * 48)%nat
    /\ Forall (fun r => snd r = (kpi_plan (fst r) - kpi_forecast (fst r))%Q)
              (rows kpi_df).
Proof.
  assert (Hmap : Forall (fun c => dict_get CHANNEL_MAPPING c <> None) ["Чаты"])
    by (repeat constructor; discriminate).
  destruct (monthly_kpi_table [] [act_10_00_10_45] sample_forecast_frame
              ["Чаты"] ["A"] 2023 2 eq_refl eq_refl ltac:(lia) ltac:(discriminate)
              ltac:(discriminate) Hmap) as [kpi_df [Hrun [_ [Hrows Hdelta]]]].
  exists kpi_df. split; [exact Hrun |]. split; [| exact Hdelta].
  rewrite Hrows. cbn [flat_map]. rewrite !app_nil_r, length_map.
  unfold month_slots. rewrite length_map, length_seq. reflexivity.
Defined.

(** ** The KPI table and the view *)

Lemma Qsum_flat_map {A B : Type} (g : B -> Q) (f : A -> list B) (l : list A) :
  (Qsum (map g (flat_map f l)) == Qsum (map (fun x => Qsum (map g (f x))) l))%Q.
Proof.
  induction l as [|a l IH]; [reflexivity |].
  cbn [flat_map map]. rewrite map_app, Qsum_app.
  change (Qsum (Qsum (map g (f a)) :: map (fun x => Qsum (map g (f x))) l))
    with (Qsum (map g (f a)) + Qsum (map (fun x => Qsum (map g (f x))) l))%Q.
  now rewrite IH.
Qed.

Lemma Qsum_map_plus {A : Type} (f g : A -> Q) (l : list A) :
  (Qsum (map (fun x => f x + g x) l) == Qsum (map f l) + Qsum (map g l))%Q.
Proof.
  induction l as [|a l IH]; [reflexivity |]. cbn [map Qsum fold_right].
  fold (Qsum (map (fun x => (f x + g x)%Q) l)).
  fold (Qsum (map f l)). fold (Qsum (map g l)). rewrite IH. ring.
Qed.

Lemma Qsum_indicator_none {K : Type} (q : K -> bool) (v : Q) (ks : list K) :
  length (filter q ks) = 0%nat ->
  (Qsum (map (fun k => if q k then v else 0) ks) == 0)%Q.
Proof.
  induction ks as [|k ks IH]; [reflexivity |]. cbn [filter map Qsum fold_right].
  fold (Qsum (map (fun k => if q k then v else 0%Q) ks)).
  destruct (q k); [discriminate |]. intros H. rewrite (IH H). ring.
Qed.

Lemma Qsum_indicator_one {K : Type} (q : K -> bool) (v : Q) (ks : list K) :
  length (filter q ks) = 1%nat ->
  (Qsum (map (fun k => if q k then v else 0) ks) == v)%Q.
Proof.
  induction ks as [|k ks IH]; [discriminate |]. cbn [filter map Qsum fold_right].
  fold (Qsum (map (fun k => if q k then v else 0%Q) ks)).
  destruct (q k).
  - cbn [length]. intros H. injection H as H.
    rewrite (Qsum_indicator_none q v ks H). ring.
  - intros H. rewrite (IH H). ring.
Qed.

(** Sums over the classes of a partition: when every element of [l]
    is selected by exactly one key, the sums over the selections add up
    to the sum over [l]. *)
Lemma Qsum_partition {A K : Type} (h : A -> Q) (p : K -> A -> bool) (ks : list K)
  (l : list A) :
  (forall x, In x l -> length (filter (fun k => p k x) ks) = 1%nat) ->
  (Qsum (map (fun k => Qsum (map h (filter (p k) l))) ks) == Qsum (map h l))%Q.
Proof.
  induction l as [|x l IH]; intros Hone.
  - cbn [filter map]. apply Qsum_zero. apply Forall_map.
    apply Forall_forall. intros k _. reflexivity.
  - rewrite (Qsum_map_ext
               (fun k => Qsum (map h (filter (p k) (x :: l))))
               (fun k => (if p k x then h x else 0)
                         + Qsum (map h (filter (p k) l)))%Q).
    + rewrite Qsum_map_plus, IH by (intros y Hy; apply Hone; now right).
      rewrite (Qsum_indicator_one (fun k => p k x) (h x) ks)
        by (apply Hone; now left).
      reflexivity.
    + intros k _. cbn [filter]. destruct (p k x); cbn [map Qsum fold_right].
      * reflexivity.
      * fold (Qsum (map h (filter (p k) l))). ring.
Qed.

Lemma Qsum_partition2 {A C S : Type} (h : A -> Q) (p1 : C -> A -> bool)
  (p2 : S -> A -> bool) (cs : list C) (ss : list S) (l : list A) :
  (forall x, In x l -> length (filter (fun c => p1 c x) cs) = 1%nat
                       /\ length (filter (fun s => p2 s x) ss) = 1%nat) ->
  (Qsum (map (fun c =>
            Qsum (map (fun s =>
                    Qsum (map h (filter (fun x => p2 s x && p1 c x) l))) ss)) cs)
   == Qsum (map h l))%Q.
Proof.
  intros Hone.
  rewrite (Qsum_map_ext _ (fun c => Qsum (map h (filter (p1 c) l)))).
  - apply Qsum_partition. intros x Hx. now apply Hone.
  - intros c _.
    rewrite (Qsum_map_ext _ (fun s => Qsum (map h (filter (p2 s) (filter (p1 c) l))))).
    + apply Qsum_partition. intros x Hx. apply filter_In in Hx.
      now apply Hone.
    + intros s _. rewrite filter_and.
      rewrite (filter_ext (fun x => p1 c x && p2 s x) (fun x => p2 s x && p1 c x));
        [reflexivity | intros x; apply andb_comm].
Qed.

Lemma isin_In (l : list string) (x : string) : isin l x = true <-> In x l.
Proof.
  unfold isin. rewrite existsb_exists. split.
  - intros [y [Hy He]]. apply String.eqb_eq in He. now subst.
  - intros H. exists x. split; [exact H | apply String.eqb_refl].
Qed.

Lemma length_filter_eqb_NoDup (l : list string) (v : string) :
  NoDup l -> In v l -> length (filter (fun s => String.eqb v s) l) = 1%nat.
Proof.
  induction l as [|a l IH]; intros Hnd Hin; [contradiction |].
  inversion Hnd as [|? ? Hna Hnd']; subst. cbn [filter].
  destruct (String.eqb_spec v a) as [-> | Hne].
  - cbn [length]. f_equal.
    assert (Hno : forall l', ~ In a l' ->
                             length (filter (fun s => String.eqb a s) l') = 0%nat).
    { induction l' as [|b l' IH']; intros Hb; [reflexivity |]. cbn [filter].
      destruct (String.eqb_spec a b) as [-> | _].
      - exfalso. apply Hb. now left.
      - apply IH'. intros H. apply Hb. now right. }
    now apply Hno.
  - destruct Hin as [-> | Hin]; [contradiction |]. now apply IH.
Qed.

Lemma one_variant (variants : list string) (v : string) :
  NoDup variants -> isin variants v = true ->
  length (filter (fun s => isin [s] v) variants) = 1%nat.
Proof.
  intros Hnd Hin. apply isin_In in Hin.
  rewrite (filter_ext (fun s => isin [s] v) (fun s => String.eqb v s)).
  - now apply length_filter_eqb_NoDup.
  - intros s. unfold isin. cbn [existsb]. apply orb_false_r.
Qed.

Lemma channel_acts_owner (c a : string) :
  dict_get CHANNEL_MAPPING c <> None ->
  isin (channel_acts c) a = true -> channel_of_act a = Some c.
Proof.
  unfold channel_acts, CHANNEL_MAPPING, dict_get. intros Hk.
  repeat match goal with
         | H : context [String.eqb c ?k] |- _ =>
             destruct (String.eqb_spec c k) as [-> | ?]
         end;
    [ .. | now elim Hk ];
    unfold isin; cbn [existsb];
    repeat match goal with
           | |- context [String.eqb a ?k] =>
               destruct (String.eqb_spec a k) as [-> | ?]; [intros _; reflexivity |]
           end;
    discriminate.
Qed.

Lemma isin_flat_map {A : Type} (f : A -> list string) (l : list A) (a : string) :
  isin (flat_map f l) a = existsb (fun c => isin (f c) a) l.
Proof.
  unfold isin. induction l as [|c l IH]; [reflexivity |].
  cbn [flat_map existsb]. now rewrite existsb_app, IH.
Qed.

Lemma selected_main_acts_flat (channels acts : list string) :
  selected_main_acts channels = Ok acts -> acts = flat_map channel_acts channels.
Proof.
  unfold selected_main_acts. revert acts.
  induction channels as [|c channels IH]; intros acts H.
  - now injection H as <-.
  - cbn [for_each] in H. unfold dict_getitem at 1 in H.
    cbn [flat_map]. unfold channel_acts at 1.
    destruct (dict_get CHANNEL_MAPPING c) as [l|]; cbn [bind] in H; [| discriminate].
    destruct (for_each channels _) as [zs|]; cbn [bind] in H; [| discriminate].
    injection H as <-. now rewrite (IH zs eq_refl).
Qed.

Lemma one_channel (channels acts : list string) (a : string) :
  NoDup channels -> selected_main_acts channels = Ok acts ->
  isin acts a = true ->
  length (filter (fun c => isin (channel_acts c) a) channels) = 1%nat.
Proof.
  intros Hnd Hacts Hin.
  destruct (selected_main_acts_known channels acts Hacts) as [Hknown _].
  rewrite Forall_forall in Hknown.
  rewrite (selected_main_acts_flat channels acts Hacts), isin_flat_map in Hin.
  apply existsb_exists in Hin. destruct Hin as [c0 [Hc0 Ha0]].
  pose proof (channel_acts_owner c0 a (Hknown c0 Hc0) Ha0) as Ho.
  rewrite (filter_ext_in (fun c => isin (channel_acts c) a)
                         (fun c => String.eqb c0 c)).
  - now apply length_filter_eqb_NoDup.
  - intros c Hc. destruct (isin (channel_acts c) a) eqn:Ha.
    + pose proof (channel_acts_owner c a (Hknown c Hc) Ha) as Ho'.
      rewrite Ho in Ho'. injection Ho' as ->. symmetry. apply String.eqb_refl.
    + destruct (String.eqb_spec c0 c) as [-> | _]; [congruence | reflexivity].
Qed.

Lemma filter_flat_map {A B : Type} (p : B -> bool) (f : A -> list B) (l : list A) :
  filter p (flat_map f l) = flat_map (fun x => filter p (f x)) l.
Proof.
  induction l as [|a l IH]; [reflexivity |]. cbn [flat_map].
  now rewrite filter_app, IH.
Qed.

Lemma filter_eqb_NoDup (l : list Z) (t : Z) :
  NoDup l -> In t l -> filter (fun x => x =? t) l = [t].
Proof.
  induction l as [|a l IH]; intros Hnd Hin; [contradiction |].
  inversion Hnd as [|? ? Hna Hnd']; subst. cbn [filter].
  destruct (Z.eqb_spec a t) as [-> | Hne].
  - f_equal.
    assert (Hno : forall l', ~ In t l' -> filter (fun x => x =? t) l' = []).
    { induction l' as [|b l' IH']; intros Hb; [reflexivity |]. cbn [filter].
      destruct (Z.eqb_spec b t) as [-> | _].
      - exfalso. apply Hb. now left.
      - apply IH'. intros H. apply Hb. now right. }
    now apply Hno.
  - destruct Hin as [-> | Hin]; [contradiction |]. now apply IH.
Qed.

Lemma same_date_time (t t' : Timestamp) :
  (date_of t' =? date_of t) && (time_of t' =? time_of t) = (t' =? t).
Proof.
  destruct (Z.eqb_spec t' t) as [-> | Hne].
  - now rewrite !Z.eqb_refl.
  - apply andb_false_iff.
    destruct (Z.eqb_spec (date_of t') (date_of t)) as [Hd | _]; [| now left].
    destruct (Z.eqb_spec (time_of t') (time_of t)) as [Ht | _]; [| now right].
    exfalso. apply Hne.
    rewrite <- (date_time_of t'), <- (date_time_of t). now rewrite Hd, Ht.
Qed.

(** The rows of the table of [monthly_kpi_rows] that belong to a slot of
    the month. *)
Lemma kpi_rows_of_slot (VARIANT_TO_SYSTEM : list (string * string))
  (df_filtered : ActivityFrame) (df_forecast : ForecastFrame)
  (channels variants : list string) (slots : list Timestamp) (t : Timestamp) :
  NoDup slots -> In t slots ->
  filter (fun r => (kpi_date (fst r) =? date_of t) && (kpi_time (fst r) =? time_of t))
    (flat_map (fun c =>
       flat_map (fun s =>
         map (kpi_row VARIANT_TO_SYSTEM df_filtered df_forecast c s) slots)
         variants)
       channels)
  = flat_map (fun c =>
      flat_map (fun s => [kpi_row VARIANT_TO_SYSTEM df_filtered df_forecast c s t])
               variants)
      channels.
Proof.
  intros Hnd Hin. rewrite filter_flat_map. apply flat_map_ext_in. intros c _.
  rewrite filter_flat_map. apply flat_map_ext_in. intros s _.
  rewrite filter_map_comm.
  rewrite (filter_ext _ (fun x => x =? t)).
  - now rewrite filter_eqb_NoDup.
  - intros t'. cbn [kpi_row kpi_record fst kpi_date kpi_time].
    apply same_date_time.
Qed.

Lemma kpi_plan_of_selection (df : ActivityFrame) (c s : string) (t : Timestamp) :
  (kpi_plan_of df c s t
   == Qsum (map (spec_overlap_hours t (t + Timedelta_minutes 30)%Z)
              (filter (fun x => isin [s] (skill_variant x)
                                && isin (channel_acts c) (main_act x))
                      (filter (spec_included t (t + Timedelta_minutes 30)%Z) df))))%Q.
Proof.
  unfold kpi_plan_of. rewrite calculate_overlap_sum. unfold spec_overlap, filter_data.
  rewrite !filter_and.
  rewrite (filter_ext
             (fun x => isin [s] (skill_variant x) && isin (channel_acts c) (main_act x)
                       && spec_included t (t + Timedelta_minutes 30)%Z x)
             (fun x => spec_included t (t + Timedelta_minutes 30)%Z x
                       && (isin [s] (skill_variant x)
                           && isin (channel_acts c) (main_act x))));
    [reflexivity | intros x; apply andb_comm].
Qed.

(** The plan values of the selected channels and skill groups in one slot
    add up to the overlap of the slot with the whole filtered activity. *)
Lemma kpi_plan_partition (df_act : ActivityFrame) (channels variants acts : list string)
  (t : Timestamp) :
  NoDup channels -> NoDup variants ->
  selected_main_acts channels = Ok acts ->
  (Qsum (map (fun c =>
            Qsum (map (fun s =>
                    kpi_plan_of (filter_data df_act variants acts) c s t) variants))
          channels)
   == calculate_overlap (filter_data df_act variants acts)
                        t (t + Timedelta_minutes 30)%Z)%Q.
Proof.
  intros Hndc Hnds Hacts.
  set (D := filter_data df_act variants acts).
  rewrite (Qsum_map_ext _
             (fun c => Qsum (map (fun s =>
                Qsum (map (spec_overlap_hours t (t + Timedelta_minutes 30)%Z)
                        (filter (fun x => isin [s] (skill_variant x)
                                          && isin (channel_acts c) (main_act x))
                                (filter (spec_included t (t + Timedelta_minutes 30)%Z) D))))
                variants))).
  - rewrite (Qsum_partition2 (spec_overlap_hours t (t + Timedelta_minutes 30)%Z)
               (fun c x => isin (channel_acts c) (main_act x))
               (fun s x => isin [s] (skill_variant x))).
    + rewrite calculate_overlap_sum. reflexivity.
    + intros x Hx. apply filter_In in Hx. destruct Hx as [Hx _].
      unfold D, filter_data in Hx. apply filter_In in Hx. destruct Hx as [_ Hx].
      apply andb_prop in Hx. destruct Hx as [Hv Ha]. split.
      * now apply (one_channel channels acts).
      * now apply one_variant.
  - intros c _. apply Qsum_map_ext. intros s _. apply kpi_plan_of_selection.
Qed.

(** X9: the KPI table splits the plan of the view without loss or
    double counting.  For distinct selected channels and distinct
    selected skill groups, the plan values of the KPI rows of one
    half-hour slot add up to the overlap of that slot with the whole
    filtered activity, the plan that the hourly view shows for the slot:
    no activity kind is listed under two channels of [CHANNEL_MAPPING]. *)
Theorem monthly_kpi_plan_adds_up (VARIANT_TO_SYSTEM : list (string * string))
  (df_act : ActivityFrame) (df_forecast : ForecastFrame)
  (selected_channels selected_variants acts : list string)
  (year month : Z) (t : Timestamp) :
  empty df_forecast = false ->
  columns df_forecast = forecast_columns ->
  1 <= month <= 12 ->
  selected_channels <> [] -> selected_variants <> [] ->
  NoDup selected_channels -> NoDup selected_variants ->
  selected_main_acts selected_channels = Ok acts ->
  In t (month_slots year month) ->
  exists kpi_df,
    calculate_monthly_kpi VARIANT_TO_SYSTEM
      (filter_data df_act selected_variants acts) df_forecast
      selected_channels selected_variants year month = Ok kpi_df
    /\ (Qsum (map (fun r => kpi_plan (fst r)) (kpi_rows_at t kpi_df))
        == calculate_overlap (filter_data df_act selected_variants acts)
                             t (t + Timedelta_minutes 30)%Z)%Q.
Proof.
  intros He Hcols Hm Hch Hsk Hndc Hnds Hacts Ht.
  destruct (selected_main_acts_known selected_channels acts Hacts) as [Hknown _].
  eexists. split; [now apply monthly_kpi_rows |].
  unfold kpi_rows_at. cbn [rows].
  rewrite kpi_rows_of_slot by (exact Ht || apply month_slots_NoDup).
  rewrite Qsum_flat_map.
  rewrite <- (kpi_plan_partition df_act selected_channels selected_variants acts t
                Hndc Hnds Hacts).
  apply Qsum_map_ext. intros c _. rewrite Qsum_flat_map.
  apply Qsum_map_ext. intros s _.
  cbn [map Qsum fold_right kpi_row kpi_record fst kpi_plan]. ring.
Qed.

Lemma in_month_slots_1970 : In slot_10_00 (month_slots 1970 1).
Proof.
  unfold month_slots. apply in_map_iff. exists 20%nat. split; [reflexivity |].
  apply in_seq. vm_compute. lia.
Qed.

Lemma NoDup_two (a b : string) : a <> b -> NoDup [a; b].
Proof.
  intros Hne. constructor; [intros [H | []]; now apply Hne |].
  constructor; [intros [] | constructor].
Qed.

Lemma monthly_kpi_plan_adds_up_witness :
  exists kpi_df,
    calculate_monthly_kpi []
      (filter_data sample_selection_activity ["A"; "B"] ["Входящие звонки"; "Чат"])
      sample_forecast_frame ["Входящие звонки"; "Чаты"] ["A"; "B"] 1970 1 = Ok kpi_df
    /\ (Qsum (map (fun r => kpi_plan (fst r)) (kpi_rows_at slot_10_00 kpi_df))
        == calculate_overlap
             (filter_data sample_selection_activity ["A"; "B"]
                          ["Входящие звонки"; "Чат"])
             slot_10_00 (slot_10_00 + Timedelta_minutes 30)%Z)%Q.
Proof.
  exact (monthly_kpi_plan_adds_up [] sample_selection_activity sample_forecast_frame
           ["Входящие звонки"; "Чаты"] ["A"; "B"] ["Входящие звонки"; "Чат"]
           1970 1 slot_10_00 eq_refl eq_refl ltac:(lia) ltac:(discriminate)
           ltac:(discriminate)
           (NoDup_two "Входящие звонки" "Чаты" ltac:(discriminate))
           (NoDup_two "A" "B" ltac:(discriminate)) eq_refl in_month_slots_1970).
Defined.

(** ** The forecast of the KPI table and of the view *)

Lemma process_forecast_rows (df : DataFrame LoadedForecastRow)
  (groups channels : list string) (col : ForecastCol) (fc : ForecastFrame) :
  process_forecast df groups channels col = Ok fc ->
  Forall (fun r => isin groups (system_group r) = true
                   /\ isin channels (channel r) = true) (rows fc).
Proof.
  unfold process_forecast. destruct (empty df); cbn [negb].
  - intros H. injection H as <-. constructor.
  - destruct (getitem df "system_group"); cbn [bind]; [| discriminate].
    destruct (getitem df "Канал коммуникации"); cbn [bind]; [| discriminate].
    match goal with
    | |- bind ?c _ = _ -> _ => destruct c
    end; cbn [bind]; [| discriminate].
    intros H. injection H as <-. cbn [rows select]. apply Forall_map.
    apply Forall_forall. intros r Hr. apply filter_In in Hr.
    destruct Hr as [_ Hr]. apply andb_prop in Hr. exact Hr.
Qed.

Lemma isin_nodup (l : list string) (x : string) :
  isin (nodup string_dec l) x = isin l x.
Proof.
  destruct (isin l x) eqn:H.
  - apply isin_In. apply nodup_In. now apply isin_In.
  - destruct (isin (nodup string_dec l) x) eqn:H'; [| reflexivity].
    apply isin_In in H'. apply nodup_In in H'. apply isin_In in H'. congruence.
Qed.

Lemma length_filter_map {A B : Type} (f : A -> B) (q : B -> bool) (l : list A) :
  length (filter (fun x => q (f x)) l) = length (filter q (map f l)).
Proof. now rewrite filter_map_comm, length_map. Qed.

Lemma kpi_forecast_of_selection (VARIANT_TO_SYSTEM : list (string * string))
  (fc : ForecastFrame) (c s : string) (t : Timestamp) :
  kpi_forecast_of VARIANT_TO_SYSTEM fc c s t
  = Qsum (map forecast
            (filter (fun x => String.eqb (system_group x)
                                         (system_group_of VARIANT_TO_SYSTEM s)
                              && String.eqb (channel x) c)
                    (filter (fun x => ts x =? t) (rows fc)))).
Proof.
  unfold kpi_forecast_of. rewrite filter_and. do 2 f_equal.
  apply filter_ext. intros x. f_equal. apply andb_comm.
Qed.

(** The forecast values of the selected channels and skill groups in
    one slot add up to the sum of the forecast rows at the slot start,
    when the skill groups have distinct system groups. *)
Lemma kpi_forecast_partition (VARIANT_TO_SYSTEM : list (string * string))
  (fc : ForecastFrame) (channels variants : list string) (t : Timestamp) :
  NoDup channels ->
  NoDup (map (system_group_of VARIANT_TO_SYSTEM) variants) ->
  Forall (fun r => isin (map (system_group_of VARIANT_TO_SYSTEM) variants)
                        (system_group r) = true
                   /\ isin channels (channel r) = true) (rows fc) ->
  (Qsum (map (fun c =>
            Qsum (map (fun s => kpi_forecast_of VARIANT_TO_SYSTEM fc c s t) variants))
          channels)
   == Qsum (map forecast (filter (fun x => ts x =? t) (rows fc))))%Q.
Proof.
  intros Hndc Hnds Hsel.
  rewrite (Qsum_map_ext _
             (fun c => Qsum (map (fun s =>
                Qsum (map forecast
                        (filter (fun x => String.eqb (system_group x)
                                            (system_group_of VARIANT_TO_SYSTEM s)
                                          && String.eqb (channel x) c)
                                (filter (fun x => ts x =? t) (rows fc)))))
                variants))).
  - apply (Qsum_partition2 forecast
             (fun c x => String.eqb (channel x) c)
             (fun s x => String.eqb (system_group x)
                                    (system_group_of VARIANT_TO_SYSTEM s))).
    intros x Hx. apply filter_In in Hx. destruct Hx as [Hx _].
    rewrite Forall_forall in Hsel. destruct (Hsel x Hx) as [Hg Hc].
    apply isin_In in Hg, Hc. split.
    + now apply length_filter_eqb_NoDup.
    + rewrite (length_filter_map (system_group_of VARIANT_TO_SYSTEM)
                 (fun g => String.eqb (system_group x) g)).
      now apply length_filter_eqb_NoDup.
  - intros c _. apply Qsum_map_ext. intros s _.
    rewrite kpi_forecast_of_selection. reflexivity.
Qed.

(** X10: for the forecast frame that [process_forecast] returns for the
    system groups of the selected skill groups, the forecast values of
    the KPI rows of one half-hour slot add up to the sum of the forecast
    rows at the slot start, the forecast that the hourly view shows for
    the slot, provided the selected channels are distinct and the
    selected skill groups have distinct system groups.  (Two skill groups
    of one system group each get the whole forecast of that group.) *)
Theorem monthly_kpi_forecast_adds_up (VARIANT_TO_SYSTEM : list (string * string))
  (df_filtered : ActivityFrame) (loaded : DataFrame LoadedForecastRow)
  (df_forecast : ForecastFrame) (col : ForecastCol)
  (selected_channels selected_variants : list string)
  (year month : Z) (t : Timestamp) :
  process_forecast loaded
    (nodup string_dec (map (system_group_of VARIANT_TO_SYSTEM) selected_variants))
    selected_channels col = Ok df_forecast ->
  empty df_forecast = false ->
  1 <= month <= 12 ->
  Forall (fun c => dict_get CHANNEL_MAPPING c <> None) selected_channels ->
  NoDup selected_channels ->
  NoDup (map (system_group_of VARIANT_TO_SYSTEM) selected_variants) ->
  In t (month_slots year month) ->
  exists kpi_df,
    calculate_monthly_kpi VARIANT_TO_SYSTEM df_filtered df_forecast
      selected_channels selected_variants year month = Ok kpi_df
    /\ (Qsum (map (fun r => kpi_forecast (fst r)) (kpi_rows_at t kpi_df))
        == forecast_at df_forecast t)%Q.
Proof.
  intros Hp He Hm Hknown Hndc Hnds Ht.
  pose proof (process_forecast_rows _ _ _ _ _ Hp) as Hsel.
  assert (Hcols : columns df_forecast = forecast_columns).
  { destruct (process_forecast_shape _ _ _ _ _ Hp) as [H | H]; [congruence | exact H]. }
  assert (Hrows : rows df_forecast <> []).
  { intros Hnil. unfold empty in He. rewrite Hnil in He.
    now destruct (columns df_forecast). }
  assert (Hch : selected_channels <> []).
  { intros ->. destruct (rows df_forecast) as [|r l]; [now apply Hrows |].
    inversion Hsel as [|? ? [_ Hc] _]. discriminate Hc. }
  assert (Hsk : selected_variants <> []).
  { intros ->. destruct (rows df_forecast) as [|r l]; [now apply Hrows |].
    inversion Hsel as [|? ? [Hg _] _]. discriminate Hg. }
  eexists. split; [now apply monthly_kpi_rows |].
  unfold kpi_rows_at. cbn [rows].
  rewrite kpi_rows_of_slot by (exact Ht || apply month_slots_NoDup).
  rewrite Qsum_flat_map. unfold forecast_at. rewrite He.
  rewrite <- (kpi_forecast_partition VARIANT_TO_SYSTEM df_forecast selected_channels
                selected_variants t Hndc Hnds).
  - apply Qsum_map_ext. intros c _. rewrite Qsum_flat_map.
    apply Qsum_map_ext. intros s _.
    cbn [map Qsum fold_right kpi_row kpi_record fst kpi_forecast]. ring.
  - eapply Forall_impl; [| exact Hsel]. intros r [Hg Hc].
    rewrite isin_nodup in Hg. now split.
Qed.

Lemma monthly_kpi_forecast_adds_up_witness :
  exists df_forecast kpi_df,
    process_forecast sample_loaded_forecast ["A"; "G"] ["Входящие звонки"; "Чаты"]
      Forecast_Raw = Ok df_forecast
    /\ calculate_monthly_kpi [("B", "G")] sample_selection_activity df_forecast
         ["Входящие звонки"; "Чаты"] ["A"; "B"] 1970 1 = Ok kpi_df
    /\ (Qsum (map (fun r => kpi_forecast (fst r)) (kpi_rows_at slot_10_00 kpi_df))
        == forecast_at df_forecast slot_10_00)%Q.
Proof.
  eexists.
  assert (Hknown : Forall (fun c => dict_get CHANNEL_MAPPING c <> None)
                          ["Входящие звонки"; "Чаты"])
    by (repeat constructor; discriminate).
  destruct (monthly_kpi_forecast_adds_up [("B", "G")] sample_selection_activity
              sample_loaded_forecast _ Forecast_Raw
              ["Входящие звонки"; "Чаты"] ["A"; "B"] 1970 1 slot_10_00
              eq_refl eq_refl ltac:(lia) Hknown
              (NoDup_two "Входящие звонки" "Чаты" ltac:(discriminate))
              (NoDup_two "A" "G" ltac:(discriminate)) in_month_slots_1970)
    as [kpi_df [Hrun Hsum]].
  exists kpi_df. split; [reflexivity |]. split; [exact Hrun | exact Hsum].
Defined.

(** ** The last date of the daily view *)

Lemma daily_activity_before (st : SessionState) (df : ActivityFrame)
  (bound t : Timestamp) :
  t + Timedelta_days 1 <= bound ->
  calculate_overlap (daily_activity st (filter (fun r => start r <? bound) df))
                    t (t + Timedelta_days 1)
  = calculate_overlap (daily_activity st df) t (t + Timedelta_days 1).
Proof.
  intros Hb. apply calculate_overlap_filter_eq. unfold daily_activity.
  assert (Hq : forall x, overlap_mask t (t + Timedelta_days 1) x = true ->
                         (start x <? bound) = true).
  { intros x Hm. unfold overlap_mask in Hm.
    rewrite andb_true_iff, Z.ltb_lt in Hm. apply Z.ltb_lt. lia. }
  destruct (has_year st && has_month st).
  - rewrite !filter_and. apply filter_ext. intros x.
    destruct (overlap_mask t (t + Timedelta_days 1) x) eqn:Hm;
      [| now rewrite !andb_false_r].
    now rewrite (Hq x Hm).
  - rewrite filter_and. apply filter_ext. intros x.
    destruct (overlap_mask t (t + Timedelta_days 1) x) eqn:Hm;
      [| now rewrite !andb_false_r].
    now rewrite (Hq x Hm).
Qed.

Lemma prepare_slot_data_daily_unfold (st : SessionState) (df_filtered : ActivityFrame)
  (df_forecast : ForecastFrame) (min_date max_date : Z) :
  prepare_slot_data st By_days df_filtered df_forecast min_date max_date
  = (plan_df <-
       calculate_plan (daily_activity st df_filtered)
         (date_range (to_datetime min_date) (to_datetime max_date) freq_D) false ;;
     forecast_df <-
       calculate_forecast df_forecast
         (date_range (to_datetime min_date) (to_datetime max_date) freq_D)
         (Some (to_datetime min_date))
         (Some (to_datetime max_date + Timedelta_days 1)) false ;;
     finalize_slot_df plan_df forecast_df None None).
Proof. reflexivity. Qed.

(** X11: when the activity covers two dates or more, the daily view does
    not count any interval that starts on the last date or later:
    [prepare_slot_data] returns the same result, whatever the forecast,
    when these intervals are removed from the activity. *)
Theorem daily_view_ignores_last_date (st : SessionState) (df_filtered : ActivityFrame)
  (df_forecast : ForecastFrame) (min_date max_date : Z) :
  min_date < max_date ->
  prepare_slot_data st By_days
    (filter (fun r => start r <? to_datetime max_date) df_filtered)
    df_forecast min_date max_date
  = prepare_slot_data st By_days df_filtered df_forecast min_date max_date.
Proof.
  intros Hlt. rewrite !prepare_slot_data_daily_unfold, daily_times.
  assert (Hplan : calculate_plan
                    (daily_activity st
                       (filter (fun r => start r <? to_datetime max_date) df_filtered))
                    (map to_datetime (daily_dates min_date max_date)) false
                  = calculate_plan (daily_activity st df_filtered)
                      (map to_datetime (daily_dates min_date max_date)) false).
  { unfold calculate_plan. do 2 f_equal. apply map_ext_in. intros t Ht.
    f_equal. apply in_map_iff in Ht. destruct Ht as [d [<- Hd]].
    apply in_daily_dates in Hd.
    apply daily_activity_before.
    unfold to_datetime, Timedelta_days, NS_PER_DAY, NS_PER_SECOND. lia. }
  now rewrite Hplan.
Qed.

Lemma daily_view_ignores_last_date_witness :
  prepare_slot_data sample_session By_days
    (filter (fun r => start r <? to_datetime feb02) two_month_activity)
    two_month_forecast jan31 feb02
  = prepare_slot_data sample_session By_days two_month_activity two_month_forecast
      jan31 feb02.
Proof.
  apply daily_view_ignores_last_date. vm_compute. reflexivity.
Defined.

(** ** The total of the uniformity column *)

Lemma Qsum_map_scale {A : Type} (f : A -> Q) (k : Q) (l : list A) :
  (Qsum (map (fun x => f x * k) l) == Qsum (map f l) * k)%Q.
Proof.
  induction l as [|a l IH]; [cbn; ring |]. cbn [map Qsum fold_right].
  fold (Qsum (map (fun x => (f x * k)%Q) l)). fold (Qsum (map f l)).
  rewrite IH. ring.
Qed.

(** X12: when the total forecast of the table that [finalize_slot_df]
    returns is positive, the uniformity column adds up to the total plan:
    the column redistributes the planned hours in proportion to the
    forecast. *)
Theorem uniformity_total (plan_df forecast_df : SlotSeries) (year month : option Z)
  (slot_df : list SlotRecord) :
  finalize_slot_df plan_df forecast_df year month = Ok slot_df ->
  (0 < total_forecast_of slot_df)%Q ->
  (Qsum (map uniformity slot_df) == total_plan_of slot_df)%Q.
Proof.
  intros Hfin Hpos.
  pose proof (finalize_slot_df_scaled _ _ _ _ _ Hfin) as Hsc.
  rewrite scale_factor_pos in Hsc by exact Hpos.
  rewrite (Qsum_map_ext uniformity
             (fun r => forecast_value r
                       * (total_plan_of slot_df / total_forecast_of slot_df))%Q).
  - rewrite Qsum_map_scale. fold (total_forecast_of slot_df).
    field. intros H0. rewrite H0 in Hpos. now apply (Qlt_irrefl 0).
  - intros r Hr. rewrite Forall_forall in Hsc. rewrite (Hsc r Hr). reflexivity.
Qed.

Lemma uniformity_total_witness :
  exists slot_df,
    finalize_slot_df sample_plan sample_forecast None None = Ok slot_df
    /\ (Qsum (map uniformity slot_df) == total_plan_of slot_df)%Q.
Proof.
  eexists. split; [reflexivity |].
  apply (uniformity_total sample_plan sample_forecast None None _ eq_refl).
  vm_compute. reflexivity.
Defined.

(** ** The dates of the period *)

Lemma fold_min_le (s : Z) (ss : list Z) :
  fold_right Z.min s ss <= s /\ Forall (fun x => fold_right Z.min s ss <= x) ss.
Proof.
  induction ss as [|a ss [IH1 IH2]]; [split; [apply Z.le_refl | constructor] |].
  cbn [fold_right]. split; [lia |]. constructor; [lia |].
  eapply Forall_impl; [| exact IH2]. intros x Hx. cbn beta in *. lia.
Qed.

Lemma fold_max_ge (s : Z) (ss : list Z) :
  s <= fold_right Z.max s ss /\ Forall (fun x => x <= fold_right Z.max s ss) ss.
Proof.
  induction ss as [|a ss [IH1 IH2]]; [split; [apply Z.le_refl | constructor] |].
  cbn [fold_right]. split; [lia |]. constructor; [lia |].
  eapply Forall_impl; [| exact IH2]. intros x Hx. cbn beta in *. lia.
Qed.

Lemma fold_max_in (s : Z) (ss : list Z) : In (fold_right Z.max s ss) (s :: ss).
Proof.
  induction ss as [|a ss IH]; [now left |]. cbn [fold_right].
  destruct (Z.max_spec a (fold_right Z.max s ss)) as [[_ ->] | [_ ->]].
  - destruct IH as [IH | IH]; [now left | right; now right].
  - right. now left.
Qed.

Lemma date_of_le (a b : Timestamp) : a <= b -> date_of a <= date_of b.
Proof. intros H. unfold date_of. apply Z.div_le_mono; [reflexivity | exact H]. Qed.

Lemma get_period_dates_bounds (df_filtered : ActivityFrame) (min_date max_date : Z) :
  get_period_dates df_filtered = Some (min_date, max_date) ->
  min_date <= max_date
  /\ Forall (fun r => min_date <= date_of (start r) <= max_date) df_filtered
  /\ exists r, In r df_filtered /\ date_of (start r) = max_date.
Proof.
  unfold get_period_dates. destruct df_filtered as [|r0 rs]; [discriminate |].
  cbn [map]. intros H. injection H as <- <-.
  destruct (fold_min_le (start r0) (map start rs)) as [Hm0 Hm].
  destruct (fold_max_ge (start r0) (map start rs)) as [HM0 HM].
  split; [apply date_of_le; lia |]. split.
  - constructor; [split; apply date_of_le; assumption |].
    rewrite Forall_map in Hm, HM. rewrite Forall_forall in *.
    intros r Hr. split; apply date_of_le; [now apply Hm | now apply HM].
  - pose proof (fold_max_in (start r0) (map start rs)) as Hin.
    change (start r0 :: map start rs) with (map start (r0 :: rs)) in Hin.
    apply in_map_iff in Hin. destruct Hin as [r [Hr Hin]].
    exists r. split; [exact Hin | now rewrite Hr].
Qed.

Lemma daily_slots_nonempty (slot_df : list SlotRecord) (A : Type)
  (g : Z -> A) (f : SlotRecord -> A) (min_date max_date : Z) :
  min_date < max_date ->
  map f slot_df = map g (daily_dates min_date max_date) ->
  slot_df <> [].
Proof.
  intros Hlt Hkeys ->. cbn [map] in Hkeys. symmetry in Hkeys.
  apply map_eq_nil in Hkeys. now apply (daily_dates_nonempty min_date max_date).
Qed.

(** X13: the dates that [get_period_params] derives from a table with
    rows satisfy [min_date <= max_date], every interval starts on a date
    between them and some interval starts on [max_date].  When the
    intervals start on two dates or more the daily view has a slot but
    none for the date [max_date], on which activity starts; when they all
    start on one date the two dates are equal and the daily view raises
    [KeyError('slot_start')]. *)
Theorem get_period_dates_cover (st : SessionState) (df_filtered : ActivityFrame)
  (df_forecast : ForecastFrame) (min_date max_date : Z) :
  get_period_dates df_filtered = Some (min_date, max_date) ->
  empty df_forecast = true \/ columns df_forecast = forecast_columns ->
  min_date <= max_date
  /\ Forall (fun r => min_date <= date_of (start r) <= max_date) df_filtered
  /\ (exists r, In r df_filtered /\ date_of (start r) = max_date)
  /\ (min_date < max_date ->
      exists slot_df,
        prepare_slot_data st By_days df_filtered df_forecast min_date max_date
        = Ok slot_df
        /\ slot_df <> []
        /\ ~ In (to_datetime max_date) (map slot_start slot_df))
  /\ (min_date = max_date ->
      prepare_slot_data st By_days df_filtered df_forecast min_date max_date
      = Raise (KeyError "slot_start")).
Proof.
  intros Hdates Hfc.
  destruct (get_period_dates_bounds df_filtered min_date max_date Hdates)
    as [Hle [Hall Hlast]].
  split; [exact Hle |]. split; [exact Hall |]. split; [exact Hlast |]. split.
  - intros Hlt.
    destruct (prepare_slot_data_daily_keys st df_filtered df_forecast min_date
                max_date Hlt Hfc) as [slot_df [Hrun Hkeys]].
    exists slot_df. split; [exact Hrun |]. split.
    + exact (daily_slots_nonempty _ _ _ _ _ _ Hlt Hkeys).
    + intros Hin. rewrite slot_start_of_key, Hkeys, map_map in Hin.
      cbn [fst] in Hin. apply in_map_iff in Hin. destruct Hin as [d [Hd Hin]].
      apply in_daily_dates in Hin.
      unfold to_datetime, NS_PER_DAY, NS_PER_SECOND in Hd. lia.
  - intros Heq. apply prepare_slot_data_daily_one_date. lia.
Qed.

Lemma get_period_dates_cover_witness :
  (get_period_dates two_month_activity = Some (jan31, feb02)
   /\ exists slot_df,
        prepare_slot_data sample_session By_days two_month_activity
          two_month_forecast jan31 feb02 = Ok slot_df
        /\ slot_df <> []
        /\ ~ In (to_datetime feb02) (map slot_start slot_df))
  /\ (get_period_dates [act_10_00_10_45; act_09_00_10_00] = Some (0, 0)
      /\ prepare_slot_data sample_session By_days [act_10_00_10_45; act_09_00_10_00]
           two_month_forecast 0 0 = Raise (KeyError "slot_start")).
Proof.
  split; (split; [reflexivity |]).
  - destruct (get_period_dates_cover sample_session two_month_activity
                two_month_forecast jan31 feb02 eq_refl (or_intror eq_refl))
      as [_ [_ [_ [Hmany _]]]].
    apply Hmany. reflexivity.
  - destruct (get_period_dates_cover sample_session
                [act_10_00_10_45; act_09_00_10_00] two_month_forecast 0 0 eq_refl
                (or_intror eq_refl))
      as [_ [_ [_ [_ Hone]]]].
    apply Hone. reflexivity.
Defined.

(** ** The views end to end *)

(** X14: without forecast rows (no forecast file, or none of its rows
    selected) the daily view always raises.  When the activity starts on
    two dates or more [prepare_slot_data] returns at least one slot and
    [render_results], which computes the KPI export whenever it renders
    daily rows, raises [KeyError('system_group')] from
    [calculate_monthly_kpi], whose fallback forecast frame lacks that
    column; when the activity starts on one date only,
    [prepare_slot_data] itself raises [KeyError('slot_start')]. *)
Theorem daily_view_without_forecast_raises
  (VARIANT_TO_SYSTEM : list (string * string)) (st : SessionState)
  (df_filtered : ActivityFrame) (df_forecast : ForecastFrame)
  (min_date max_date year month : Z) (selected_date : option Z)
  (c : string) (channels : list string) (s : string) (variants : list string) :
  get_period_dates df_filtered = Some (min_date, max_date) ->
  empty df_forecast = true ->
  year <> 0 -> 1 <= month <= 12 ->
  dict_get CHANNEL_MAPPING c <> None ->
  (min_date < max_date ->
   exists slot_df,
     prepare_slot_data st By_days df_filtered df_forecast min_date max_date
     = Ok slot_df
     /\ slot_df <> []
     /\ render_results VARIANT_TO_SYSTEM slot_df By_days selected_date
          (Some year) (Some month) df_filtered df_forecast
          (c :: channels) (s :: variants)
        = Raise (KeyError "system_group"))
  /\ (min_date = max_date ->
      prepare_slot_data st By_days df_filtered df_forecast min_date max_date
      = Raise (KeyError "slot_start")).
Proof.
  intros Hdates He Hy Hm Hc. split.
  - intros Hlt.
    destruct (prepare_slot_data_daily_keys st df_filtered df_forecast min_date
                max_date Hlt (or_introl He)) as [slot_df [Hrun Hkeys]].
    exists slot_df. split; [exact Hrun |].
    assert (Hne : slot_df <> [])
      by exact (daily_slots_nonempty _ _ _ _ _ _ Hlt Hkeys).
    split; [exact Hne |].
    destruct slot_df as [|r0 rest]; [now elim Hne |].
    unfold render_results, render_export_buttons. cbn [isnull negb andb truthy].
    assert (Hy0 : (year =? 0) = false) by (apply Z.eqb_neq; exact Hy).
    assert (Hm0 : (month =? 0) = false) by (apply Z.eqb_neq; lia).
    rewrite Hy0, Hm0. cbn [negb andb].
    unfold calculate_monthly_kpi.
    rewrite Timestamp_ymd_first by exact Hm. cbn [bind]. cbv zeta.
    rewrite He. cbn [negb bind for_each]. unfold dict_getitem.
    destruct (dict_get CHANNEL_MAPPING c) as [acts|]; [| contradiction].
    reflexivity.
  - intros Heq. apply prepare_slot_data_daily_one_date. lia.
Qed.

Lemma daily_view_without_forecast_raises_witness :
  (exists slot_df,
     prepare_slot_data sample_session By_days two_month_activity DataFrame_empty
       jan31 feb02 = Ok slot_df
     /\ slot_df <> []
     /\ render_results [] slot_df By_days None (Some 2024) (Some 2)
          two_month_activity DataFrame_empty ["Чаты"] ["A"]
        = Raise (KeyError "system_group"))
  /\ prepare_slot_data sample_session By_days [act_10_00_10_45] DataFrame_empty 0 0
     = Raise (KeyError "slot_start").
Proof.
  split.
  - apply (proj1 (daily_view_without_forecast_raises [] sample_session
                    two_month_activity DataFrame_empty jan31 feb02 2024 2 None
                    "Чаты" [] "A" [] eq_refl eq_refl ltac:(discriminate)
                    ltac:(lia) ltac:(discriminate))).
    reflexivity.
  - apply (proj2 (daily_view_without_forecast_raises [] sample_session
                    [act_10_00_10_45] DataFrame_empty 0 0 1970 1 None
                    "Чаты" [] "A" [] eq_refl eq_refl ltac:(discriminate)
                    ltac:(lia) ltac:(discriminate))).
    reflexivity.
Defined.

(** X15: the hourly view runs to the end when the dates and times of
    the forecast rows parse: for the pair that
    [apply_filters_and_process] hands on, [prepare_slot_data] returns 48
    slots and [render_results] renders all of them and offers no KPI
    table. *)
Theorem hourly_view_total (VARIANT_TO_SYSTEM : list (string * string))
  (st : SessionState) (df_act : ActivityFrame)
  (variants channels acts : list string) (col : ForecastCol)
  (loaded : DataFrame LoadedForecastRow) (df_filtered : ActivityFrame)
  (df_forecast : ForecastFrame) (min_date max_date : Z) :
  selected_main_acts channels = Ok acts ->
  apply_filters_and_process VARIANT_TO_SYSTEM df_act variants channels acts col
    loaded = Ok (Some (df_filtered, df_forecast)) ->
  exists slot_df,
    prepare_slot_data st By_hours df_filtered df_forecast min_date max_date
    = Ok slot_df
    /\ length slot_df = 48%nat
    /\ render_results VARIANT_TO_SYSTEM slot_df By_hours (Some (selected_date st))
         None None df_filtered df_forecast channels variants
       = Ok (Some (slot_df, None)).
Proof.
  intros Hacts Hrun.
  destruct (apply_filters_and_process_inv _ _ _ _ _ _ _ _ _ Hacts Hrun)
    as [_ [_ [_ [_ [_ Hfc]]]]].
  destruct (prepare_slot_data_hourly_keys st df_filtered df_forecast min_date
              max_date Hfc) as [slot_df [Hprep Hkeys]].
  exists slot_df. split; [exact Hprep |].
  assert (Hlen : length slot_df = 48%nat).
  { apply (f_equal (@length _)) in Hkeys. rewrite !length_map in Hkeys. exact Hkeys. }
  split; [exact Hlen |].
  destruct slot_df as [|r0 rest]; [discriminate Hlen |]. reflexivity.
Qed.

Lemma hourly_view_total_witness :
  apply_filters_and_process [("B", "G")] two_month_activity ["A"] ["Чаты"] ["Чат"]
    Forecast_Raw sample_loaded_forecast
  = Ok (Some (two_month_activity, sample_forecast_frame))
  /\ exists slot_df,
       prepare_slot_data sample_session By_hours two_month_activity
         sample_forecast_frame jan31 feb02 = Ok slot_df
       /\ length slot_df = 48%nat
       /\ render_results [("B", "G")] slot_df By_hours
            (Some (selected_date sample_session)) None None two_month_activity
            sample_forecast_frame ["Чаты"] ["A"]
          = Ok (Some (slot_df, None)).
Proof.
  split; [reflexivity |].
  exact (hourly_view_total [("B", "G")] sample_session two_month_activity ["A"]
           ["Чаты"] ["Чат"] Forecast_Raw sample_loaded_forecast
           two_month_activity sample_forecast_frame jan31 feb02 eq_refl eq_refl).
Defined.

(** ** The calendar *)

Lemma F_step (a : Z) :
  0 <= a < 146096 ->
  a - a / 1460 + a / 36524 - a / 146096
  <= (a + 1) - (a + 1) / 1460 + (a + 1) / 36524 - (a + 1) / 146096.
Proof. intros H. Z.div_mod_to_equations. lia. Qed.

Lemma F_mono_nat (n : nat) (a : Z) :
  0 <= a -> a + Z.of_nat n <= 146096 ->
  a - a / 1460 + a / 36524 - a / 146096
  <= (a + Z.of_nat n) - (a + Z.of_nat n) / 1460 + (a + Z.of_nat n) / 36524
     - (a + Z.of_nat n) / 146096.
Proof.
  induction n as [|n IH]; intros Ha Hb.
  - replace (a + Z.of_nat 0) with a by lia. lia.
  - rewrite Nat2Z.inj_succ in *.
    replace (a + Z.succ (Z.of_nat n)) with (a + Z.of_nat n + 1) by lia.
    pose proof (F_step (a + Z.of_nat n) ltac:(lia)) as Hs.
    specialize (IH Ha ltac:(lia)). lia.
Qed.

Lemma yoe_of_doe_mono (a b : Z) :
  0 <= a -> a <= b -> b <= 146096 -> yoe_of_doe a <= yoe_of_doe b.
Proof.
  intros Ha Hab Hb. unfold yoe_of_doe. apply Z.div_le_mono; [reflexivity |].
  pose proof (F_mono_nat (Z.to_nat (b - a)) a Ha) as H.
  rewrite Z2Nat.id in H by lia. replace (a + (b - a)) with b in H by lia.
  apply H. lia.
Qed.

Lemma year_table_ok :
  forallb (fun y => year_of_era_ok (Z.of_nat y)) (seq 0 400) = true.
Proof. vm_compute. reflexivity. Qed.

Lemma year_of_era_ok_all (y : Z) :
  0 <= y < 400 ->
  yoe_of_doe (year_start y) = y
  /\ yoe_of_doe (year_end y) = y
  /\ year_end y - year_start y + 1 = (if is_leap_year (y + 1) then 366 else 365).
Proof.
  intros Hy.
  pose proof (forallb_seq (fun y => year_of_era_ok (Z.of_nat y)) 400 (Z.to_nat y)
                year_table_ok ltac:(lia)) as H.
  cbv beta in H. rewrite Z2Nat.id in H by lia. unfold year_of_era_ok in H.
  apply andb_prop in H. destruct H as [H H3].
  apply andb_prop in H. destruct H as [H1 H2].
  apply Z.eqb_eq in H1, H2, H3. now repeat split.
Qed.

Lemma year_start_bounds (y : Z) :
  0 <= y < 400 -> 0 <= year_start y /\ year_end y <= 146096.
Proof.
  intros Hy. unfold year_end, year_start.
  destruct (Z.eqb_spec y 399); Z.div_mod_to_equations; lia.
Qed.

Lemma yoe_in_year (y doe : Z) :
  0 <= y < 400 -> year_start y <= doe <= year_end y -> yoe_of_doe doe = y.
Proof.
  intros Hy Hd.
  destruct (year_of_era_ok_all y Hy) as [Hs [He _]].
  destruct (year_start_bounds y Hy) as [H0 H1].
  pose proof (yoe_of_doe_mono (year_start y) doe H0 ltac:(lia) ltac:(lia)) as Hlo.
  pose proof (yoe_of_doe_mono doe (year_end y) ltac:(lia) ltac:(lia) H1) as Hhi.
  lia.
Qed.

Lemma doe_year (doe : Z) :
  0 <= doe < 146097 ->
  0 <= yoe_of_doe doe < 400
  /\ year_start (yoe_of_doe doe) <= doe <= year_end (yoe_of_doe doe).
Proof.
  intros Hd.
  assert (Hy : 0 <= yoe_of_doe doe < 400).
  { pose proof (yoe_of_doe_mono 0 doe ltac:(lia) ltac:(lia) ltac:(lia)) as Hlo.
    pose proof (yoe_of_doe_mono doe 146096 ltac:(lia) ltac:(lia) ltac:(lia)) as Hhi.
    change (yoe_of_doe 0) with 0 in Hlo.
    change (yoe_of_doe 146096) with 399 in Hhi. lia. }
  split; [exact Hy |].
  set (y := yoe_of_doe doe) in *. split.
  - destruct (Z_le_gt_dec (year_start y) doe) as [H | H]; [exact H | exfalso].
    assert (Hy1 : 1 <= y).
    { destruct (Z.eq_dec y 0) as [E | E]; [| lia].
      rewrite E in H. change (year_start 0) with 0 in H. lia. }
    destruct (year_of_era_ok_all (y - 1) ltac:(lia)) as [_ [He _]].
    destruct (year_start_bounds (y - 1) ltac:(lia)) as [_ Hb].
    assert (Hend : year_end (y - 1) = year_start y - 1).
    { unfold year_end. destruct (Z.eqb_spec (y - 1) 399); [lia |].
      now replace (y - 1 + 1) with y by lia. }
    pose proof (yoe_of_doe_mono doe (year_end (y - 1)) ltac:(lia) ltac:(lia) Hb)
      as Hm.
    fold y in Hm. lia.
  - destruct (Z_le_gt_dec doe (year_end y)) as [H | H]; [exact H | exfalso].
    assert (Hy1 : y <> 399).
    { intros E. rewrite E in H. change (year_end 399) with 146096 in H. lia. }
    assert (Hend : year_end y = year_start (y + 1) - 1).
    { unfold year_end. destruct (Z.eqb_spec y 399); [lia | reflexivity]. }
    destruct (year_of_era_ok_all (y + 1) ltac:(lia)) as [Hs _].
    destruct (year_start_bounds (y + 1) ltac:(lia)) as [Hb _].
    pose proof (yoe_of_doe_mono (year_start (y + 1)) doe Hb ltac:(lia) ltac:(lia))
      as Hm.
    fold y in Hm. lia.
Qed.

Lemma month_of_doy (doy : Z) :
  0 <= doy <= 365 ->
  0 <= (5 * doy + 2) / 153 <= 11
  /\ month_start ((5 * doy + 2) / 153) <= doy < month_start ((5 * doy + 2) / 153 + 1).
Proof. intros H. unfold month_start. Z.div_mod_to_equations. lia. Qed.

Lemma doy_of_month (mp doy : Z) :
  month_start mp <= doy < month_start (mp + 1) -> (5 * doy + 2) / 153 = mp.
Proof. unfold month_start. intros H. Z.div_mod_to_equations. lia. Qed.

Lemma is_leap_year_era (y era : Z) : is_leap_year (y + era * 400) = is_leap_year y.
Proof.
  unfold is_leap_year.
  replace ((y + era * 400) mod 4) with (y mod 4)
    by (replace (y + era * 400) with (y + (era * 100) * 4) by lia;
        now rewrite Z_mod_plus_full).
  replace ((y + era * 400) mod 100) with (y mod 100)
    by (replace (y + era * 400) with (y + (era * 4) * 100) by lia;
        now rewrite Z_mod_plus_full).
  now rewrite Z_mod_plus_full.
Qed.

(** The civil year and month of the month [mp] of the year [yoe] of an
    era. *)
Lemma days_from_civil_era (era yoe mp d : Z) :
  0 <= yoe < 400 -> 0 <= mp <= 11 ->
  days_from_civil (if mp <? 10 then yoe + era * 400 else yoe + era * 400 + 1)
                  (if mp <? 10 then mp + 3 else mp - 9) d
  = era * 146097 + (year_start yoe + month_start mp + d - 1) - 719468.
Proof.
  intros Hy Hmp. unfold days_from_civil, year_start, month_start.
  assert (E : (yoe + era * 400) / 400 = era).
  { symmetry. apply (Z.div_unique _ _ _ yoe); lia. }
  destruct (Z.ltb_spec mp 10).
  - destruct (Z.leb_spec (mp + 3) 2); [lia |].
    destruct (Z.ltb_spec 2 (mp + 3)); [| lia].
    cbv zeta. rewrite E. replace (mp + 3 - 3) with mp by lia.
    replace (yoe + era * 400 - era * 400) with yoe by lia. lia.
  - destruct (Z.leb_spec (mp - 9) 2); [| lia].
    destruct (Z.ltb_spec 2 (mp - 9)); [lia |].
    cbv zeta. replace (yoe + era * 400 + 1 - 1) with (yoe + era * 400) by lia.
    rewrite E. replace (mp - 9 + 9) with mp by lia.
    replace (yoe + era * 400 - era * 400) with yoe by lia. lia.
Qed.

Lemma civil_of_doe_fields (era yoe mp d : Z) :
  0 <= yoe < 400 -> 0 <= mp <= 11 -> 1 <= d ->
  month_start mp + d - 1 < month_start (mp + 1) ->
  year_start yoe + month_start mp + d - 1 <= year_end yoe ->
  civil_of_doe era (year_start yoe + month_start mp + d - 1)
  = ((if mp <? 10 then yoe + era * 400 else yoe + era * 400 + 1),
     (if mp <? 10 then mp + 3 else mp - 9), d).
Proof.
  intros Hy Hmp Hd Hm Hye.
  assert (Hms : 0 <= month_start mp)
    by (unfold month_start; Z.div_mod_to_equations; lia).
  unfold civil_of_doe. cbv zeta.
  set (doe := year_start yoe + month_start mp + d - 1).
  fold (yoe_of_doe doe).
  rewrite (yoe_in_year yoe doe Hy) by (unfold doe; lia).
  fold (year_start yoe).
  replace (doe - year_start yoe) with (month_start mp + d - 1) by (unfold doe; lia).
  rewrite (doy_of_month mp (month_start mp + d - 1)) by lia.
  fold (month_start mp).
  replace (month_start mp + d - 1 - month_start mp + 1) with d by lia.
  destruct (Z.ltb_spec mp 10).
  - destruct (Z.leb_spec (mp + 3) 2); [lia | reflexivity].
  - destruct (Z.leb_spec (mp - 9) 2); [reflexivity | lia].
Qed.

Lemma month_length (y mp : Z) :
  0 <= mp <= 10 ->
  days_in_month y (if mp <? 10 then mp + 3 else mp - 9)
  = month_start (mp + 1) - month_start mp.
Proof.
  intros H.
  assert (C : mp = 0 \/ mp = 1 \/ mp = 2 \/ mp = 3 \/ mp = 4 \/ mp = 5 \/ mp = 6
              \/ mp = 7 \/ mp = 8 \/ mp = 9 \/ mp = 10) by lia.
  repeat (destruct C as [-> | C]; [reflexivity |]). subst mp. reflexivity.
Qed.

(** A day [d] is a day of the month [mp] of the year [yoe] exactly when
    it is at most the length of the civil month. *)
Lemma day_in_month (era yoe mp d : Z) :
  0 <= yoe < 400 -> 0 <= mp <= 11 ->
  d <= days_in_month (if mp <? 10 then yoe + era * 400 else yoe + era * 400 + 1)
                     (if mp <? 10 then mp + 3 else mp - 9)
  <-> (month_start mp + d - 1 < month_start (mp + 1)
       /\ year_start yoe + month_start mp + d - 1 <= year_end yoe).
Proof.
  intros Hy Hmp.
  destruct (year_of_era_ok_all yoe Hy) as [_ [_ Hlen]].
  destruct (Z.eq_dec mp 11) as [-> | Hne].
  - change (11 <? 10) with false. cbv iota. change (11 - 9) with 2.
    change (month_start (11 + 1)) with 367. change (month_start 11) with 337.
    unfold days_in_month. change (2 =? 2) with true. cbv iota.
    replace (yoe + era * 400 + 1) with (yoe + 1 + era * 400) by lia.
    rewrite is_leap_year_era. destruct (is_leap_year (yoe + 1)); lia.
  - rewrite month_length by lia.
    assert (Hb : month_start (mp + 1) <= 337)
      by (unfold month_start; Z.div_mod_to_equations; lia).
    destruct (is_leap_year (yoe + 1)); lia.
Qed.

Lemma civil_of_doe_valid (era doe : Z) :
  0 <= doe < 146097 ->
  exists y m d,
    civil_of_doe era doe = (y, m, d)
    /\ 1 <= m <= 12 /\ 1 <= d <= days_in_month y m
    /\ days_from_civil y m d = era * 146097 + doe - 719468.
Proof.
  intros Hd. destruct (doe_year doe Hd) as [Hy [Hlo Hhi]].
  set (yoe := yoe_of_doe doe) in *.
  destruct (year_of_era_ok_all yoe Hy) as [_ [_ Hlen]].
  assert (Hdoy : 0 <= doe - year_start yoe <= 365)
    by (destruct (is_leap_year (yoe + 1)); lia).
  destruct (month_of_doy (doe - year_start yoe) Hdoy) as [Hmp [Hms Hme]].
  set (mp := (5 * (doe - year_start yoe) + 2) / 153) in *.
  set (d := doe - year_start yoe - month_start mp + 1).
  assert (Edoe : doe = year_start yoe + month_start mp + d - 1) by (unfold d; lia).
  exists (if mp <? 10 then yoe + era * 400 else yoe + era * 400 + 1),
         (if mp <? 10 then mp + 3 else mp - 9), d.
  split; [| split; [| split]].
  - rewrite Edoe at 1. apply civil_of_doe_fields; unfold d; lia.
  - destruct (Z.ltb_spec mp 10); lia.
  - split; [unfold d; lia |]. apply day_in_month; [exact Hy | exact Hmp |].
    unfold d. lia.
  - rewrite days_from_civil_era by assumption. lia.
Qed.

(** [days_from_civil] is a left inverse of [civil_from_days], whose
    fields are a valid date. *)
Lemma civil_from_days_valid (z : Z) :
  exists y m d,
    civil_from_days z = (y, m, d)
    /\ 1 <= m <= 12 /\ 1 <= d <= days_in_month y m
    /\ days_from_civil y m d = z.
Proof.
  set (era := (z + 719468) / 146097).
  set (doe := z + 719468 - era * 146097).
  assert (Hd : 0 <= doe < 146097)
    by (unfold doe, era; Z.div_mod_to_equations; lia).
  destruct (civil_of_doe_valid era doe Hd) as [y [m [d [Hc [Hm [Hdd Hi]]]]]].
  exists y, m, d. rewrite <- civil_from_days_era in Hc by exact Hd.
  replace (era * 146097 + doe - 719468) with z in * by (unfold doe; lia).
  now repeat split.
Qed.

(** [civil_from_days] is a left inverse of [days_from_civil] on the
    valid dates. *)
Lemma civil_from_days_of_civil (y m d : Z) :
  1 <= m <= 12 -> 1 <= d <= days_in_month y m ->
  civil_from_days (days_from_civil y m d) = (y, m, d).
Proof.
  intros Hm Hd.
  set (y' := if m <=? 2 then y - 1 else y).
  set (era := y' / 400). set (yoe := y' - era * 400).
  set (mp := if 2 <? m then m - 3 else m + 9).
  assert (Hyoe : 0 <= yoe < 400)
    by (unfold yoe, era; Z.div_mod_to_equations; lia).
  assert (Hmp : 0 <= mp <= 11) by (unfold mp; destruct (Z.ltb_spec 2 m); lia).
  assert (Ey : y = if mp <? 10 then yoe + era * 400 else yoe + era * 400 + 1).
  { unfold mp, yoe, y'. destruct (Z.ltb_spec 2 m).
    - destruct (Z.ltb_spec (m - 3) 10); [| lia].
      destruct (Z.leb_spec m 2); lia.
    - destruct (Z.ltb_spec (m + 9) 10); [lia |].
      destruct (Z.leb_spec m 2); lia. }
  assert (Em : m = if mp <? 10 then mp + 3 else mp - 9).
  { unfold mp. destruct (Z.ltb_spec 2 m).
    - destruct (Z.ltb_spec (m - 3) 10); lia.
    - destruct (Z.ltb_spec (m + 9) 10); lia. }
  assert (Hin : month_start mp + d - 1 < month_start (mp + 1)
                /\ year_start yoe + month_start mp + d - 1 <= year_end yoe).
  { apply (day_in_month era yoe mp d Hyoe Hmp). rewrite <- Ey, <- Em. lia. }
  destruct Hin as [Hin1 Hin2].
  destruct (year_start_bounds yoe Hyoe) as [Hs0 He0].
  assert (Hms : 0 <= month_start mp)
    by (unfold month_start; Z.div_mod_to_equations; lia).
  rewrite Ey at 1. rewrite Em at 1. rewrite days_from_civil_era by assumption.
  rewrite civil_from_days_era by lia.
  rewrite civil_of_doe_fields by (assumption || lia).
  now rewrite <- Ey, <- Em.
Qed.

Lemma date_of_bounds (t : Timestamp) :
  date_of t * NS_PER_DAY <= t < date_of t * NS_PER_DAY + NS_PER_DAY.
Proof.
  unfold date_of.
  pose proof (Z.div_mod t NS_PER_DAY ltac:(discriminate)) as Hd.
  pose proof (Z.mod_pos_bound t NS_PER_DAY ltac:(reflexivity)) as Hb.
  lia.
Qed.

Lemma in_year_month_days (y m : Z) (t : Timestamp) :
  1 <= m <= 12 ->
  in_year_month y m t = true
  <-> days_from_civil y m 1 <= date_of t
                               < days_from_civil y m 1 + days_in_month y m.
Proof.
  intros Hm. unfold in_year_month, year_of, month_of. split.
  - destruct (civil_from_days_valid (date_of t)) as [y' [m' [d' [Hc [_ [Hd Hi]]]]]].
    rewrite Hc. intros H. apply andb_prop in H. destruct H as [Hy Hmm].
    apply Z.eqb_eq in Hy, Hmm. subst y' m'.
    rewrite days_from_civil_day in Hi. lia.
  - intros Hr.
    assert (E : date_of t
                = days_from_civil y m (date_of t - days_from_civil y m 1 + 1))
      by (rewrite days_from_civil_day; lia).
    rewrite E, civil_from_days_of_civil by lia.
    now rewrite !Z.eqb_refl.
Qed.

Lemma in_year_month_range (y m : Z) (t : Timestamp) :
  1 <= m <= 12 ->
  in_year_month y m t = true
  <-> days_from_civil y m 1 * NS_PER_DAY <= t
      < days_from_civil y m 1 * NS_PER_DAY + days_in_month y m * NS_PER_DAY.
Proof.
  intros Hm. rewrite (in_year_month_days y m t Hm).
  pose proof (date_of_bounds t) as Hb.
  assert (HN : 0 < NS_PER_DAY) by reflexivity.
  split; intros H; nia.
Qed.

(** X16: the month filter and the month period agree.  For a month
    1..12, the timestamps whose year and month are the selected ones (the
    filter of [finalize_slot_df] and of [render_chart_and_table]) are
    exactly those of the period from [pd.Timestamp(year, month, 1)] to
    that [+ MonthEnd(1) + 1 day], end excluded (the period of
    [get_period_params] and of [calculate_monthly_kpi]); so every slot of
    the KPI table lies in the selected month, and the daily view shows
    the rows of the period. *)
Theorem month_filter_is_period (year month : Z) :
  1 <= month <= 12 ->
  exists start_dt,
    Timestamp_ymd year month 1 = Ok start_dt
    /\ (forall t, in_year_month year month t = true
                  <-> start_dt <= t < add_MonthEnd1 start_dt + Timedelta_days 1)
    /\ Forall (fun t => in_year_month year month t = true)
              (date_range start_dt (add_MonthEnd1 start_dt + Timedelta_days 1)
                          freq_30min)
    /\ (year <> 0 ->
        forall slot_df,
          render_chart_and_table slot_df By_days (Some year) (Some month)
          = filter (fun r => (start_dt <=? slot_start r)
                             && (slot_start r
                                 <? add_MonthEnd1 start_dt + Timedelta_days 1))
                   slot_df).
Proof.
  intros Hm. exists (days_from_civil year month 1 * NS_PER_DAY).
  split; [now apply Timestamp_ymd_first |].
  rewrite end_month_after by exact Hm.
  pose proof (days_in_month_ge_28 year month) as Hdim.
  assert (HN : 0 < NS_PER_DAY) by reflexivity.
  split; [intros t; now apply in_year_month_range |]. split.
  - apply Forall_forall. intros t Ht. apply in_year_month_range; [exact Hm |].
    apply date_range_inside in Ht; [exact Ht | reflexivity | nia].
  - intros Hy slot_df. rewrite render_daily_month by lia.
    apply filter_ext. intros r.
    destruct (in_year_month year month (slot_start r)) eqn:E.
    + apply in_year_month_range in E; [| exact Hm]. symmetry.
      rewrite andb_true_iff, Z.leb_le, Z.ltb_lt. exact E.
    + destruct ((days_from_civil year month 1 * NS_PER_DAY <=? slot_start r)
                && (slot_start r
                    <? days_from_civil year month 1 * NS_PER_DAY
                       + days_in_month year month * NS_PER_DAY)) eqn:E'; [| reflexivity].
      rewrite andb_true_iff, Z.leb_le, Z.ltb_lt in E'.
      apply (in_year_month_range year month _ Hm) in E'. congruence.
Qed.

Lemma month_filter_is_period_witness :
  exists start_dt,
    Timestamp_ymd 2024 2 1 = Ok start_dt
    /\ (forall t, in_year_month 2024 2 t = true
                  <-> start_dt <= t < add_MonthEnd1 start_dt + Timedelta_days 1).
Proof.
  destruct (month_filter_is_period 2024 2 ltac:(lia)) as [start_dt [Hs [Hiff _]]].
  exists start_dt. split; [exact Hs | exact Hiff].
Defined.

(** ** The hourly and the daily view of one day *)

Lemma overlap_ns_split (a b c : Timestamp) (r : Activity) :
  a <= b <= c -> start r <= end_ r ->
  overlap_ns a b r + overlap_ns b c r = overlap_ns a c r.
Proof.
  intros Habc Hr. unfold overlap_ns, overlap_mask. rewrite !Z.gtb_ltb.
  destruct (Z.ltb_spec (start r) b); destruct (Z.ltb_spec a (end_ r));
    destruct (Z.ltb_spec (start r) c); destruct (Z.ltb_spec b (end_ r));
    cbn [andb]; lia.
Qed.

Lemma overlap_ns_slots (s w : Z) (r : Activity) (n : nat) :
  0 < w -> start r <= end_ r ->
  Zsum (map (fun t => overlap_ns t (t + w) r) (map (slot_at s w) (seq 0 n)))
  = overlap_ns s (s + Z.of_nat n * w) r.
Proof.
  intros Hw Hr. induction n as [|n IH].
  - cbn [seq map Zsum fold_right]. unfold overlap_ns, overlap_mask.
    rewrite Z.gtb_ltb.
    destruct (Z.ltb_spec (start r) (s + Z.of_nat 0 * w));
      destruct (Z.ltb_spec s (end_ r)); cbn [andb]; lia.
  - rewrite seq_S, !map_app, Zsum_app, IH.
    cbn [map Zsum fold_right Nat.add]. unfold slot_at.
    rewrite Z.add_0_r, Nat2Z.inj_succ.
    replace (s + Z.succ (Z.of_nat n) * w) with (s + Z.of_nat n * w + w) by lia.
    apply overlap_ns_split; [nia | exact Hr].
Qed.

Lemma day_slots_plan (df : ActivityFrame) (d : Z) :
  Forall (fun r => start r <= end_ r) df ->
  (Qsum (map (fun t => calculate_overlap df t (t + Timedelta_minutes 30)%Z)
             (day_slots d))
   == calculate_overlap df (to_datetime d) (to_datetime d + Timedelta_days 1)%Z)%Q.
Proof.
  intros Hdf.
  rewrite (Qsum_map_ext _
             (fun t => hours_of_ns
                         (Zsum (map (overlap_ns t (t + Timedelta_minutes 30)) df))))
    by (intros; apply calculate_overlap_ns).
  rewrite hours_of_ns_Zsum, Zsum_exchange, calculate_overlap_ns.
  rewrite (Zsum_map_ext _
             (overlap_ns (to_datetime d) (to_datetime d + Timedelta_days 1)));
    [reflexivity |].
  intros r Hr. rewrite Forall_forall in Hdf.
  change (day_slots d)
    with (map (slot_at (to_datetime d) (Timedelta_minutes 30)) (seq 0 48)).
  rewrite overlap_ns_slots; [reflexivity | reflexivity | now apply Hdf].
Qed.

Lemma plan_hours_of_key (slot_df : list SlotRecord) :
  map plan_hours slot_df
  = map (fun k : MergedRow => snd (fst k)) (map record_key slot_df).
Proof. rewrite map_map. reflexivity. Qed.

Lemma forecast_value_of_key (slot_df : list SlotRecord) :
  map forecast_value slot_df
  = map (fun k : MergedRow => snd k) (map record_key slot_df).
Proof. rewrite map_map. reflexivity. Qed.

(** The row of a date in the daily view. *)
Lemma daily_row_of_date (st : SessionState) (df_filtered : ActivityFrame)
  (df_forecast : ForecastFrame) (min_date max_date d : Z) :
  empty df_forecast = true \/ columns df_forecast = forecast_columns ->
  min_date <= d < max_date ->
  exists daily r,
    prepare_slot_data st By_days df_filtered df_forecast min_date max_date
    = Ok daily
    /\ In r daily
    /\ slot_start r = to_datetime d
    /\ plan_hours r
       = calculate_overlap (daily_activity st df_filtered)
           (to_datetime d) (to_datetime d + Timedelta_days 1)
    /\ forecast_value r = forecast_of_day df_forecast (to_datetime d).
Proof.
  intros Hfc Hd.
  destruct (prepare_slot_data_daily_keys st df_filtered df_forecast min_date
              max_date ltac:(lia) Hfc) as [daily [Hrun Hkeys]].
  assert (Hin : In (to_datetime d,
                    calculate_overlap (daily_activity st df_filtered)
                      (to_datetime d) (to_datetime d + Timedelta_days 1),
                    forecast_of_day df_forecast (to_datetime d))
                   (map record_key daily)).
  { rewrite Hkeys. apply in_map_iff. exists d. split; [reflexivity |].
    now apply in_daily_dates. }
  apply in_map_iff in Hin. destruct Hin as [r [Hr Hin]].
  exists daily, r. split; [exact Hrun |]. split; [exact Hin |].
  unfold record_key in Hr. injection Hr as Hs Hp Hf. now repeat split.
Qed.

(** X17: the two views agree on the plan of a day.  For intervals that
    do not end before they start, the 48 plan values of the hourly view
    of a date add up to the overlap of the activity with the whole day;
    intervals that cross midnight are counted on each side for their
    part.  For a date from [min_date] up to, but not including,
    [max_date], and a session without the keys ['year'] and ['month'], as
    the application leaves it, this total is the plan of the slot of that
    date in the daily view. *)
Theorem hourly_plans_add_up_to_day (st : SessionState) (df_filtered : ActivityFrame)
  (df_forecast : ForecastFrame) (min_date max_date : Z) :
  Forall (fun r => start r <= end_ r) df_filtered ->
  empty df_forecast = true \/ columns df_forecast = forecast_columns ->
  exists hourly,
    prepare_slot_data st By_hours df_filtered df_forecast min_date max_date
    = Ok hourly
    /\ (total_plan_of hourly
        == calculate_overlap df_filtered (to_datetime (selected_date st))
             (to_datetime (selected_date st) + Timedelta_days 1)%Z)%Q
    /\ (has_year st && has_month st = false ->
        min_date <= selected_date st < max_date ->
        exists daily r,
          prepare_slot_data st By_days df_filtered df_forecast min_date max_date
          = Ok daily
          /\ In r daily
          /\ slot_start r = to_datetime (selected_date st)
          /\ (total_plan_of hourly == plan_hours r)%Q).
Proof.
  intros Hdf Hfc.
  destruct (prepare_slot_data_hourly_keys st df_filtered df_forecast min_date
              max_date Hfc) as [hourly [Hrun Hkeys]].
  exists hourly. split; [exact Hrun |].
  assert (Htot : (total_plan_of hourly
                  == calculate_overlap df_filtered (to_datetime (selected_date st))
                       (to_datetime (selected_date st) + Timedelta_days 1)%Z)%Q).
  { unfold total_plan_of. rewrite plan_hours_of_key, Hkeys, map_map. cbn [fst snd].
    now apply day_slots_plan. }
  split; [exact Htot |].
  intros Hst Hd.
  destruct (daily_row_of_date st df_filtered df_forecast min_date max_date
              (selected_date st) Hfc Hd) as [daily [r [Hday [Hin [Hs [Hp _]]]]]].
  exists daily, r. split; [exact Hday |]. split; [exact Hin |]. split; [exact Hs |].
  rewrite Hp, Htot. unfold daily_activity. rewrite Hst. reflexivity.
Qed.

Lemma hourly_plans_add_up_to_day_witness :
  exists hourly daily r,
    prepare_slot_data sample_session By_hours two_month_activity two_month_forecast
      jan31 feb02 = Ok hourly
    /\ prepare_slot_data sample_session By_days two_month_activity
         two_month_forecast jan31 feb02 = Ok daily
    /\ In r daily
    /\ slot_start r = to_datetime jan31
    /\ (total_plan_of hourly == plan_hours r)%Q
    /\ (total_plan_of hourly == 1)%Q.
Proof.
  destruct (hourly_plans_add_up_to_day sample_session two_month_activity
              two_month_forecast jan31 feb02
              ltac:(repeat constructor; vm_compute; discriminate)
              (or_intror eq_refl))
    as [hourly [Hrun [Htot Hday]]].
  destruct (Hday eq_refl ltac:(vm_compute; split; [discriminate | reflexivity]))
    as [daily [r [Hd [Hin [Hs Hp]]]]].
  exists hourly, daily, r. split; [exact Hrun |]. split; [exact Hd |].
  split; [exact Hin |]. split; [exact Hs |]. split; [exact Hp |].
  rewrite Htot. vm_compute. reflexivity.
Defined.

Lemma day_slots_NoDup (d : Z) : NoDup (day_slots d).
Proof.
  apply NoDup_sorted.
  apply (slots_sorted (to_datetime d) (Timedelta_minutes 30)). reflexivity.
Qed.

Lemma in_day_slots (d : Z) (t : Timestamp) :
  In t (day_slots d)
  <-> (to_datetime d <= t < to_datetime d + Timedelta_days 1
       /\ t mod Timedelta_minutes 30 = 0).
Proof.
  unfold day_slots. rewrite in_map_iff. split.
  - intros [i [<- Hi]]. apply in_seq in Hi. split.
    + unfold to_datetime, Timedelta_days, Timedelta_minutes, NS_PER_DAY,
        NS_PER_SECOND. lia.
    + replace (to_datetime d + Z.of_nat i * Timedelta_minutes 30)
        with ((d * 48 + Z.of_nat i) * Timedelta_minutes 30)
        by (unfold to_datetime, Timedelta_minutes, NS_PER_DAY, NS_PER_SECOND; lia).
      apply Z.mod_mul. discriminate.
  - intros [Hr Hm].
    apply Z.mod_divide in Hm; [| discriminate]. destruct Hm as [k Hk].
    exists (Z.to_nat (k - d * 48)).
    unfold to_datetime, Timedelta_days, Timedelta_minutes, NS_PER_DAY,
      NS_PER_SECOND in *.
    split; [| apply in_seq]; lia.
Qed.

Lemma length_filter_Zeqb_NoDup (l : list Z) (v : Z) :
  NoDup l -> In v l -> length (filter (fun t => v =? t) l) = 1%nat.
Proof.
  intros Hnd Hin.
  rewrite (filter_ext (fun t => v =? t) (fun t => t =? v))
    by (intros t; apply Z.eqb_sym).
  now rewrite filter_eqb_NoDup.
Qed.

Lemma forecast_of_day_select (mask : ForecastRow -> bool)
  (df_forecast : ForecastFrame) (t : Timestamp) :
  empty df_forecast = false ->
  forecast_of_day (select mask df_forecast) t
  = Qsum (map forecast
            (filter (fun r => (t <=? ts r) && (ts r <? t + Timedelta_days 1))
                    (filter mask (rows df_forecast)))).
Proof.
  intros He. unfold forecast_of_day.
  destruct (empty (select mask df_forecast)) eqn:Hs; [| reflexivity].
  unfold empty, select in *. cbn [columns rows] in *.
  destruct (columns df_forecast); [discriminate |].
  destruct (filter mask (rows df_forecast)); [reflexivity | discriminate].
Qed.

Lemma day_slots_forecast (df_forecast : ForecastFrame) (d : Z) :
  (Qsum (map (forecast_at df_forecast) (day_slots d))
   == forecast_of_day (select on_half_hour df_forecast) (to_datetime d))%Q.
Proof.
  destruct (empty df_forecast) eqn:He.
  - unfold forecast_at, forecast_of_day. rewrite He.
    assert (Hs : empty (select on_half_hour df_forecast) = true).
    { unfold empty, select in *. cbn [columns rows].
      destruct (columns df_forecast); [reflexivity |].
      destruct (rows df_forecast); [reflexivity | discriminate]. }
    rewrite Hs. apply Qsum_zero. apply Forall_map. apply Forall_forall.
    intros t _. reflexivity.
  - rewrite forecast_of_day_select by exact He. unfold forecast_at. rewrite He.
    set (in_day := fun r => (to_datetime d <=? ts r)
                            && (ts r <? to_datetime d + Timedelta_days 1)).
    rewrite (Qsum_map_ext _
               (fun t => Qsum (map forecast
                                 (filter (fun r => ts r =? t)
                                    (filter in_day
                                       (filter on_half_hour (rows df_forecast))))))).
    + apply (Qsum_partition forecast (fun t r => ts r =? t)).
      intros x Hx. apply filter_In in Hx. destruct Hx as [Hx Hday].
      apply filter_In in Hx. destruct Hx as [_ Hgrid].
      apply length_filter_Zeqb_NoDup; [apply day_slots_NoDup |].
      apply in_day_slots. unfold in_day in Hday.
      rewrite andb_true_iff, Z.leb_le, Z.ltb_lt in Hday. split; [exact Hday |].
      unfold on_half_hour in Hgrid. now apply Z.eqb_eq.
    + intros t Ht. apply in_day_slots in Ht. destruct Ht as [Ht Hm].
      rewrite !filter_filter_implied; [reflexivity | |].
      * intros x Hx. apply Z.eqb_eq in Hx. unfold on_half_hour. rewrite Hx.
        now apply Z.eqb_eq.
      * intros x Hx. apply Z.eqb_eq in Hx. unfold in_day. rewrite Hx.
        rewrite andb_true_iff, Z.leb_le, Z.ltb_lt. exact Ht.
Qed.

Lemma filter_all {A : Type} (p : A -> bool) (l : list A) :
  Forall (fun x => p x = true) l -> filter p l = l.
Proof.
  induction 1 as [|x l Hx _ IH]; [reflexivity |]. cbn [filter].
  now rewrite Hx, IH.
Qed.

Lemma Qsum_filter_split {A : Type} (f : A -> Q) (p q : A -> bool) (l : list A) :
  (Qsum (map f (filter q l))
   == Qsum (map f (filter q (filter p l)))
      + Qsum (map f (filter q (filter (fun x => negb (p x)) l))))%Q.
Proof.
  induction l as [|a l IH]; [reflexivity |]. cbn [filter].
  destruct (p a); cbn [negb filter]; destruct (q a); cbn [map Qsum fold_right];
    fold (Qsum (map f (filter q l)));
    fold (Qsum (map f (filter q (filter p l))));
    fold (Qsum (map f (filter q (filter (fun x => negb (p x)) l))));
    rewrite IH; ring.
Qed.

Lemma empty_select {R : Type} (mask : R -> bool) (df : DataFrame R) :
  empty df = true -> empty (select mask df) = true.
Proof.
  unfold empty, select. cbn [columns rows].
  destruct (columns df); [reflexivity |].
  destruct (rows df); [reflexivity | discriminate].
Qed.

(** The forecast of a day is that of its rows on the half-hour grid plus
    that of its rows off the grid. *)
Lemma forecast_of_day_split (df_forecast : ForecastFrame) (t : Timestamp) :
  (forecast_of_day df_forecast t
   == forecast_of_day (select on_half_hour df_forecast) t
      + forecast_of_day (select (fun x => negb (on_half_hour x)) df_forecast) t)%Q.
Proof.
  destruct (empty df_forecast) eqn:He.
  - unfold forecast_of_day. rewrite He, !empty_select by exact He. reflexivity.
  - rewrite !forecast_of_day_select by exact He.
    unfold forecast_of_day. rewrite He. apply Qsum_filter_split.
Qed.

(** X18: the forecast of the hourly view takes the rows at the slot
    starts only.  For a date from [min_date] up to, but not including,
    [max_date], the forecast of the slot of that date in the daily view
    is the sum of the 48 forecast values of the hourly view of the date
    and of the forecast rows of that day that are not timed on a multiple
    of 30 minutes: such a row counts in the daily view and in no hourly
    slot.  When every row is on the half-hour grid the two views agree on
    the forecast of the day. *)
Theorem hourly_forecasts_add_up_to_day (st : SessionState)
  (df_filtered : ActivityFrame) (df_forecast : ForecastFrame)
  (min_date max_date : Z) :
  empty df_forecast = true \/ columns df_forecast = forecast_columns ->
  min_date <= selected_date st < max_date ->
  exists hourly daily r,
    prepare_slot_data st By_hours df_filtered df_forecast min_date max_date
    = Ok hourly
    /\ prepare_slot_data st By_days df_filtered df_forecast min_date max_date
       = Ok daily
    /\ In r daily
    /\ slot_start r = to_datetime (selected_date st)
    /\ (forecast_value r
        == total_forecast_of hourly
           + forecast_of_day (select (fun x => negb (on_half_hour x)) df_forecast)
                             (to_datetime (selected_date st)))%Q
    /\ (Forall (fun x => on_half_hour x = true) (rows df_forecast) ->
        (total_forecast_of hourly == forecast_value r)%Q).
Proof.
  intros Hfc Hd.
  destruct (prepare_slot_data_hourly_keys st df_filtered df_forecast min_date
              max_date Hfc) as [hourly [Hrun Hkeys]].
  destruct (daily_row_of_date st df_filtered df_forecast min_date max_date
              (selected_date st) Hfc Hd) as [daily [r [Hday [Hin [Hs [_ Hf]]]]]].
  exists hourly, daily, r.
  split; [exact Hrun |]. split; [exact Hday |]. split; [exact Hin |].
  split; [exact Hs |].
  assert (Htot : (total_forecast_of hourly
                  == forecast_of_day (select on_half_hour df_forecast)
                                     (to_datetime (selected_date st)))%Q).
  { unfold total_forecast_of. rewrite forecast_value_of_key, Hkeys, map_map.
    cbn [snd]. apply day_slots_forecast. }
  split.
  - rewrite Hf, Htot. apply forecast_of_day_split.
  - intros Hgrid. rewrite Hf, Htot. unfold select. rewrite (filter_all _ _ Hgrid).
    destruct df_forecast. reflexivity.
Qed.

Lemma hourly_forecasts_add_up_to_day_witness :
  (exists hourly daily r,
     prepare_slot_data sample_session By_hours two_month_activity two_month_forecast
       jan31 feb02 = Ok hourly
     /\ prepare_slot_data sample_session By_days two_month_activity
          two_month_forecast jan31 feb02 = Ok daily
     /\ In r daily
     /\ slot_start r = to_datetime jan31
     /\ (total_forecast_of hourly == forecast_value r)%Q)
  /\ (exists hourly daily r,
        prepare_slot_data (mkSessionState 0 false false 1970 1) By_hours
          two_month_activity off_grid_forecast 0 1 = Ok hourly
        /\ prepare_slot_data (mkSessionState 0 false false 1970 1) By_days
             two_month_activity off_grid_forecast 0 1 = Ok daily
        /\ In r daily
        /\ slot_start r = 0
        /\ (forecast_value r == total_forecast_of hourly + 2)%Q).
Proof.
  split.
  - destruct (hourly_forecasts_add_up_to_day sample_session two_month_activity
                two_month_forecast jan31 feb02 (or_intror eq_refl)
                ltac:(vm_compute; split; [discriminate | reflexivity]))
      as [hourly [daily [r [Hrun [Hday [Hin [Hs [_ Hsum]]]]]]]].
    exists hourly, daily, r. split; [exact Hrun |]. split; [exact Hday |].
    split; [exact Hin |]. split; [exact Hs |]. apply Hsum. repeat constructor.
  - destruct (hourly_forecasts_add_up_to_day (mkSessionState 0 false false 1970 1)
                two_month_activity off_grid_forecast 0 1 (or_intror eq_refl)
                ltac:(vm_compute; split; [discriminate | reflexivity]))
      as [hourly [daily [r [Hrun [Hday [Hin [Hs [Hoff _]]]]]]]].
    exists hourly, daily, r. split; [exact Hrun |]. split; [exact Hday |].
    split; [exact Hin |]. split; [exact Hs |]. exact Hoff.
Defined.

(** ** Several activity files *)

Lemma calculate_overlap_app (df1 df2 : ActivityFrame) (s e : Timestamp) :
  (calculate_overlap (df1 ++ df2) s e
   == calculate_overlap df1 s e + calculate_overlap df2 s e)%Q.
Proof.
  rewrite !calculate_overlap_ns, map_app, Zsum_app. apply hours_of_ns_add.
Qed.

Lemma calculate_overlap_concat (dfs : list ActivityFrame) (s e : Timestamp) :
  (calculate_overlap (concat dfs) s e
   == Qsum (map (fun d => calculate_overlap d s e) dfs))%Q.
Proof.
  induction dfs as [|d dfs IH]; [reflexivity |].
  cbn [concat map]. rewrite calculate_overlap_app, IH. reflexivity.
Qed.

Lemma filter_concat {A : Type} (p : A -> bool) (ls : list (list A)) :
  filter p (concat ls) = concat (map (filter p) ls).
Proof.
  induction ls as [|l ls IH]; [reflexivity |]. cbn [concat map].
  now rewrite filter_app, IH.
Qed.

Lemma Qsum_map_filter_zero {A : Type} (g : A -> Q) (p : A -> bool) (l : list A) :
  (forall x, In x l -> p x = false -> g x == 0)%Q ->
  (Qsum (map g (filter p l)) == Qsum (map g l))%Q.
Proof.
  induction l as [|a l IH]; intros H; [reflexivity |]. cbn [filter].
  destruct (p a) eqn:Ha; cbn [map Qsum fold_right];
    fold (Qsum (map g l)).
  - fold (Qsum (map g (filter p l))).
    rewrite IH by (intros x Hx; apply H; now right). reflexivity.
  - rewrite IH by (intros x Hx; apply H; now right).
    rewrite (H a (or_introl eq_refl) Ha). ring.
Qed.

Lemma load_activity_empty_rows (f : DataFrame ActivitySheetRow) :
  empty (load_activity f) = true -> rows (load_activity f) = [].
Proof.
  unfold load_activity.
  destruct (negb (forallb (has_column f) activity_required_columns));
    [reflexivity |].
  destruct (existsb _ (rows f)); [reflexivity |].
  unfold empty. cbn [columns rows].
  match goal with
  | |- context [add_column "end" ?d] => set (d0 := d)
  end.
  assert (Hc : columns (add_column "end" d0) <> []).
  { unfold add_column. destruct (has_column d0 "end") eqn:Hh.
    - unfold has_column in Hh. destruct (columns d0); [discriminate | discriminate].
    - cbn [columns]. destruct (columns d0); discriminate. }
  destruct (columns (add_column "end" d0)); [contradiction |].
  match goal with
  | |- match ?l with _ => _ end = true -> _ => destruct l
  end; [reflexivity | discriminate].
Qed.

(** X19: activity uploaded in several files adds up.  The overlap of a
    slot with the table that [load_and_validate_files] combines is the
    sum of its overlaps with the tables that [load_activity] returns for
    the files, also after [filter_data]; a file that does not load
    contributes nothing. *)
Theorem combined_activity_plan (activity_files : list (DataFrame ActivitySheetRow))
  (df_act_combined : ActivityFrame) (variants acts : list string)
  (s e : Timestamp) :
  load_and_validate_files activity_files = Some df_act_combined ->
  (calculate_overlap df_act_combined s e
   == Qsum (map (fun f => calculate_overlap (rows (load_activity f)) s e)
                activity_files))%Q
  /\ (calculate_overlap (filter_data df_act_combined variants acts) s e
      == Qsum (map (fun f =>
                      calculate_overlap
                        (filter_data (rows (load_activity f)) variants acts) s e)
                   activity_files))%Q.
Proof.
  intros Hload. unfold load_and_validate_files in Hload.
  destruct activity_files as [|f0 fs]; [discriminate |].
  set (files := f0 :: fs) in *.
  set (dfs := filter (fun df => negb (empty df)) (map load_activity files)) in *.
  assert (Hd : df_act_combined = concat (map rows dfs))
    by (destruct dfs; [discriminate | now injection Hload]).
  subst df_act_combined. unfold dfs. clear Hload dfs. split.
  - rewrite calculate_overlap_concat, map_map.
    rewrite (Qsum_map_filter_zero (fun d => calculate_overlap (rows d) s e)).
    + rewrite map_map. reflexivity.
    + intros d Hd He. apply in_map_iff in Hd. destruct Hd as [f [<- _]].
      apply negb_false_iff in He.
      now rewrite (load_activity_empty_rows f He).
  - unfold filter_data at 1. rewrite filter_concat, calculate_overlap_concat.
    rewrite !map_map.
    change (fun x : DataFrame Activity =>
              calculate_overlap
                (filter (fun r => isin variants (skill_variant r)
                                  && isin acts (main_act r)) (rows x)) s e)
      with (fun x : DataFrame Activity =>
              calculate_overlap (filter_data (rows x) variants acts) s e).
    rewrite (Qsum_map_filter_zero
               (fun d => calculate_overlap (filter_data (rows d) variants acts) s e)).
    + rewrite map_map. reflexivity.
    + intros d Hd He. apply in_map_iff in Hd. destruct Hd as [f [<- _]].
      apply negb_false_iff in He.
      now rewrite (load_activity_empty_rows f He).
Qed.

Lemma combined_activity_plan_witness :
  exists df_act_combined,
    load_and_validate_files [sample_sheet; DataFrame_empty; sample_sheet]
    = Some df_act_combined
    /\ (calculate_overlap df_act_combined 0 NS_PER_DAY
        == Qsum (map (fun f => calculate_overlap (rows (load_activity f)) 0 NS_PER_DAY)
                     [sample_sheet; DataFrame_empty; sample_sheet]))%Q.
Proof.
  eexists. split; [reflexivity |].
  exact (proj1 (combined_activity_plan [sample_sheet; DataFrame_empty; sample_sheet]
                  _ [] [] 0 NS_PER_DAY eq_refl)).
Defined.

(** ** The errors of the KPI table *)

Lemma for_each_app_raise {A B : Type} (xs : list A) (x : A) (rest : list A)
  (body : A -> result (list B)) (e : exn) :
  Forall (fun a => exists ys, body a = Ok ys) xs ->
  body x = Raise e ->
  for_each (xs ++ x :: rest) body = Raise e.
Proof.
  intros Hok Hx. induction Hok as [|a xs [ys Ha] _ IH].
  - cbn [app for_each]. now rewrite Hx.
  - cbn [app for_each]. now rewrite Ha, IH.
Qed.

Lemma for_each_total {A B : Type} (xs : list A) (body : A -> result (list B)) :
  (forall x, In x xs -> exists ys, body x = Ok ys) ->
  exists out, for_each xs body = Ok out.
Proof.
  induction xs as [|x xs IH]; intros H; [now exists [] |].
  destruct (H x (or_introl eq_refl)) as [ys Hx].
  destruct IH as [zs Hz]; [intros y Hy; apply H; now right |].
  exists (ys ++ zs). cbn [for_each]. now rewrite Hx, Hz.
Qed.

(** X20: the errors of [calculate_monthly_kpi].  A month outside 1..12
    raises [ValueError], whatever the other arguments; with forecast rows
    present, a selected channel that is no key of [CHANNEL_MAPPING]
    raises [KeyError] with the name of the first such channel. *)
Theorem monthly_kpi_errors (VARIANT_TO_SYSTEM : list (string * string))
  (df_filtered : ActivityFrame) (df_forecast : ForecastFrame)
  (selected_variants : list string) (year month : Z) :
  (forall selected_channels,
     month < 1 \/ 12 < month ->
     calculate_monthly_kpi VARIANT_TO_SYSTEM df_filtered df_forecast
       selected_channels selected_variants year month = Raise ValueError)
  /\ (forall known c rest,
        1 <= month <= 12 ->
        empty df_forecast = false ->
        columns df_forecast = forecast_columns ->
        Forall (fun k => dict_get CHANNEL_MAPPING k <> None) known ->
        dict_get CHANNEL_MAPPING c = None ->
        calculate_monthly_kpi VARIANT_TO_SYSTEM df_filtered df_forecast
          (known ++ c :: rest) selected_variants year month
        = Raise (KeyError c)).
Proof.
  split.
  - intros selected_channels Hm. unfold calculate_monthly_kpi, Timestamp_ymd.
    destruct (Z.leb_spec 1 month); destruct (Z.leb_spec month 12);
      cbn [andb negb bind]; try reflexivity. lia.
  - intros known c rest Hm He Hcols Hknown Hc.
    unfold calculate_monthly_kpi.
    rewrite Timestamp_ymd_first by exact Hm. cbn [bind]. cbv zeta.
    rewrite He. cbn [negb].
    destruct df_forecast as [cols rws]. cbn [columns] in Hcols. subst cols.
    change (getitem (mkDataFrame forecast_columns rws) "Дата") with (Ok tt).
    change (getitem (mkDataFrame forecast_columns rws) "Время") with (Ok tt).
    cbn [bind].
    match goal with
    | |- context [getitem ?d "system_group"] => set (df_fc_m := d)
    end.
    assert (G1 : getitem df_fc_m "Канал коммуникации" = Ok tt) by reflexivity.
    assert (G2 : getitem df_fc_m "system_group" = Ok tt) by reflexivity.
    assert (G3 : forall mask, getitem (select mask df_fc_m) "ts" = Ok tt)
      by reflexivity.
    assert (G4 : forall mask, getitem (select mask df_fc_m) "Прогноз" = Ok tt)
      by reflexivity.
    rewrite G1, G2. cbn [bind].
    rewrite (for_each_app_raise known c rest _ (KeyError c)).
    + reflexivity.
    + eapply Forall_impl; [| exact Hknown]. intros k Hk. cbv beta in *.
      unfold dict_getitem.
      destruct (dict_get CHANNEL_MAPPING k) as [acts|]; [| now elim Hk].
      cbn [bind].
      apply for_each_total. intros s _. apply for_each_total. intros t _.
      rewrite G3, G4. cbn [bind]. now eexists.
    + unfold dict_getitem. now rewrite Hc.
Qed.

Lemma monthly_kpi_errors_witness :
  calculate_monthly_kpi [] [act_10_00_10_45] sample_forecast_frame
    ["Чаты"] ["A"] 2023 13 = Raise ValueError
  /\ calculate_monthly_kpi [] [act_10_00_10_45] sample_forecast_frame
       (["Чаты"] ++ "Почта" :: ["Отпуск"]) ["A"] 2023 2 = Raise (KeyError "Почта").
Proof.
  destruct (monthly_kpi_errors [] [act_10_00_10_45] sample_forecast_frame ["A"]
              2023 13) as [Hmonth _].
  destruct (monthly_kpi_errors [] [act_10_00_10_45] sample_forecast_frame ["A"]
              2023 2) as [_ Hkey].
  split.
  - apply Hmonth. right. lia.
  - apply Hkey.
    + lia.
    + reflexivity.
    + reflexivity.
    + repeat constructor. discriminate.
    + reflexivity.
Defined.
